(** * The task scheduler's control service (task/mock/task_control_service.go)

    A shallow embedding of [mock.TaskControlService], the in-memory
    implementation of [backend.TaskControlService]: the schedule gate
    ([CreateNextRun], [createNextRun], [nextDueRun]), the run lifecycle
    ([UpdateRunState], [AddRunLog], [FinishRun]) and the manual run queue
    ([SetManualRuns], [ManualRuns]).

    Every method of the service runs under the service's mutex, so a method
    is one atomic step on the service state: a function from the state to an
    outcome and the next state. *)

From stdpp Require Import gmap strings list fin_maps sorting.
From Stdlib Require Import ZArith Lia Ascii DecimalString.

Open Scope string_scope.
Open Scope Z_scope.

(** ** Outcomes

    A Go method of the service returns a value, returns an [error], or
    panics. *)

Inductive error : Type :=
  | errInvalidTaskID                 (* errors.New("invalid task id") *)
  | errCronParse (spec : string)     (* the error of cron.Parse *)
  | errTimeParse (value : string)    (* the error of time.Parse *)
  | ErrRunNotDueYet (dueAt : Z)      (* influxdb.ErrRunNotDueYet(dueAt) *)
  | ErrRunNotFound                   (* influxdb.ErrRunNotFound *)
  | ErrInvalidSchedule.              (* the resolver's InvalidSchedule *)

Inductive outcome (A : Type) : Type :=
  | Ok (a : A)
  | Err (e : error)
  | Panic (msg : string).

Arguments Ok {A} a.
Arguments Err {A} e.
Arguments Panic {A} msg.

(** ** Machine integers and times *)

(** Go's [int64]: the sum of two [int64] wraps around. *)
Definition int64 (z : Z) : Z := (z + 2 ^ 63) mod 2 ^ 64 - 2 ^ 63.
Definition add64 (a b : Z) : Z := int64 (a + b).

(** A [time.Time] is an instant with nanosecond resolution, kept as the
    number of nanoseconds since the Unix epoch; all times are taken in one
    location. *)
Definition Time : Type := Z.

Definition nanosPerSecond : Z := 1000000000.

(** [t.Unix()]: whole seconds since the epoch, rounded down. *)
Definition Time_Unix (t : Time) : Z := t `div` nanosPerSecond.

(** [time.Unix(sec, nsec)]. *)
Definition time_Unix (sec nsec : Z) : Time := sec * nanosPerSecond + nsec.

(** [t.After(u)]. *)
Definition Time_After (t u : Time) : bool := u <? t.

(** The zero [time.Time]: January 1, year 1, 00:00:00 UTC. *)
Definition zeroTime : Time := time_Unix (-62135596800) 0.

(** ** The platform's data types *)

Module influxdb.
(** [influxdb.ID] is an unsigned 64-bit identifier. *)
Definition ID : Type := N.
End influxdb.

Module Log.
Record t : Type := mk {
  RunID : influxdb.ID; Time : string; Message : string
}.
End Log.

Module Run.
Record t : Type := mk {
  ID : influxdb.ID;
  TaskID : influxdb.ID;
  Status : string;
  ScheduledFor : Time;
  StartedAt : Time;
  FinishedAt : Time;
  RequestedAt : Time;
  Log : list Log.t
}.

(** [&influxdb.Run{ID: id, ScheduledFor: at}]: every other field has its
    zero value. *)
Definition new (id : influxdb.ID) (at_ : Time) : t :=
  mk id 0%N "" at_ zeroTime zeroTime zeroTime [].

Definition setStartedAt (r : t) (when : Time) : t :=
  mk (ID r) (TaskID r) (Status r) (ScheduledFor r) when (FinishedAt r)
     (RequestedAt r) (Log r).
Definition setFinishedAt (r : t) (when : Time) : t :=
  mk (ID r) (TaskID r) (Status r) (ScheduledFor r) (StartedAt r) when
     (RequestedAt r) (Log r).
Definition setStatus (r : t) (s : string) : t :=
  mk (ID r) (TaskID r) s (ScheduledFor r) (StartedAt r) (FinishedAt r)
     (RequestedAt r) (Log r).
Definition addLog (r : t) (l : Log.t) : t :=
  mk (ID r) (TaskID r) (Status r) (ScheduledFor r) (StartedAt r)
     (FinishedAt r) (RequestedAt r) (Log r ++ [l]).
End Run.

Module Task.
(** The fields of [influxdb.Task] that the scheduler reads or writes. *)
Record t : Type := mk {
  ID : influxdb.ID;
  Every : string;
  Cron : string;
  Offset : string;
  LatestCompleted : string
}.

Definition setLatestCompleted (task : t) (s : string) : t :=
  mk (ID task) (Every task) (Cron task) (Offset task) s.
End Task.

Module QueuedRun.
Record t : Type := mk {
  TaskID : influxdb.ID;
  RunID : influxdb.ID;
  Now : Z
}.
Definition setTaskID (q : t) (id : influxdb.ID) : t := mk id (RunID q) (Now q).
End QueuedRun.

Module RunCreation.
Record t : Type := mk {
  Created : QueuedRun.t;
  NextDue : Z;
  HasQueue : bool
}.
Definition setCreated (rc : t) (q : QueuedRun.t) : t :=
  mk q (NextDue rc) (HasQueue rc).
End RunCreation.

(** [backend.RunStatus] is an integer type with five declared constants;
    [RunUnknown] stands for any other value of the type. *)
Inductive RunStatus : Type :=
  | RunStarted
  | RunSuccess
  | RunFail
  | RunCanceled
  | RunScheduled
  | RunUnknown (n : Z).

(** Modelled from the spec: [backend.RunStatus] and its [String] method are
    declared in task/backend, which is not among the sources; the names are
    those of the spec's status list ([Scheduled, Started, Success, Failed,
    Canceled]) in lower case. [String] is only called on a declared
    constant. *)
Definition RunStatus_String (s : RunStatus) : string :=
  match s with
  | RunStarted => "started"
  | RunSuccess => "success"
  | RunFail => "failed"
  | RunCanceled => "canceled"
  | RunScheduled => "scheduled"
  | RunUnknown _ => "unknown"
  end.

(** ** Collaborators

    [cron.Schedule] is an interface with one method. *)
Record Schedule : Type := { Next : Time → Time }.

(** What the service calls and is declared elsewhere: the methods of
    [influxdb.ID] and [influxdb.Task], the snowflake identifier generator,
    and the [time] and [cron] libraries. *)
Class Platform : Type := {
  (** [id.Valid()] *)
  ID_Valid : influxdb.ID → bool;
  (** [id.String()] *)
  ID_String : influxdb.ID → string;
  (** [idgen.ID()]: the identifier drawn after [n] earlier draws from the
      package-level generator *)
  idgen_ID : nat → influxdb.ID;
  (** [task.EffectiveCron()] *)
  Task_EffectiveCron : Task.t → string;
  (** [cron.Parse(spec)], [None] when it returns an error *)
  cron_Parse : string → option Schedule;
  (** [time.Parse(time.RFC3339, value)], [None] when it returns an error *)
  time_Parse : string → option Time;
  (** [t.Format(time.RFC3339)] *)
  Time_Format : Time → string;
  (** [t.Format(time.RFC3339Nano)] *)
  Time_FormatNano : Time → string;
  (** [time.ParseDuration(s)], a [time.Duration] in nanoseconds, [None]
      when it returns an error *)
  time_ParseDuration : string → option Z
}.

(** ** The service state *)

Record TaskControlService : Type := mkService {
  (** task ID to the task's in-flight runs, by run ID *)
  runs : gmap influxdb.ID (gmap influxdb.ID Run.t);
  (** concatenated task and run ID to the run that has been created *)
  created : gmap string QueuedRun.t;
  (** task ID to task *)
  tasks : gmap influxdb.ID Task.t;
  manualRuns : list Run.t;
  (** task ID to the number of runs created for that task *)
  totalRunsCreated : gmap influxdb.ID Z;
  finishedRuns : gmap influxdb.ID Run.t;
  (** the number of identifiers drawn from the package-level [idgen] *)
  idgen : nat
}.

Definition NewTaskControlService : TaskControlService :=
  mkService ∅ ∅ ∅ [] ∅ ∅ 0.

Definition set_runs (d : TaskControlService) v : TaskControlService :=
  mkService v (created d) (tasks d) (manualRuns d) (totalRunsCreated d)
            (finishedRuns d) (idgen d).
Definition set_created (d : TaskControlService) v : TaskControlService :=
  mkService (runs d) v (tasks d) (manualRuns d) (totalRunsCreated d)
            (finishedRuns d) (idgen d).
Definition set_tasks (d : TaskControlService) v : TaskControlService :=
  mkService (runs d) (created d) v (manualRuns d) (totalRunsCreated d)
            (finishedRuns d) (idgen d).
Definition set_manualRuns (d : TaskControlService) v : TaskControlService :=
  mkService (runs d) (created d) (tasks d) v (totalRunsCreated d)
            (finishedRuns d) (idgen d).
Definition set_totalRunsCreated (d : TaskControlService) v : TaskControlService :=
  mkService (runs d) (created d) (tasks d) (manualRuns d) v
            (finishedRuns d) (idgen d).
Definition set_finishedRuns (d : TaskControlService) v : TaskControlService :=
  mkService (runs d) (created d) (tasks d) (manualRuns d) (totalRunsCreated d)
            v (idgen d).
Definition set_idgen (d : TaskControlService) v : TaskControlService :=
  mkService (runs d) (created d) (tasks d) (manualRuns d) (totalRunsCreated d)
            (finishedRuns d) v.

(** [d.runs[tid]], the empty map when the task has none ([range] and lookup
    treat a missing entry as an empty map). *)
Definition inflight (d : TaskControlService) (tid : influxdb.ID)
  : gmap influxdb.ID Run.t :=
  default ∅ (runs d !! tid).

(** [d.runs[tid][rid]]. *)
Definition tracked (d : TaskControlService) (tid rid : influxdb.ID)
  : option Run.t :=
  inflight d tid !! rid.

(** [d.totalRunsCreated[taskID]++] *)
Definition countRun (d : TaskControlService) (taskID : influxdb.ID)
  : TaskControlService :=
  set_totalRunsCreated d
    (<[taskID := add64 (default 0 (totalRunsCreated d !! taskID)) 1]>
       (totalRunsCreated d)).

(** [d.created[tid.String()+q.RunID.String()] = q] *)
Definition recordCreated `{Platform} (d : TaskControlService)
    (tid : influxdb.ID) (q : QueuedRun.t) : TaskControlService :=
  set_created d
    (<[ID_String tid +:+ ID_String (QueuedRun.RunID q) := q]> (created d)).

Section Service.
Context `{Platform}.

(** *** The schedule gate *)

Definition createNextRun (t : TaskControlService) (task : Task.t) (now : Z)
  : outcome RunCreation.t * TaskControlService :=
  match cron_Parse (Task_EffectiveCron task) with
  | None => (Err (errCronParse (Task_EffectiveCron task)), t)
  | Some sch =>
    let latest := 0 in
    let latest :=
      match time_Parse (Task.LatestCompleted task) with
      | Some lt => Time_Unix lt
      | None => latest
      end in
    (* for _, r := range t.runs[task.ID] *)
    let latest :=
      map_fold (λ _ r latest,
                  if Time_Unix (Run.ScheduledFor r) >? latest
                  then Time_Unix (Run.ScheduledFor r) else latest)
               latest (inflight t (Task.ID task)) in
    let nextScheduled := Next sch (time_Unix latest 0) in
    let nextScheduledUnix := Time_Unix nextScheduled in
    let offset := 0 in
    let offset :=
      if decide (Task.Offset task = "") then offset
      else match time_ParseDuration (Task.Offset task) with
           | Some toff => toff
           | None => offset
           end in
    let dueAt := add64 nextScheduledUnix offset in
    if dueAt >? now then (Err (ErrRunNotDueYet dueAt), t)
    else
      let runID := idgen_ID (idgen t) in
      let t := set_idgen t (S (idgen t)) in
      let runs' := <[runID := Run.new runID nextScheduled]>
                     (inflight t (Task.ID task)) in
      let t := set_runs t (<[Task.ID task := runs']> (runs t)) in
      (Ok (RunCreation.mk
             (QueuedRun.mk 0%N runID nextScheduledUnix)
             (add64 (Time_Unix (Next sch nextScheduled)) offset)
             false),
       t)
  end.

Definition nextDueRun (d : TaskControlService) (taskID : influxdb.ID)
  : outcome Z :=
  match tasks d !! taskID with
  | None => Panic "invalid memory address or nil pointer dereference"
  | Some task =>
    match cron_Parse (Task_EffectiveCron task) with
    | None => Err (errCronParse (Task_EffectiveCron task))
    | Some sch =>
      let latest := 0 in
      let latest :=
        match time_Parse (Task.LatestCompleted task) with
        | Some lt => Time_Unix lt
        | None => latest
        end in
      let latest :=
        map_fold (λ _ r latest,
                    if Time_Unix (Run.ScheduledFor r) >? latest
                    then Time_Unix (Run.ScheduledFor r) else latest)
                 latest (inflight d (Task.ID task)) in
      let nextScheduled := Next sch (time_Unix latest 0) in
      let nextScheduledUnix := Time_Unix nextScheduled in
      let offset := 0 in
      let offset :=
        if decide (Task.Offset task = "") then offset
        else match time_ParseDuration (Task.Offset task) with
             | Some toff => toff
             | None => offset
             end in
      Ok (add64 nextScheduledUnix offset)
    end
  end.

(** [NextDueRun] takes the lock and calls [nextDueRun]; it changes
    nothing. *)
Definition NextDueRun (d : TaskControlService) (taskID : influxdb.ID)
  : outcome Z * TaskControlService :=
  (nextDueRun d taskID, d).

Definition CreateNextRun (d : TaskControlService) (taskID : influxdb.ID)
    (now : Z) : outcome RunCreation.t * TaskControlService :=
  if negb (ID_Valid taskID) then (Err errInvalidTaskID, d)
  else
    let tid := taskID in
    match tasks d !! tid with
    | None => (Panic ("meta not set for task with ID " +:+ ID_String tid), d)
    | Some task =>
      match manualRuns d with
      | run :: rest =>
        let d := set_manualRuns d rest in
        (* [runs[run.ID] = run] writes through to [d.runs[tid]] when the
           task has a map already; [d.runs[task.ID] = runs] stores the same
           map under the task's own ID. *)
        let runs' := <[Run.ID run := run]> (inflight d tid) in
        let d := set_runs d (<[Task.ID task := runs']>
                               (alter (λ _, runs') tid (runs d))) in
        match nextDueRun d taskID with
        | Panic msg => (Panic msg, d)
        | next =>
          let rc := RunCreation.mk
                      (QueuedRun.mk (Task.ID task) (Run.ID run)
                                    (Time_Unix (Run.ScheduledFor run)))
                      (match next with Ok n => n | _ => 0 end)
                      (match rest with [] => false | _ => true end) in
          let d := recordCreated d tid (RunCreation.Created rc) in
          let d := countRun d taskID in
          (Ok rc, d)
        end
      | [] =>
        match createNextRun d task now with
        | (Ok rc, d) =>
          let rc := RunCreation.setCreated rc
                      (QueuedRun.setTaskID (RunCreation.Created rc) taskID) in
          let d := recordCreated d tid (RunCreation.Created rc) in
          let d := countRun d taskID in
          (Ok rc, d)
        | (Err e, d) => (Err e, d)
        | (Panic msg, d) => (Panic msg, d)
        end
      end
    end.

(** *** Registration *)

Definition SetTask (d : TaskControlService) (task : Task.t)
  : TaskControlService :=
  set_tasks d (<[Task.ID task := task]> (tasks d)).

Definition SetManualRuns (d : TaskControlService) (runs : list Run.t)
  : TaskControlService :=
  set_manualRuns d runs.

Definition CreateRun (t : TaskControlService) (taskID : influxdb.ID)
    (scheduledFor : Time) : outcome Run.t * TaskControlService :=
  let runID := idgen_ID (idgen t) in
  let t := set_idgen t (S (idgen t)) in
  let run := Run.new runID scheduledFor in
  let runs' := <[runID := run]> (inflight t taskID) in
  (Ok run, set_runs t (<[taskID := runs']> (runs t))).

(** *** The run lifecycle *)

Definition FinishRun (d : TaskControlService) (taskID runID : influxdb.ID)
  : outcome Run.t * TaskControlService :=
  let tid := taskID in
  let rid := runID in
  let r := tracked d tid rid in
  (* delete(d.runs[tid], rid): nothing happens when the task has no map *)
  let d := set_runs d (alter (delete rid) tid (runs d)) in
  let t := tasks d !! tid in
  match r with
  | None => (Panic "invalid memory address or nil pointer dereference", d)
  | Some r =>
    let schedFor := Time_Format (Run.ScheduledFor r) in
    match t with
    | None => (Panic "invalid memory address or nil pointer dereference", d)
    | Some t =>
      let finish (d : TaskControlService) :=
        let d := set_finishedRuns d (<[rid := r]> (finishedRuns d)) in
        let d := set_created d
                   (delete (ID_String tid +:+ ID_String rid) (created d)) in
        (Ok r, d) in
      if decide (Task.LatestCompleted t = "") then finish d
      else
        match time_Parse (Task.LatestCompleted t) with
        | None => (Err (errTimeParse (Task.LatestCompleted t)), d)
        | Some latest =>
          if Time_After (Run.ScheduledFor r) latest
          then finish (set_tasks d
                         (<[tid := Task.setLatestCompleted t schedFor]>
                            (tasks d)))
          else finish d
        end
    end
  end.

(** [ManualRuns] returns the queue, an empty slice when it is nil. *)
Definition ManualRuns (t : TaskControlService) (taskID : influxdb.ID)
  : outcome (list Run.t) * TaskControlService :=
  (Ok (manualRuns t), t).

Definition UpdateRunState (d : TaskControlService)
    (taskID runID : influxdb.ID) (when : Time) (state : RunStatus)
  : outcome unit * TaskControlService :=
  match tracked d taskID runID with
  | None => (Panic "run state called without a run", d)
  | Some run =>
    let stamped :=
      match state with
      | RunStarted => Some (Run.setStartedAt run when)
      | RunSuccess | RunFail | RunCanceled => Some (Run.setFinishedAt run when)
      | RunScheduled => Some run
      | RunUnknown _ => None
      end in
    match stamped with
    | None => (Panic "invalid status", d)
    | Some run =>
      let run := Run.setStatus run (RunStatus_String state) in
      (Ok tt,
       set_runs d (<[taskID := <[runID := run]> (inflight d taskID)]> (runs d)))
    end
  end.

Definition AddRunLog (d : TaskControlService) (taskID runID : influxdb.ID)
    (when : Time) (log : string) : outcome unit * TaskControlService :=
  match tracked d taskID runID with
  | None => (Panic "cannot add a log to a non existent run", d)
  | Some run =>
    let run := Run.addLog run (Log.mk runID (Time_FormatNano when) log) in
    (Ok tt,
     set_runs d (<[taskID := <[runID := run]> (inflight d taskID)]> (runs d)))
  end.

(** *** Taking a manual run by ID *)

(** [append(s[:i], s[i+1:]...)] where [s] is the slice of length [m] over
    the array [arr]: the append is in place, the elements of [s] after [i]
    move down by one and the array keeps what lies at [m - 1] and after. *)
Definition removeAt (i m : nat) (arr : list Run.t) : list Run.t :=
  take i arr ++ drop (S i) (take m arr) ++ drop (m - 1) arr.

Inductive rangeResult : Type :=
  | RangeDone (arr : list Run.t) (m : nat) (run : option Run.t)
  | RangePanic (arr : list Run.t) (m : nat).

(** The loop [for i, r := range t.manualRuns] of [StartManualRun]. Go
    evaluates the range expression once: the loop visits the indices of the
    slice as it was on entry, and reads each element from the array when it
    gets there, after the removals made so far. [arr] is that array, [m] the
    current length of [t.manualRuns] (a prefix of [arr]), [run] the run
    found so far, [i] the index and [todo] the number of indices left. The
    slice expression [t.manualRuns[i+1:]] panics when [i + 1] exceeds the
    current length. *)
Fixpoint startManualRunLoop (runID : influxdb.ID) (todo i : nat)
    (arr : list Run.t) (m : nat) (run : option Run.t) : rangeResult :=
  match todo with
  | O => RangeDone arr m run
  | S todo =>
    match arr !! i with
    | None => RangeDone arr m run
    | Some r =>
      if decide (Run.ID r = runID) then
        if decide (S i ≤ m)%nat
        then startManualRunLoop runID todo (S i) (removeAt i m arr) (m - 1)
                                (Some r)
        else RangePanic arr m
      else startManualRunLoop runID todo (S i) arr m run
    end
  end.

Definition StartManualRun (t : TaskControlService) (taskID runID : influxdb.ID)
  : outcome Run.t * TaskControlService :=
  let n := length (manualRuns t) in
  match startManualRunLoop runID n 0 (manualRuns t) n None with
  | RangePanic arr m =>
    (Panic "slice bounds out of range", set_manualRuns t (take m arr))
  | RangeDone arr m run =>
    let t := set_manualRuns t (take m arr) in
    match run with
    | None => (Err ErrRunNotFound, t)
    | Some run => (Ok run, t)
    end
  end.

(** *** Queries *)

(** [CurrentlyRunning] collects the task's in-flight runs by ranging over
    the map; Go fixes no order, the list here is in the order of
    [map_to_list]. *)
Definition CurrentlyRunning (t : TaskControlService) (taskID : influxdb.ID)
  : outcome (list Run.t) * TaskControlService :=
  (Ok ((map_to_list (inflight t taskID)).*2), t).

(** [CreatedFor] ranges over [d.created] and keeps the runs of the task; the
    order is again that of [map_to_list]. *)
Definition CreatedFor (d : TaskControlService) (taskID : influxdb.ID)
  : list QueuedRun.t :=
  filter (λ qr, QueuedRun.TaskID qr = taskID) ((map_to_list (created d)).*2).

Definition TotalRunsCreatedForTask (d : TaskControlService)
    (taskID : influxdb.ID) : Z :=
  default 0 (totalRunsCreated d !! taskID).

(** [FinishedRun] returns the run, or nil. *)
Definition FinishedRun (d : TaskControlService) (runID : influxdb.ID)
  : option Run.t :=
  finishedRuns d !! runID.

(** [sort.Slice] with [less = rtn[i].ScheduledFor.Before(rtn[j].ScheduledFor)]
    leaves no run before one with an earlier [ScheduledFor]; it is not
    stable, so runs with equal [ScheduledFor] come in no fixed order. *)
Definition notAfter (a b : Run.t) : Prop :=
  Run.ScheduledFor a ≤ Run.ScheduledFor b.

#[global] Instance notAfter_dec (a b : Run.t) : Decision (notAfter a b) :=
  Z_le_dec (Run.ScheduledFor a) (Run.ScheduledFor b).

Definition FinishedRuns (d : TaskControlService) : list Run.t :=
  merge_sort notAfter ((map_to_list (finishedRuns d)).*2).

End Service.

(** ** Sequences of calls, and the notions the properties are stated with *)

Section Traces.
Context `{Platform}.

(** A driver's calls on the service. A call that returns an error or
    panics leaves the state it had reached; the next call of the trace
    runs on that state. *)
Inductive call : Type :=
  | CallCreateNextRun (taskID : influxdb.ID) (now : Z)
  | CallFinishRun (taskID runID : influxdb.ID).

Definition step (d : TaskControlService) (c : call) : TaskControlService :=
  match c with
  | CallCreateNextRun taskID now => (CreateNextRun d taskID now).2
  | CallFinishRun taskID runID => (FinishRun d taskID runID).2
  end.

Definition run_calls (cs : list call) (d : TaskControlService)
  : TaskControlService :=
  foldl step d cs.

(** A trace of [FinishRun] calls. *)
Definition finishes (cs : list (influxdb.ID * influxdb.ID)) : list call :=
  (λ c, CallFinishRun c.1 c.2) <$> cs.

(** The watermark as the gate reads it: the Unix time of
    [task.LatestCompleted] when it parses, and 0 otherwise. *)
Definition watermark (task : Task.t) : Z :=
  match time_Parse (Task.LatestCompleted task) with
  | Some lt => Time_Unix lt
  | None => 0
  end.

(** The tick of a run, in Unix seconds. *)
Definition tick (r : Run.t) : Z := Time_Unix (Run.ScheduledFor r).

(** [latest] is the maximum of the task's watermark and the ticks of its
    in-flight runs. *)
Definition is_latest (d : TaskControlService) (task : Task.t) (latest : Z)
  : Prop :=
  watermark task ≤ latest ∧
  (∀ rid r, tracked d (Task.ID task) rid = Some r → tick r ≤ latest) ∧
  (latest = watermark task ∨
   ∃ rid r, tracked d (Task.ID task) rid = Some r ∧ latest = tick r).

(** That maximum, computed over the runs as [map_to_list] lists them. *)
Definition latestRun (d : TaskControlService) (task : Task.t) : Z :=
  foldr (λ kr latest, Z.max (tick kr.2) latest) (watermark task)
        (map_to_list (inflight d (Task.ID task))).

(** The task's offset as the gate counts it: 0 for an empty or unparsable
    [Offset], else the nanosecond count of the parsed duration. *)
Definition taskOffset (task : Task.t) : Z :=
  if decide (Task.Offset task = "") then 0
  else default 0 (time_ParseDuration (Task.Offset task)).

(** The tick after [latest], and the time it is due. *)
Definition nextTick (d : TaskControlService) (task : Task.t) (sch : Schedule)
  : Time :=
  Next sch (time_Unix (latestRun d task) 0).

Definition dueAt (d : TaskControlService) (task : Task.t) (sch : Schedule)
  : Z :=
  add64 (Time_Unix (nextTick d task sch)) (taskOffset task).

(** The due time as the contract of the gate words it,
    [dueAt = schedule.Next(latest) + Offset]: the tick moved by the offset,
    a time and a duration, read in the Unix seconds in which [now] is
    given. *)
Definition dueAt_contract (d : TaskControlService) (task : Task.t)
    (sch : Schedule) : Z :=
  Time_Unix (nextTick d task sch + taskOffset task).

(** The run the gate creates, and the state it leaves. *)
Definition gateRun (d : TaskControlService) (task : Task.t) (sch : Schedule)
  : Run.t :=
  Run.new (idgen_ID (idgen d)) (nextTick d task sch).

Definition gateState (d : TaskControlService) (task : Task.t) (sch : Schedule)
  : TaskControlService :=
  set_runs (set_idgen d (S (idgen d)))
    (<[Task.ID task := <[idgen_ID (idgen d) := gateRun d task sch]>
                          (inflight d (Task.ID task))]> (runs d)).

(** No two in-flight runs of a task stand for the same tick. *)
Definition distinct_ticks (d : TaskControlService) (tid : influxdb.ID)
  : Prop :=
  ∀ rid1 rid2 r1 r2,
    tracked d tid rid1 = Some r1 → tracked d tid rid2 = Some r2 →
    rid1 ≠ rid2 → Run.ScheduledFor r1 ≠ Run.ScheduledFor r2.

(** What the cron library promises of [Next]: an activation strictly
    after its argument, on a whole second. *)
Definition advances (sch : Schedule) : Prop :=
  ∀ t, t < Next sch t ∧ Next sch t `mod` nanosPerSecond = 0.

(** Every task's schedule advances, whatever the task's watermark is. *)
Definition schedules_advance (d : TaskControlService) : Prop :=
  ∀ tid task sch lc,
    tasks d !! tid = Some task →
    cron_Parse (Task_EffectiveCron (Task.setLatestCompleted task lc))
    = Some sch →
    advances sch.

(** Formatting [t] as RFC 3339 and parsing it back keeps the second. *)
Definition survives_format (t : Time) : Prop :=
  ∃ t', time_Parse (Time_Format t) = Some t' ∧ Time_Unix t' = Time_Unix t.
End Traces.

(** ** Sequences of operations *)

Section Operations.
Context `{Platform}.

(** The calls that change the service. As in a trace of [call]s, a call
    that fails leaves the state it had reached. *)
Inductive op : Type :=
  | OpSetTask (task : Task.t)
  | OpSetManualRuns (runs : list Run.t)
  | OpCreateNextRun (taskID : influxdb.ID) (now : Z)
  | OpCreateRun (taskID : influxdb.ID) (scheduledFor : Time)
  | OpStartManualRun (taskID runID : influxdb.ID)
  | OpFinishRun (taskID runID : influxdb.ID)
  | OpUpdateRunState (taskID runID : influxdb.ID) (when : Time)
                     (state : RunStatus)
  | OpAddRunLog (taskID runID : influxdb.ID) (when : Time) (log : string).

Definition perform (d : TaskControlService) (o : op) : TaskControlService :=
  match o with
  | OpSetTask task => SetTask d task
  | OpSetManualRuns runs => SetManualRuns d runs
  | OpCreateNextRun taskID now => (CreateNextRun d taskID now).2
  | OpCreateRun taskID scheduledFor => (CreateRun d taskID scheduledFor).2
  | OpStartManualRun taskID runID => (StartManualRun d taskID runID).2
  | OpFinishRun taskID runID => (FinishRun d taskID runID).2
  | OpUpdateRunState taskID runID when state =>
    (UpdateRunState d taskID runID when state).2
  | OpAddRunLog taskID runID when log => (AddRunLog d taskID runID when log).2
  end.

Definition perform_all (os : list op) (d : TaskControlService)
  : TaskControlService :=
  foldl perform d os.

(** Whether [o], performed on [d], is a [CreateNextRun] for [tid] that
    returns a run. *)
Definition returnsRun (d : TaskControlService) (tid : influxdb.ID) (o : op)
  : bool :=
  match o with
  | OpCreateNextRun taskID now =>
    match (CreateNextRun d taskID now).1 with
    | Ok _ => bool_decide (taskID = tid)
    | _ => false
    end
  | _ => false
  end.

(** The number of [CreateNextRun] calls of a sequence that return a run for
    [tid]. *)
Fixpoint runsReturned (os : list op) (d : TaskControlService)
    (tid : influxdb.ID) : Z :=
  match os with
  | [] => 0
  | o :: os =>
    (if returnsRun d tid o then 1 else 0) + runsReturned os (perform d o) tid
  end.

(** Every run is filed under its own ID, in flight and finished, and the
    queued runs are non-nil by construction. *)
Definition filed_by_ID (d : TaskControlService) : Prop :=
  (∀ tid rid r, tracked d tid rid = Some r → Run.ID r = rid) ∧
  (∀ rid r, FinishedRun d rid = Some r → Run.ID r = rid).

(** The log entries that a sequence of [AddRunLog] calls adds. *)
Definition logEntries (runID : influxdb.ID) (lines : list (Time * string))
  : list Log.t :=
  (λ l, Log.mk runID (Time_FormatNano l.1) l.2) <$> lines.

Definition addLogs (taskID runID : influxdb.ID) (lines : list (Time * string))
    (d : TaskControlService) : TaskControlService :=
  perform_all ((λ l, OpAddRunLog taskID runID l.1 l.2) <$> lines) d.

(** [k] calls of [CreateNextRun] for one task, with the given [now]s: the
    runs they return, in order, and the state reached. A call that returns
    no run contributes nothing. *)
Fixpoint poll (taskID : influxdb.ID) (nows : list Z) (d : TaskControlService)
  : list RunCreation.t * TaskControlService :=
  match nows with
  | [] => ([], d)
  | now :: nows =>
    let '(res, d') := CreateNextRun d taskID now in
    let '(rcs, d'') := poll taskID nows d' in
    (match res with Ok rc => rc :: rcs | _ => rcs end, d'')
  end.
End Operations.

(** The run as [UpdateRunState] leaves it, when the status is a declared
    one. *)
Definition stamped (run : Run.t) (when : Time) (state : RunStatus) : Run.t :=
  Run.setStatus
    match state with
    | RunStarted => Run.setStartedAt run when
    | RunSuccess | RunFail | RunCanceled => Run.setFinishedAt run when
    | _ => run
    end (RunStatus_String state).

(** ** Runs behind pointers

    The service stores [*influxdb.Run]. The definitions above keep a run
    where the code keeps a pointer to it, which comes to the same as long
    as no run object stands under two keys. [UpdateRunState] and
    [AddRunLog] write through the pointer they find, so with them the
    difference shows as soon as one object is in flight for two tasks, or
    is queued or finished as well. Here the run objects live in a heap,
    the service holds their addresses, and the two functions are given
    again on that state. *)

Module Pointers.

(** The address of a run object. An address that has no object in the
    heap stands for the nil pointer. *)
Definition ptr : Type := N.

Record Service : Type := mk {
  (** the run objects that the pointers of the service lead to *)
  heap : gmap ptr Run.t;
  runs : gmap influxdb.ID (gmap influxdb.ID ptr);
  created : gmap string QueuedRun.t;
  tasks : gmap influxdb.ID Task.t;
  manualRuns : list ptr;
  totalRunsCreated : gmap influxdb.ID Z;
  finishedRuns : gmap influxdb.ID ptr;
  idgen : nat
}.

Definition set_heap (d : Service) (h : gmap ptr Run.t) : Service :=
  mk h (runs d) (created d) (tasks d) (manualRuns d) (totalRunsCreated d)
     (finishedRuns d) (idgen d).

(** [d.runs[taskID][runID]] with the [ok] of the lookup: [None] when
    either key is missing. *)
Definition pointer (d : Service) (taskID runID : influxdb.ID) : option ptr :=
  runs d !! taskID ≫= (.!! runID).

(** The run object at an address, [None] for the nil pointer. *)
Definition deref (d : Service) (p : ptr) : option Run.t := heap d !! p.

(** The run object behind an in-flight entry. *)
Definition tracked (d : Service) (taskID runID : influxdb.ID)
  : option Run.t :=
  pointer d taskID runID ≫= deref d.

(** The service with every pointer followed: what the definitions above
    take as the state. *)
Definition view (d : Service) : TaskControlService :=
  mkService (fmap (M := gmap influxdb.ID)
                  (omap (M := gmap influxdb.ID) (deref d)) (runs d))
            (created d) (tasks d)
            (omap (M := list) (deref d) (manualRuns d)) (totalRunsCreated d)
            (omap (M := gmap influxdb.ID) (deref d) (finishedRuns d))
            (idgen d).

Section Writes.
Context `{Platform}.

Definition UpdateRunState (d : Service) (taskID runID : influxdb.ID)
    (when : Time) (state : RunStatus) : outcome unit * Service :=
  match pointer d taskID runID with
  | None => (Panic "run state called without a run", d)
  | Some p =>
    let stamp :=
      match state with
      | RunStarted => Some (λ run, Run.setStartedAt run when)
      | RunSuccess | RunFail | RunCanceled =>
        Some (λ run, Run.setFinishedAt run when)
      | RunScheduled => Some (λ run, run)
      | RunUnknown _ => None
      end in
    match stamp with
    | None => (Panic "invalid status", d)
    | Some stamp =>
      match deref d p with
      | None => (Panic "invalid memory address or nil pointer dereference", d)
      | Some run =>
        let run := Run.setStatus (stamp run) (RunStatus_String state) in
        (Ok tt, set_heap d (<[p := run]> (heap d)))
      end
    end
  end.

Definition AddRunLog (d : Service) (taskID runID : influxdb.ID)
    (when : Time) (log : string) : outcome unit * Service :=
  match pointer d taskID runID with
  | None => (Panic "cannot add a log to a non existent run", d)
  | Some p =>
    match deref d p with
    | None => (Panic "cannot add a log to a non existent run", d)
    | Some run =>
      let run := Run.addLog run (Log.mk runID (Time_FormatNano when) log) in
      (Ok tt, set_heap d (<[p := run]> (heap d)))
    end
  end.
End Writes.
End Pointers.

(** ** The duration/cron resolver

    The resolver and the reader of durations it needs. The reader is shared
    with the reference platform below. *)

Definition digitOf (c : ascii) : option Z :=
  let n := Z.of_N (N_of_ascii c) in
  if (48 <=? n) && (n <=? 57) then Some (n - 48) else None.

(** Reads the decimal digits at the head of [s]: their value, if there is
    at least one digit, and the rest of [s]. *)
Fixpoint readNumber (s : string) (acc : option Z) : option Z * string :=
  match s with
  | String c rest =>
    match digitOf c with
    | Some dg => readNumber rest (Some (10 * default 0 acc + dg))
    | None => (acc, s)
    end
  | EmptyString => (acc, s)
  end.

(** A unit at the head of [s], in nanoseconds. *)
Definition readClockUnit (s : string) : option (Z * string) :=
  match s with
  | String "n" (String "s" r) => Some (1, r)
  | String "u" (String "s" r) => Some (1000, r)
  | String "m" (String "s" r) => Some (1000000, r)
  | String "s" r => Some (nanosPerSecond, r)
  | String "m" r => Some (60 * nanosPerSecond, r)
  | String "h" r => Some (3600 * nanosPerSecond, r)
  | _ => None
  end.

Definition readCalendarUnit (s : string) : option (Z * string) :=
  match s with
  | String "d" r => Some (86400 * nanosPerSecond, r)
  | String "w" r => Some (604800 * nanosPerSecond, r)
  | _ => readClockUnit s
  end.

(** One or more [<digits><unit>] groups, summed. *)
Fixpoint readGroups (unit : string → option (Z * string)) (fuel : nat)
    (s : string) (acc : Z) : option Z :=
  match fuel with
  | O => None
  | S fuel =>
    match readNumber s None with
    | (Some n, rest) =>
      match unit rest with
      | Some (u, EmptyString) => Some (acc + n * u)
      | Some (u, rest') => readGroups unit fuel rest' (acc + n * u)
      | None => None
      end
    | (None, _) => None
    end
  end.

Definition readSigned (unit : string → option (Z * string)) (s : string)
  : option Z :=
  match s with
  | String "-" r => Z.opp <$> readGroups unit (String.length r) r 0
  | _ => readGroups unit (String.length s) s 0
  end.

(** Modelled from the spec: the duration syntax of a task's [Every] belongs
    to the options package, which is not among the sources. The spec and
    the test use an optional sign and a number with one of the units s, m,
    h and d; sub-second units and w are read the same way. The value is in
    nanoseconds. *)
Definition parseEvery (s : string) : option Z := readSigned readCalendarUnit s.

Definition decimal (n : Z) : string :=
  NilZero.string_of_uint (N.to_uint (Z.to_N n)).

(** Modelled from the spec: the resolver of [influxdb.Task] (task.go), which
    is not among the sources; only its test [TestTask_EffectiveCron] is.
    The spec (4.1) has: a non-empty [Cron] is returned verbatim; otherwise
    [Every] becomes a seven-field cron vector with one every-N field chosen
    by magnitude (below 60s the second field, below 3600s the minute field,
    else the hour field), the last four fields always [*]; a negative, zero
    or missing [Every] fails with [InvalidSchedule]. N is the whole number
    of seconds, minutes or hours in [Every]. *)
Definition TaskEffectiveCron (t : Task.t) : outcome string :=
  if decide (Task.Cron t = "") then
    match parseEvery (Task.Every t) with
    | None => Err ErrInvalidSchedule
    | Some every =>
      if every <=? 0 then Err ErrInvalidSchedule
      else if every <? 60 * nanosPerSecond then
        Ok ("*/" +:+ decimal (every `div` nanosPerSecond) +:+ " */1 */1 * * * *")
      else if every <? 3600 * nanosPerSecond then
        Ok ("0 */" +:+ decimal (every `div` (60 * nanosPerSecond)) +:+ " */1 * * * *")
      else
        Ok ("0 0 */" +:+ decimal (every `div` (3600 * nanosPerSecond)) +:+ " * * * *")
    end
  else Ok (Task.Cron t).

(** ** A reference platform

    One implementation of the collaborators, on which the service can be
    run: identifiers of which zero is invalid, printed as sixteen
    hexadecimal digits; a generator that counts; RFC 3339 in UTC over the
    proleptic Gregorian calendar; Go's duration syntax without fractions;
    the resolver above; and the cron expressions the resolver emits whose
    step divides its field's range (their activations are the multiples of
    a period). *)

Module Reference.

Definition ID_Valid (i : influxdb.ID) : bool := negb (i =? 0)%N.

Definition hexDigit (n : N) : ascii :=
  default "0"%char (String.get (N.to_nat n) "0123456789abcdef").

Fixpoint hexDigits (k : nat) (n : N) (acc : string) : string :=
  match k with
  | O => acc
  | S k => hexDigits k (n `div` 16)%N (String (hexDigit (n `mod` 16)%N) acc)
  end.

Definition ID_String (i : influxdb.ID) : string := hexDigits 16 i "".

Definition idgen_ID (n : nat) : influxdb.ID := N.of_nat (S n).

(** *** Calendar *)

Definition daysFromCivil (y m d : Z) : Z :=
  let y := if m <=? 2 then y - 1 else y in
  let era := y `div` 400 in
  let yoe := y - era * 400 in
  let doy := (153 * (if 2 <? m then m - 3 else m + 9) + 2) `div` 5 + d - 1 in
  let doe := yoe * 365 + yoe `div` 4 - yoe `div` 100 + doy in
  era * 146097 + doe - 719468.

Definition civilFromDays (z : Z) : Z * Z * Z :=
  let z := z + 719468 in
  let era := z `div` 146097 in
  let doe := z - era * 146097 in
  let yoe :=
    (doe - doe `div` 1460 + doe `div` 36524 - doe `div` 146096) `div` 365 in
  let doy := doe - (365 * yoe + yoe `div` 4 - yoe `div` 100) in
  let mp := (5 * doy + 2) `div` 153 in
  let d := doy - (153 * mp + 2) `div` 5 + 1 in
  let m := if mp <? 10 then mp + 3 else mp - 9 in
  (if m <=? 2 then yoe + era * 400 + 1 else yoe + era * 400, m, d).

Definition daysIn (y m : Z) : Z :=
  (if m =? 12 then daysFromCivil (y + 1) 1 1 else daysFromCivil y (m + 1) 1)
  - daysFromCivil y m 1.

(** *** RFC 3339 *)

Fixpoint padded (width : nat) (n : Z) (acc : string) : string :=
  match width with
  | O => acc
  | S width =>
    padded width (n `div` 10)
           (String (ascii_of_N (Z.to_N (48 + n `mod` 10))) acc)
  end.

Fixpoint dropTrailingZeros (s : string) : string :=
  match s with
  | EmptyString => EmptyString
  | String c r =>
    match dropTrailingZeros r with
    | EmptyString => if decide (c = "0"%char) then EmptyString else String c EmptyString
    | r' => String c r'
    end
  end.

Definition formatSeconds (t : Time) : string :=
  let secs := Time_Unix t in
  let sod := secs `mod` 86400 in
  let '(y, m, d) := civilFromDays (secs `div` 86400) in
  padded 4 y "" +:+ "-" +:+ padded 2 m "" +:+ "-" +:+ padded 2 d "" +:+ "T"
  +:+ padded 2 (sod `div` 3600) "" +:+ ":"
  +:+ padded 2 ((sod `mod` 3600) `div` 60) "" +:+ ":"
  +:+ padded 2 (sod `mod` 60) "".

Definition Time_Format (t : Time) : string := formatSeconds t +:+ "Z".

Definition Time_FormatNano (t : Time) : string :=
  let nsec := t `mod` nanosPerSecond in
  formatSeconds t
  +:+ (if nsec =? 0 then "" else "." +:+ dropTrailingZeros (padded 9 nsec ""))
  +:+ "Z".

Fixpoint readFixed (k : nat) (s : string) (acc : Z) : option (Z * string) :=
  match k with
  | O => Some (acc, s)
  | S k =>
    match s with
    | String c r => dg ← digitOf c; readFixed k r (10 * acc + dg)
    | EmptyString => None
    end
  end.

Definition expect (c : ascii) (s : string) : option string :=
  match s with
  | String c' r => if decide (c = c') then Some r else None
  | EmptyString => None
  end.

(** The digits of a fraction of a second, as nanoseconds; digits after the
    ninth are dropped. *)
Fixpoint readFractionDigits (s : string) (weight acc : Z) : Z * string :=
  match s with
  | String c r =>
    match digitOf c with
    | Some dg => readFractionDigits r (weight `div` 10) (acc + dg * weight)
    | None => (acc, s)
    end
  | EmptyString => (acc, s)
  end.

Definition readFraction (s : string) : option (Z * string) :=
  match s with
  | String "." (String c r) =>
    _ ← digitOf c; Some (readFractionDigits (String c r) 100000000 0)
  | _ => Some (0, s)
  end.

(** The zone: [Z], or a numeric offset in seconds east of UTC. *)
Definition readZone (s : string) : option Z :=
  match s with
  | String "Z" EmptyString => Some 0
  | String sign r =>
    '(h, r) ← readFixed 2 r 0;
    r ← expect ":" r;
    '(m, r) ← readFixed 2 r 0;
    if negb (bool_decide (r = "")) || (24 <=? h) || (60 <=? m) then None
    else if decide (sign = "+"%char) then Some (h * 3600 + m * 60)
    else if decide (sign = "-"%char) then Some (- (h * 3600 + m * 60))
    else None
  | EmptyString => None
  end.

Definition time_Parse (value : string) : option Time :=
  '(y, s) ← readFixed 4 value 0;
  s ← expect "-" s;
  '(mo, s) ← readFixed 2 s 0;
  s ← expect "-" s;
  '(d, s) ← readFixed 2 s 0;
  s ← expect "T" s;
  '(h, s) ← readFixed 2 s 0;
  s ← expect ":" s;
  '(mi, s) ← readFixed 2 s 0;
  s ← expect ":" s;
  '(sec, s) ← readFixed 2 s 0;
  '(nsec, s) ← readFraction s;
  east ← readZone s;
  if (1 <=? mo) && (mo <=? 12) && (1 <=? d) && (d <=? daysIn y mo)
     && (h <? 24) && (mi <? 60) && (sec <? 60)
  then Some (time_Unix
               (daysFromCivil y mo d * 86400 + h * 3600 + mi * 60 + sec - east)
               nsec)
  else None.

(** *** Durations

    Go's [time.ParseDuration] on durations written with whole numbers: an
    optional sign and groups of digits and a unit, or the single digit 0.
    A duration outside the range of [int64] nanoseconds is an error, as in
    Go. The fractions that Go also reads ("1.5s") are not read here: they
    give [None]. *)

Definition time_ParseDuration (s : string) : option Z :=
  let parsed :=
    match s with
    | String "0" EmptyString => Some 0
    | String "+" r => readSigned readClockUnit r
    | _ => readSigned readClockUnit s
    end in
  match parsed with
  | Some dur =>
    if (- 2 ^ 63 <=? dur) && (dur <=? 2 ^ 63 - 1) then Some dur else None
  | None => None
  end.

(** *** Schedules *)

Definition Task_EffectiveCron (t : Task.t) : string :=
  match TaskEffectiveCron t with
  | Ok expr => expr
  | _ => ""
  end.

(** The activations of [every p] are the multiples of [p] nanoseconds;
    [Next] is the first one after [t]. *)
Definition every (p : Z) : Schedule :=
  {| Next := λ t, (t `div` p + 1) * p |}.

(** A field [*] or [*/N] steps by N (by 1 for [*]). *)
Definition stepOf (field : string) : option Z :=
  match field with
  | String "*" EmptyString => Some 1
  | String "*" (String "/" r) =>
    match readNumber r None with
    | (Some n, EmptyString) => Some n
    | _ => None
    end
  | _ => None
  end.

Definition isZero (field : string) : bool := bool_decide (field = "0").
Definition isStar (field : string) : bool := bool_decide (field = "*").

Definition divides (n range : Z) : bool := (0 <? n) && (range `mod` n =? 0).

(** The expressions read here are the seven-field vectors of the resolver
    above, with a step that divides its field's range. This is not the
    grammar of [gopkg.in/robfig/cron.v2], which reads five or six fields
    and descriptors such as [@every 10s]: the reference platform pairs the
    resolver with a reader of what the resolver emits, so that a task given
    by its [Every] runs on it. *)
Definition cron_Parse (spec : string) : option Schedule :=
  match String.words spec with
  | [sec; min; hour; dom; month; dow; year] =>
    if isStar dom && isStar month && isStar dow && isStar year then
      match stepOf sec, stepOf min, stepOf hour with
      | Some n, Some 1, Some 1 =>
        if divides n 60 then Some (every (n * nanosPerSecond)) else None
      | None, Some n, Some 1 =>
        if isZero sec && divides n 60
        then Some (every (n * 60 * nanosPerSecond)) else None
      | None, None, Some n =>
        if isZero sec && isZero min && divides n 24
        then Some (every (n * 3600 * nanosPerSecond)) else None
      | _, _, _ => None
      end
    else None
  | _ => None
  end.

Definition platform : Platform :=
  Build_Platform ID_Valid ID_String idgen_ID Task_EffectiveCron cron_Parse
                 time_Parse Time_Format Time_FormatNano time_ParseDuration.

End Reference.

(** ** Example services, on the reference platform *)

Module Examples.
#[local] Existing Instance Reference.platform.

Definition everyTenSeconds : Task.t := Task.mk 1%N "10s" "" "" "".
Definition everyMinute : Task.t := Task.mk 2%N "1m" "" "" "".
Definition dated : Task.t :=
  Task.mk 3%N "10s" "" "" "1970-01-01T00:00:00Z".
Definition delayed : Task.t := Task.mk 4%N "10s" "" "1s" "".

(** Three registered tasks, nothing in flight, nothing queued. *)
Definition fresh : TaskControlService :=
  SetTask (SetTask (SetTask NewTaskControlService everyTenSeconds)
                   everyMinute)
          dated.

(** A manual run requested for the first task. *)
Definition backfill : Run.t :=
  Run.mk 7%N 1%N "" (time_Unix 3600 0) zeroTime zeroTime zeroTime [].

Definition queued : TaskControlService := SetManualRuns fresh [backfill].

(** The first task has its first run, for the tick at 10s, in flight. *)
Definition created : TaskControlService := (CreateNextRun fresh 1%N 10).2.

(** That run has been marked scheduled at 10s and started at 11s. *)
Definition scheduled : TaskControlService :=
  (UpdateRunState created 1%N 1%N (time_Unix 10 0) RunScheduled).2.
Definition started : TaskControlService :=
  (UpdateRunState scheduled 1%N 1%N (time_Unix 11 0) RunStarted).2.

(** The dated task has the ticks at 10s and 20s in flight. *)
Definition twoInFlight : TaskControlService :=
  (CreateNextRun (CreateNextRun fresh 3%N 20).2 3%N 20).2.

(** Two more manual runs, and a second request under the ID of the
    backfill. *)
Definition retry : Run.t :=
  Run.mk 8%N 2%N "" (time_Unix 60 0) zeroTime zeroTime zeroTime [].
Definition late : Run.t :=
  Run.mk 9%N 1%N "" (time_Unix 7200 0) zeroTime zeroTime zeroTime [].
Definition again : Run.t :=
  Run.mk 7%N 1%N "" (time_Unix 3600 0) zeroTime zeroTime zeroTime [].

Definition threeQueued : TaskControlService :=
  SetManualRuns fresh [backfill; retry; late].
Definition twiceQueued : TaskControlService :=
  SetManualRuns fresh [backfill; retry; again].

(** A task whose [LatestCompleted] is no RFC 3339 time, with its first run
    in flight. *)
Definition garbled : Task.t := Task.mk 5%N "10s" "" "" "yesterday".
Definition garbledInFlight : TaskControlService :=
  (CreateNextRun (SetTask NewTaskControlService garbled) 5%N 10).2.

(** Polls and an administrative run on [fresh]: the first task is polled
    too early, then in time, then again; the second task is polled in
    time. *)
Definition busy : list op :=
  [OpCreateNextRun 1%N 5; OpCreateNextRun 1%N 10;
   OpCreateRun 1%N (time_Unix 15 0); OpCreateNextRun 2%N 60;
   OpCreateNextRun 1%N 30; OpFinishRun 1%N 1%N;
   OpSetManualRuns [backfill]; OpCreateNextRun 2%N 0].

(** One run object, the backfill, is in flight for the first and for the
    second task: it was queued twice and served to both. The first task
    also has its run for the tick at 10s in flight, an object of its own. *)
Definition shared : Pointers.Service :=
  Pointers.mk {[100%N := backfill; 101%N := Run.new 1%N (time_Unix 10 0)]}
              {[1%N := {[7%N := 100%N; 1%N := 101%N]};
                2%N := {[7%N := 100%N]}]}
              ∅ (tasks fresh) [] ∅ ∅ 1.
End Examples.

(** * Properties *)

Section Gate.
Context `{Platform}.

(** ** The latest tick *)

Lemma later_is_max (r : Run.t) (latest : Z) :
  (if Time_Unix (Run.ScheduledFor r) >? latest
   then Time_Unix (Run.ScheduledFor r) else latest) = Z.max (tick r) latest.
Proof. unfold tick. destruct (Z.gtb_spec (Time_Unix (Run.ScheduledFor r)) latest); lia. Qed.

Lemma max_fold_bounds (l : list (influxdb.ID * Run.t)) (base : Z) :
  let m := foldr (λ kr latest, Z.max (tick kr.2) latest) base l in
  base ≤ m ∧ (∀ kr, kr ∈ l → tick kr.2 ≤ m) ∧
  (m = base ∨ ∃ kr, kr ∈ l ∧ m = tick kr.2).
Proof.
  induction l as [|kr l IH]; simpl.
  - split; [lia|]. split; [|by left]. intros kr Hin. inversion Hin.
  - destruct IH as (Hbase & Hall & Hsome). split; [lia|]. split.
    + intros kr' Hin. apply elem_of_cons in Hin as [->|Hin]; [lia|].
      specialize (Hall kr' Hin). lia.
    + destruct (Z.max_spec (tick kr.2) (foldr (λ kr latest, Z.max (tick kr.2) latest) base l))
        as [[_ ->]|[_ ->]].
      * destruct Hsome as [->|(kr' & Hin & ->)]; [by left|].
        right. exists kr'. split; [by apply elem_of_cons; right|done].
      * right. exists kr. split; [by apply elem_of_cons; left|done].
Qed.

(** The loop of the gate computes [latestRun]. *)
Lemma gate_loop (d : TaskControlService) (task : Task.t) :
  map_fold (λ (_ : influxdb.ID) r latest,
              if Time_Unix (Run.ScheduledFor r) >? latest
              then Time_Unix (Run.ScheduledFor r) else latest)
           (match time_Parse (Task.LatestCompleted task) with
            | Some lt => Time_Unix lt
            | None => 0
            end)
           (inflight d (Task.ID task))
  = latestRun d task.
Proof.
  rewrite map_fold_foldr. unfold latestRun, watermark.
  induction (map_to_list (inflight d (Task.ID task))) as [|[k r] l IH]; simpl; [done|].
  rewrite IH. apply later_is_max.
Qed.

(** Go ranges over a map in no fixed order; the loop's result is the same
    in every order. *)
Lemma gate_loop_any_order (d : TaskControlService) (task : Task.t)
    (l : list (influxdb.ID * Run.t)) :
  l ≡ₚ map_to_list (inflight d (Task.ID task)) →
  foldr (λ kr latest, if Time_Unix (Run.ScheduledFor kr.2) >? latest
                      then Time_Unix (Run.ScheduledFor kr.2) else latest)
        (watermark task) l
  = latestRun d task.
Proof.
  intros Hperm. unfold latestRun.
  rewrite <- (foldr_permutation_proper (=) (λ kr latest, Z.max (tick kr.2) latest)
                (watermark task) (λ a1 a2 b, ltac:(simpl; lia)) _ _ Hperm).
  clear Hperm. induction l as [|[k r] l IH]; simpl; [done|].
  rewrite IH. apply later_is_max.
Qed.

Lemma latestRun_is_latest (d : TaskControlService) (task : Task.t) :
  is_latest d task (latestRun d task).
Proof.
  unfold is_latest, latestRun, tracked.
  destruct (max_fold_bounds (map_to_list (inflight d (Task.ID task))) (watermark task))
    as (Hbase & Hall & Hsome).
  split; [done|]. split.
  - intros rid r Hr. apply (Hall (rid, r)). by apply elem_of_map_to_list.
  - destruct Hsome as [?|([rid r] & Hin & ?)]; [by left|].
    right. exists rid, r. split; [by apply elem_of_map_to_list|done].
Qed.

(** ** The gate, unfolded *)

Lemma gate_offset (task : Task.t) :
  (if decide (Task.Offset task = "") then 0
   else match time_ParseDuration (Task.Offset task) with
        | Some toff => toff
        | None => 0
        end) = taskOffset task.
Proof. unfold taskOffset. by destruct (time_ParseDuration (Task.Offset task)). Qed.

Lemma createNextRun_eq (d : TaskControlService) (task : Task.t) (now : Z)
    (sch : Schedule) :
  cron_Parse (Task_EffectiveCron task) = Some sch →
  createNextRun d task now =
    if dueAt d task sch >? now
    then (Err (ErrRunNotDueYet (dueAt d task sch)), d)
    else (Ok (RunCreation.mk
                (QueuedRun.mk 0%N (idgen_ID (idgen d))
                              (Time_Unix (nextTick d task sch)))
                (add64 (Time_Unix (Next sch (nextTick d task sch)))
                       (taskOffset task))
                false),
          gateState d task sch).
Proof.
  intros Hsch. unfold createNextRun. rewrite Hsch. cbv zeta.
  rewrite gate_loop, gate_offset. reflexivity.
Qed.

Lemma nextDueRun_eq (d : TaskControlService) (taskID : influxdb.ID)
    (task : Task.t) (sch : Schedule) :
  tasks d !! taskID = Some task →
  cron_Parse (Task_EffectiveCron task) = Some sch →
  nextDueRun d taskID = Ok (dueAt d task sch).
Proof.
  intros Htask Hsch. unfold nextDueRun. rewrite Htask, Hsch. cbv zeta.
  rewrite gate_loop, gate_offset. reflexivity.
Qed.

Lemma CreateNextRun_regular (d : TaskControlService) (taskID : influxdb.ID)
    (task : Task.t) (now : Z) :
  ID_Valid taskID = true →
  tasks d !! taskID = Some task →
  manualRuns d = [] →
  CreateNextRun d taskID now =
    match createNextRun d task now with
    | (Ok rc, d') =>
      let q := QueuedRun.setTaskID (RunCreation.Created rc) taskID in
      (Ok (RunCreation.setCreated rc q),
       countRun (recordCreated d' taskID q) taskID)
    | other => other
    end.
Proof.
  intros Hvalid Htask Hqueue. unfold CreateNextRun.
  rewrite Hvalid, Htask, Hqueue. simpl.
  by destruct (createNextRun d task now) as [[rc|e|msg] d'].
Qed.

Lemma tracked_gateState (d : TaskControlService) (task : Task.t)
    (sch : Schedule) :
  tracked (gateState d task sch) (Task.ID task) (idgen_ID (idgen d))
  = Some (gateRun d task sch).
Proof.
  unfold tracked, inflight, gateState. simpl.
  rewrite lookup_insert_eq. simpl. by rewrite lookup_insert_eq.
Qed.

(** The gate as the code computes it. For a registered task with an empty
    manual queue and a schedule that parses, [CreateNextRun(taskID, now)]
    returns [RunNotDueYet(due)] exactly when [due > now], and creates a run
    exactly when [due <= now]: the run has [ScheduledFor = nextScheduled]
    and is in the task's in-flight set. Here
    [nextScheduled = schedule.Next(latest)], [latest] is the maximum of the
    task's watermark and the ticks of its in-flight runs, and [due] is the
    sum the code forms: the Unix seconds of [nextScheduled] plus
    [toff.Nanoseconds()]. With an empty offset that is the due time of the
    contract; with any other offset it is not. *)
Theorem CreateNextRun_due_time_gating (d : TaskControlService)
    (taskID : influxdb.ID) (task : Task.t) (sch : Schedule) (now : Z) :
  ID_Valid taskID = true →
  tasks d !! taskID = Some task →
  manualRuns d = [] →
  cron_Parse (Task_EffectiveCron task) = Some sch →
  let latest := latestRun d task in
  let nextScheduled := Next sch (time_Unix latest 0) in
  let due := add64 (Time_Unix nextScheduled) (taskOffset task) in
  is_latest d task latest ∧
  (∀ at_, (CreateNextRun d taskID now).1 = Err (ErrRunNotDueYet at_)
          ↔ at_ = due ∧ due > now) ∧
  ((∃ rc d' run,
      CreateNextRun d taskID now = (Ok rc, d') ∧
      tracked d' (Task.ID task) (QueuedRun.RunID (RunCreation.Created rc))
        = Some run ∧
      Run.ScheduledFor run = nextScheduled ∧
      QueuedRun.Now (RunCreation.Created rc) = Time_Unix nextScheduled)
   ↔ due ≤ now) ∧
  (due > now → (CreateNextRun d taskID now).2 = d).
Proof.
  intros Hvalid Htask Hqueue Hsch latest nextScheduled due.
  split; [apply latestRun_is_latest|].
  rewrite (CreateNextRun_regular _ _ _ _ Hvalid Htask Hqueue).
  rewrite (createNextRun_eq _ _ _ _ Hsch).
  change (dueAt d task sch) with due.
  change (nextTick d task sch) with nextScheduled.
  destruct (Z.gtb_spec due now) as [Hlate|Hdue]; simpl.
  - split; [|split].
    + intros at_. split; [intros [= <-]; lia|]. by intros [-> _].
    + split; [|lia]. by intros (rc & d' & run & [=] & _).
    + done.
  - split; [|split].
    + intros at_. split; [done|lia].
    + split; [lia|]. intros _.
      eexists _, _, (gateRun d task sch). split; [reflexivity|]. simpl.
      split; [|done]. unfold countRun, recordCreated, tracked, inflight. simpl.
      rewrite lookup_insert_eq. simpl. by rewrite lookup_insert_eq.
    + lia.
Qed.

(** C10. With an empty manual queue, [NextDueRun(taskID)] returns the very
    [dueAt] the gate of [CreateNextRun(taskID, now)] compares with [now]:
    [CreateNextRun] returns [RunNotDueYet(due)] exactly when [NextDueRun]
    returns [due] and [due > now]; both read the same [latest], the same
    [schedule.Next(latest)] and the same offset. *)
Theorem NextDueRun_is_the_gate (d : TaskControlService)
    (taskID : influxdb.ID) (task : Task.t) (now : Z) :
  ID_Valid taskID = true →
  tasks d !! taskID = Some task →
  manualRuns d = [] →
  (∀ due, (CreateNextRun d taskID now).1 = Err (ErrRunNotDueYet due)
          ↔ (NextDueRun d taskID).1 = Ok due ∧ due > now) ∧
  (∀ sch, cron_Parse (Task_EffectiveCron task) = Some sch →
          (NextDueRun d taskID).1
          = Ok (add64 (Time_Unix (Next sch (time_Unix (latestRun d task) 0)))
                      (taskOffset task))) ∧
  (NextDueRun d taskID).2 = d.
Proof.
  intros Hvalid Htask Hqueue. split; [|split; [|done]].
  - intros due. rewrite (CreateNextRun_regular _ _ _ _ Hvalid Htask Hqueue).
    unfold NextDueRun. simpl.
    destruct (cron_Parse (Task_EffectiveCron task)) as [sch|] eqn:Hsch.
    + rewrite (createNextRun_eq _ _ _ _ Hsch), (nextDueRun_eq _ _ _ _ Htask Hsch).
      destruct (Z.gtb_spec (dueAt d task sch) now) as [Hlate|Hdue]; simpl.
      * split; [intros [= <-]; split; [done|lia]|]. by intros [[= <-] _].
      * split; [done|]. intros [[= <-] ?]. lia.
    + unfold createNextRun, nextDueRun. rewrite Htask, Hsch. simpl.
      split; [done|]. by intros [? _].
  - intros sch Hsch. unfold NextDueRun. simpl.
    by rewrite (nextDueRun_eq _ _ _ _ Htask Hsch).
Qed.

(** ** The manual queue *)

(** The state after the head of the queue is registered as in flight. *)
Lemma CreateNextRun_manual (d : TaskControlService) (taskID : influxdb.ID)
    (task : Task.t) (run : Run.t) (rest : list Run.t) (now : Z) :
  ID_Valid taskID = true →
  tasks d !! taskID = Some task →
  manualRuns d = run :: rest →
  let runs' := <[Run.ID run := run]> (inflight d taskID) in
  let d1 := set_runs (set_manualRuns d rest)
              (<[Task.ID task := runs']> (alter (λ _, runs') taskID (runs d))) in
  let q := QueuedRun.mk (Task.ID task) (Run.ID run) (tick run) in
  CreateNextRun d taskID now =
    (Ok (RunCreation.mk q
           (match nextDueRun d1 taskID with Ok n => n | _ => 0 end)
           (match rest with [] => false | _ => true end)),
     countRun (recordCreated d1 taskID q) taskID).
Proof.
  intros Hvalid Htask Hqueue runs' d1 q. unfold CreateNextRun.
  rewrite Hvalid, Htask, Hqueue. simpl.
  change (set_runs (set_manualRuns d rest) _) with d1.
  assert (Hd1 : tasks d1 !! taskID = Some task) by done.
  unfold nextDueRun. rewrite Hd1.
  by destruct (cron_Parse (Task_EffectiveCron task)).
Qed.

(** C5. When a manual run is queued, [CreateNextRun(taskID, now)] returns
    the head of the queue and leaves the rest queued, whatever [now] is:
    the due-time gate is not consulted. The run is registered as in
    flight, and [HasQueue] is true exactly when the queue is still
    non-empty after the dequeue. *)
Theorem CreateNextRun_serves_manual_first (d : TaskControlService)
    (taskID : influxdb.ID) (task : Task.t) (run : Run.t)
    (rest : list Run.t) (now : Z) :
  ID_Valid taskID = true →
  tasks d !! taskID = Some task →
  manualRuns d = run :: rest →
  ∃ rc d',
    CreateNextRun d taskID now = (Ok rc, d') ∧
    RunCreation.Created rc
      = QueuedRun.mk (Task.ID task) (Run.ID run)
                     (Time_Unix (Run.ScheduledFor run)) ∧
    manualRuns d' = rest ∧
    tracked d' (Task.ID task) (Run.ID run) = Some run ∧
    (RunCreation.HasQueue rc = true ↔ manualRuns d' ≠ []) ∧
    (∀ now', CreateNextRun d taskID now' = (Ok rc, d')).
Proof.
  intros Hvalid Htask Hqueue.
  eexists _, _. split; [by apply CreateNextRun_manual|]. simpl.
  split; [done|]. split; [done|]. split; [|split].
  - unfold tracked, inflight. simpl. rewrite lookup_insert_eq. simpl.
    by rewrite lookup_insert_eq.
  - by destruct rest.
  - intros now'. by apply CreateNextRun_manual.
Qed.

(** C8, as the code has it. The manual queue is one list shared by all
    tasks: [SetManualRuns] replaces it, [ManualRuns(taskID)] returns all
    of it for every [taskID], and [CreateNextRun(taskID, now)] serves its
    head to whichever registered task asks, whatever task the run names. *)
Theorem manual_queue_is_shared (d : TaskControlService)
    (taskID : influxdb.ID) (task : Task.t) (run : Run.t)
    (rest : list Run.t) (now : Z) :
  ID_Valid taskID = true →
  tasks d !! taskID = Some task →
  let d1 := SetManualRuns d (run :: rest) in
  (∀ other, ManualRuns d1 other = (Ok (run :: rest), d1)) ∧
  ∃ rc d',
    CreateNextRun d1 taskID now = (Ok rc, d') ∧
    QueuedRun.RunID (RunCreation.Created rc) = Run.ID run ∧
    QueuedRun.TaskID (RunCreation.Created rc) = Task.ID task ∧
    tracked d' (Task.ID task) (Run.ID run) = Some run ∧
    (∀ other, ManualRuns d' other = (Ok rest, d')).
Proof.
  intros Hvalid Htask d1. split; [done|].
  eexists _, _. split; [by apply CreateNextRun_manual|]. simpl.
  split; [done|]. split; [done|]. split; [|done].
  unfold tracked, inflight. simpl. rewrite lookup_insert_eq. simpl.
  by rewrite lookup_insert_eq.
Qed.

End Gate.

Section Lifecycle.
Context `{Platform}.

Lemma set_runs_same (d : TaskControlService) : set_runs d (runs d) = d.
Proof. by destruct d. Qed.

(** Deleting a run that is not tracked changes nothing. *)
Lemma delete_untracked (d : TaskControlService) (tid rid : influxdb.ID) :
  tracked d tid rid = None →
  set_runs d (alter (delete rid) tid (runs d)) = d.
Proof.
  intros Hnone.
  assert (alter (delete rid) tid (runs d) = runs d) as ->;
    [|apply set_runs_same].
  apply map_eq. intros k. rewrite lookup_alter.
  destruct (decide (tid = k)) as [<-|]; [|done].
  unfold tracked, inflight in Hnone.
  destruct (runs d !! tid) as [m|]; simpl in *; [|done].
  by rewrite delete_id.
Qed.

Lemma Time_Unix_mono (t u : Time) : t ≤ u → Time_Unix t ≤ Time_Unix u.
Proof. intros. unfold Time_Unix, nanosPerSecond. by apply Z.div_le_mono. Qed.

(** ** FinishRun *)

(** The in-flight runs after [FinishRun], whatever its outcome. *)
Lemma FinishRun_runs (d : TaskControlService) (tid rid : influxdb.ID) :
  runs (FinishRun d tid rid).2 = alter (delete rid) tid (runs d).
Proof.
  unfold FinishRun. cbv zeta.
  destruct (tracked d tid rid) as [r|]; [|done]. simpl.
  destruct (tasks d !! tid) as [t|]; [|done].
  destruct (decide (Task.LatestCompleted t = "")); [done|].
  destruct (time_Parse (Task.LatestCompleted t)); [|done].
  by destruct (Time_After (Run.ScheduledFor r) _).
Qed.

Lemma FinishRun_manualRuns (d : TaskControlService) (tid rid : influxdb.ID) :
  manualRuns (FinishRun d tid rid).2 = manualRuns d.
Proof.
  unfold FinishRun. cbv zeta.
  destruct (tracked d tid rid) as [r|]; [|done]. simpl.
  destruct (tasks d !! tid) as [t|]; [|done].
  destruct (decide (Task.LatestCompleted t = "")); [done|].
  destruct (time_Parse (Task.LatestCompleted t)); [|done].
  by destruct (Time_After (Run.ScheduledFor r) _).
Qed.

(** [FinishRun] writes the watermark in one case only. *)
Lemma FinishRun_tasks (d : TaskControlService) (tid rid : influxdb.ID) :
  tasks (FinishRun d tid rid).2 = tasks d ∨
  ∃ t r latest,
    tasks d !! tid = Some t ∧ tracked d tid rid = Some r ∧
    Task.LatestCompleted t ≠ "" ∧
    time_Parse (Task.LatestCompleted t) = Some latest ∧
    latest < Run.ScheduledFor r ∧
    tasks (FinishRun d tid rid).2
    = <[tid := Task.setLatestCompleted t (Time_Format (Run.ScheduledFor r))]>
        (tasks d).
Proof.
  unfold FinishRun. cbv zeta.
  destruct (tracked d tid rid) as [r|] eqn:Hr; [|by left]. simpl.
  destruct (tasks d !! tid) as [t|] eqn:Ht; [|by left].
  destruct (decide (Task.LatestCompleted t = "")); [by left|].
  destruct (time_Parse (Task.LatestCompleted t)) as [latest|] eqn:Hparse; [|by left].
  unfold Time_After.
  destruct (Z.ltb_spec latest (Run.ScheduledFor r)); [|by left].
  right. by exists t, r, latest.
Qed.

(** The part of C4 that holds: a tracked run leaves the in-flight set, and
    a non-empty watermark that parses moves to a later [ScheduledFor]. *)
Lemma FinishRun_removes (d : TaskControlService) (tid rid : influxdb.ID) :
  tracked (FinishRun d tid rid).2 tid rid = None.
Proof.
  unfold tracked, inflight. rewrite FinishRun_runs, lookup_alter_eq.
  destruct (runs d !! tid) as [m|]; simpl; [|done]. apply lookup_delete_eq.
Qed.

Lemma FinishRun_advances (d : TaskControlService) (tid rid : influxdb.ID)
    (t : Task.t) (r : Run.t) (latest : Time) :
  tasks d !! tid = Some t → tracked d tid rid = Some r →
  Task.LatestCompleted t ≠ "" →
  time_Parse (Task.LatestCompleted t) = Some latest →
  latest < Run.ScheduledFor r →
  (FinishRun d tid rid).1 = Ok r ∧
  Task.LatestCompleted <$> tasks (FinishRun d tid rid).2 !! tid
  = Some (Time_Format (Run.ScheduledFor r)).
Proof.
  intros Ht Hr Hne Hparse Hlt. unfold FinishRun. cbv zeta.
  rewrite Hr. simpl. rewrite Ht.
  destruct (decide (Task.LatestCompleted t = "")); [done|].
  rewrite Hparse. unfold Time_After.
  destruct (Z.ltb_spec latest (Run.ScheduledFor r)); [|lia].
  simpl. by rewrite lookup_insert_eq.
Qed.

(** An empty watermark is left empty. *)
Lemma FinishRun_empty_watermark (d : TaskControlService)
    (tid rid : influxdb.ID) (t : Task.t) (r : Run.t) :
  tasks d !! tid = Some t → tracked d tid rid = Some r →
  Task.LatestCompleted t = "" →
  (FinishRun d tid rid).1 = Ok r ∧ tasks (FinishRun d tid rid).2 = tasks d.
Proof.
  intros Ht Hr Hempty. unfold FinishRun. cbv zeta.
  rewrite Hr. simpl. rewrite Ht.
  by destruct (decide (Task.LatestCompleted t = "")).
Qed.

(** One [FinishRun] never lowers a watermark. *)
Lemma FinishRun_watermark (d : TaskControlService) (tid rid k : influxdb.ID)
    (task : Task.t) :
  (∀ r, tracked d tid rid = Some r → survives_format (Run.ScheduledFor r)) →
  tasks d !! k = Some task →
  ∃ task', tasks (FinishRun d tid rid).2 !! k = Some task' ∧
           watermark task ≤ watermark task'.
Proof.
  intros Hsurvives Htask.
  destruct (FinishRun_tasks d tid rid)
    as [->|(t & r & latest & Ht & Hr & Hne & Hparse & Hlt & ->)].
  { exists task. split; [done|lia]. }
  destruct (decide (tid = k)) as [<-|Hother].
  - rewrite lookup_insert_eq. eexists. split; [done|].
    assert (task = t) as -> by congruence.
    destruct (Hsurvives r Hr) as (t' & Hback & Hsame).
    unfold watermark. simpl. rewrite Hparse, Hback, Hsame.
    apply Time_Unix_mono. lia.
  - rewrite lookup_insert_ne by done. exists task. split; [done|lia].
Qed.

(** [FinishRun] adds no run to the in-flight sets. *)
Lemma FinishRun_tracked (d : TaskControlService) (tid rid k j : influxdb.ID)
    (r : Run.t) :
  tracked (FinishRun d tid rid).2 k j = Some r → tracked d k j = Some r.
Proof.
  unfold tracked, inflight. rewrite FinishRun_runs, lookup_alter.
  destruct (decide (tid = k)) as [<-|]; [|done].
  destruct (runs d !! tid) as [m|]; simpl; [|done].
  rewrite lookup_delete. by destruct (decide (rid = j)).
Qed.

Lemma finishes_tracked (cs : list (influxdb.ID * influxdb.ID))
    (d : TaskControlService) (k j : influxdb.ID) (r : Run.t) :
  tracked (run_calls (finishes cs) d) k j = Some r → tracked d k j = Some r.
Proof.
  revert d. induction cs as [|[tid rid] cs IH]; intros d; simpl; [done|].
  intros Hr. apply IH in Hr. by apply FinishRun_tracked in Hr.
Qed.

(** C3. Along every sequence of [FinishRun] calls, in any order and with
    any outcomes, each call leaves the watermark of every task at or above
    its value before the call. The watermark is read as the gate reads it
    (the Unix time of [LatestCompleted], 0 when it is empty), for runs
    whose [ScheduledFor] keeps its second through RFC 3339. *)
Theorem FinishRun_watermark_monotone
    (before : list (influxdb.ID * influxdb.ID)) (taskID runID : influxdb.ID)
    (d : TaskControlService) (tid : influxdb.ID) (task : Task.t) :
  (∀ k j r, tracked d k j = Some r → survives_format (Run.ScheduledFor r)) →
  let d1 := run_calls (finishes before) d in
  let d2 := (FinishRun d1 taskID runID).2 in
  tasks d1 !! tid = Some task →
  ∃ task', tasks d2 !! tid = Some task' ∧ watermark task ≤ watermark task'.
Proof.
  intros Hsurvive d1 d2 Htask. apply FinishRun_watermark; [|done].
  intros r Hr. apply (Hsurvive taskID runID). by apply finishes_tracked in Hr.
Qed.

(** ** UpdateRunState and AddRunLog *)

Lemma tracked_update (d : TaskControlService) (tid rid : influxdb.ID)
    (run : Run.t) :
  tracked (set_runs d (<[tid := <[rid := run]> (inflight d tid)]> (runs d)))
          tid rid = Some run.
Proof.
  unfold tracked, inflight. simpl. rewrite lookup_insert_eq. simpl.
  by rewrite lookup_insert_eq.
Qed.

(** C6, as the code has it. For a tracked run and a declared status,
    [UpdateRunState] succeeds and sets the run's [Status] to the name of
    the status: to [Started] it sets [StartedAt] to the given time, to
    [Success], [Failed] or [Canceled] it sets [FinishedAt] to the given
    time, and to [Scheduled] it is accepted as well, whatever the run's
    status was, and changes no timestamp. *)
Theorem UpdateRunState_stamps (d : TaskControlService)
    (taskID runID : influxdb.ID) (run : Run.t) (when : Time)
    (state : RunStatus) :
  tracked d taskID runID = Some run →
  (∀ n, state ≠ RunUnknown n) →
  ∃ d' run',
    UpdateRunState d taskID runID when state = (Ok tt, d') ∧
    tracked d' taskID runID = Some run' ∧
    Run.Status run' = RunStatus_String state ∧
    Run.ScheduledFor run' = Run.ScheduledFor run ∧
    match state with
    | RunStarted =>
      Run.StartedAt run' = when ∧ Run.FinishedAt run' = Run.FinishedAt run
    | RunSuccess | RunFail | RunCanceled =>
      Run.FinishedAt run' = when ∧ Run.StartedAt run' = Run.StartedAt run
    | RunScheduled | RunUnknown _ =>
      Run.StartedAt run' = Run.StartedAt run ∧
      Run.FinishedAt run' = Run.FinishedAt run
    end.
Proof.
  intros Hrun Hdeclared. unfold UpdateRunState. rewrite Hrun.
  destruct state as [| | | | |n]; try (by destruct (Hdeclared n));
    (eexists _, _; split; [reflexivity|]; split; [apply tracked_update|done]).
Qed.

(** [FinishRun] has no check for a run that is not tracked: it reads the nil
    run, and the call aborts with the state as it was. *)
Lemma FinishRun_untracked (d : TaskControlService) (taskID runID : influxdb.ID) :
  tracked d taskID runID = None →
  ∃ msg, FinishRun d taskID runID = (Panic msg, d).
Proof.
  intros Hnorun. unfold FinishRun. cbv zeta. rewrite Hnorun.
  rewrite (delete_untracked _ _ _ Hnorun). eauto.
Qed.

(** C9, as the code has it. A reference to a task or run that does not
    exist aborts the call with a panic, and the service state is as it
    was: [CreateNextRun] for a valid ID with no task, and [AddRunLog] for a
    run that is not tracked. *)
Theorem missing_reference_panics (d : TaskControlService)
    (unknown taskID runID : influxdb.ID) (now : Z) (when : Time)
    (log : string) :
  ID_Valid unknown = true →
  tasks d !! unknown = None →
  tracked d taskID runID = None →
  CreateNextRun d unknown now
  = (Panic ("meta not set for task with ID " +:+ ID_String unknown), d) ∧
  AddRunLog d taskID runID when log
  = (Panic "cannot add a log to a non existent run", d).
Proof.
  intros Hvalid Hnotask Hnorun. split.
  - unfold CreateNextRun. by rewrite Hvalid, Hnotask.
  - unfold AddRunLog. by rewrite Hnorun.
Qed.

End Lifecycle.

Section Dedup.
Context `{Platform}.

(** The tick the gate computes lies strictly after every in-flight run of
    the task. *)
Lemma nextTick_after_inflight (d : TaskControlService) (task : Task.t)
    (sch : Schedule) (rid : influxdb.ID) (r : Run.t) :
  advances sch →
  tracked d (Task.ID task) rid = Some r →
  Run.ScheduledFor r < nextTick d task sch.
Proof.
  intros Hadv Hr.
  destruct (latestRun_is_latest d task) as (_ & Hall & _).
  specialize (Hall rid r Hr). unfold tick, Time_Unix in Hall.
  unfold nextTick, time_Unix.
  destruct (Hadv (latestRun d task * nanosPerSecond + 0)) as [Hlt Hwhole].
  set (next := Next sch (latestRun d task * nanosPerSecond + 0)) in *.
  unfold nanosPerSecond in *.
  pose proof (Z.div_mod next 1000000000 ltac:(lia)) as Hnext.
  pose proof (Z.div_mod (Run.ScheduledFor r) 1000000000 ltac:(lia)) as Hsf.
  pose proof (Z.mod_pos_bound (Run.ScheduledFor r) 1000000000 ltac:(lia)).
  lia.
Qed.

(** What [CreateNextRun] leaves behind when the manual queue is empty. *)
Lemma CreateNextRun_state (d : TaskControlService) (taskID : influxdb.ID)
    (now : Z) :
  manualRuns d = [] →
  let d' := (CreateNextRun d taskID now).2 in
  tasks d' = tasks d ∧ manualRuns d' = [] ∧
  (runs d' = runs d ∨
   ∃ task sch,
     tasks d !! taskID = Some task ∧
     cron_Parse (Task_EffectiveCron task) = Some sch ∧
     runs d' = runs (gateState d task sch)).
Proof.
  intros Hqueue. unfold CreateNextRun.
  destruct (ID_Valid taskID); simpl; [|by auto].
  destruct (tasks d !! taskID) as [task|] eqn:Htask; [|by auto].
  rewrite Hqueue.
  destruct (cron_Parse (Task_EffectiveCron task)) as [sch|] eqn:Hsch.
  - rewrite (createNextRun_eq _ _ _ _ Hsch).
    destruct (dueAt d task sch >? now); simpl; [by auto|].
    split; [done|]. split; [done|]. right. by exists task, sch.
  - unfold createNextRun. rewrite Hsch. simpl. auto.
Qed.

Lemma tracked_gateState_inv (d : TaskControlService) (task : Task.t)
    (sch : Schedule) (tid rid : influxdb.ID) (r : Run.t) :
  tracked (gateState d task sch) tid rid = Some r →
  (tid = Task.ID task ∧ rid = idgen_ID (idgen d) ∧ r = gateRun d task sch) ∨
  tracked d tid rid = Some r.
Proof.
  unfold tracked, inflight, gateState. simpl. rewrite lookup_insert.
  destruct (decide (Task.ID task = tid)) as [<-|]; simpl; [|by right].
  rewrite lookup_insert.
  destruct (decide (idgen_ID (idgen d) = rid)) as [<-|]; [|by right].
  intros [= <-]. by left.
Qed.

Lemma gateState_distinct (d : TaskControlService) (task : Task.t)
    (sch : Schedule) (tid : influxdb.ID) :
  advances sch →
  distinct_ticks d tid → distinct_ticks (gateState d task sch) tid.
Proof.
  intros Hadv Hdistinct rid1 rid2 r1 r2 Hr1 Hr2 Hne.
  apply tracked_gateState_inv in Hr1 as [(-> & -> & ->)|Hr1];
    apply tracked_gateState_inv in Hr2 as [(Htid & -> & ->)|Hr2].
  - done.
  - pose proof (nextTick_after_inflight d task sch rid2 r2 Hadv Hr2).
    unfold gateRun. simpl. lia.
  - subst tid.
    pose proof (nextTick_after_inflight d task sch rid1 r1 Hadv Hr1).
    unfold gateRun. simpl. lia.
  - by apply (Hdistinct rid1 rid2).
Qed.

Lemma setLatestCompleted_twice (task : Task.t) (s lc : string) :
  Task.setLatestCompleted (Task.setLatestCompleted task s) lc
  = Task.setLatestCompleted task lc.
Proof. reflexivity. Qed.

Lemma setLatestCompleted_same (task : Task.t) :
  Task.setLatestCompleted task (Task.LatestCompleted task) = task.
Proof. by destruct task. Qed.

Lemma schedule_advances (d : TaskControlService) (tid : influxdb.ID)
    (task : Task.t) (sch : Schedule) :
  schedules_advance d → tasks d !! tid = Some task →
  cron_Parse (Task_EffectiveCron task) = Some sch → advances sch.
Proof.
  intros Hadv Htask Hsch.
  apply (Hadv tid task sch (Task.LatestCompleted task) Htask).
  by rewrite setLatestCompleted_same.
Qed.

(** The invariant of a trace: nothing is queued by hand, every task's
    schedule advances, and no task has two in-flight runs for one tick. *)
Lemma step_invariant (d : TaskControlService) (c : call) :
  manualRuns d = [] → schedules_advance d → (∀ tid, distinct_ticks d tid) →
  manualRuns (step d c) = [] ∧ schedules_advance (step d c) ∧
  (∀ tid, distinct_ticks (step d c) tid).
Proof.
  intros Hqueue Hadv Hdistinct. destruct c as [taskID now|taskID runID]; simpl.
  - destruct (CreateNextRun_state d taskID now Hqueue)
      as (Htasks & Hqueue' & Hruns).
    split; [done|]. split.
    { unfold schedules_advance. rewrite Htasks. apply Hadv. }
    intros tid. destruct Hruns as [Hruns|(task & sch & Htask & Hsch & Hruns)].
    + unfold distinct_ticks, tracked, inflight. rewrite Hruns. apply Hdistinct.
    + pose proof (gateState_distinct d task sch tid
                    (schedule_advances _ _ _ _ Hadv Htask Hsch) (Hdistinct tid))
        as Hgate.
      unfold distinct_ticks, tracked, inflight in *. by rewrite Hruns.
  - split; [by rewrite FinishRun_manualRuns|]. split.
    + destruct (FinishRun_tasks d taskID runID)
        as [Hsame|(t & r & latest & Ht & _ & _ & _ & _ & Hnew)];
        unfold schedules_advance.
      * rewrite Hsame. apply Hadv.
      * rewrite Hnew. intros tid task sch lc Htask.
        rewrite lookup_insert in Htask.
        destruct (decide (taskID = tid)) as [<-|]; [|by apply (Hadv tid)].
        injection Htask as <-. rewrite setLatestCompleted_twice.
        by apply (Hadv taskID).
    + intros tid rid1 rid2 r1 r2 Hr1 Hr2.
      apply (FinishRun_tracked d taskID runID) in Hr1.
      apply (FinishRun_tracked d taskID runID) in Hr2.
      by apply (Hdistinct tid).
Qed.

(** C2. Along every sequence of [CreateNextRun] calls, with any [now]
    arguments and with [FinishRun] calls in between, no two in-flight
    runs of a task share a [ScheduledFor]; and in the state reached, the
    tick the gate computes for a task is strictly later than the
    [ScheduledFor] of each of its in-flight runs. No run is queued by
    hand, and the schedules advance as [Next] promises. *)
Theorem no_duplicate_ticks (cs : list call) (d : TaskControlService) :
  manualRuns d = [] →
  schedules_advance d →
  (∀ tid, distinct_ticks d tid) →
  let d' := run_calls cs d in
  (∀ tid, distinct_ticks d' tid) ∧
  (∀ tid task sch rid r,
     tasks d' !! tid = Some task →
     cron_Parse (Task_EffectiveCron task) = Some sch →
     tracked d' (Task.ID task) rid = Some r →
     Run.ScheduledFor r < nextTick d' task sch).
Proof.
  revert d. induction cs as [|c cs IH]; intros d Hqueue Hadv Hdistinct; simpl.
  - split; [done|]. intros tid task sch rid r Htask Hsch Hr.
    apply (nextTick_after_inflight d task sch rid r); [|done].
    by apply (schedule_advances d tid task).
  - destruct (step_invariant d c Hqueue Hadv Hdistinct) as (? & ? & ?).
    by apply IH.
Qed.

End Dedup.

(** ** The resolver *)

Lemma digitOf_bounds (c : ascii) (dg : Z) :
  digitOf c = Some dg → 0 ≤ dg ≤ 9.
Proof.
  unfold digitOf. intros Hdg.
  destruct (48 <=? Z.of_N (N_of_ascii c)) eqn:Hlo; simpl in Hdg; [|done].
  destruct (Z.of_N (N_of_ascii c) <=? 57) eqn:Hhi; [|done].
  injection Hdg as <-. lia.
Qed.

Lemma readNumber_nonneg (s rest : string) (acc : option Z) (n : Z) :
  readNumber s acc = (Some n, rest) →
  (∀ a, acc = Some a → 0 ≤ a) →
  0 ≤ n.
Proof.
  revert acc. induction s as [|c s IH]; intros acc Hread Hacc; simpl in Hread.
  - injection Hread as -> _. by apply Hacc.
  - destruct (digitOf c) as [dg|] eqn:Hdg.
    + apply (IH _ Hread). intros a [= <-].
      pose proof (digitOf_bounds _ _ Hdg).
      destruct acc as [a|]; simpl; [specialize (Hacc a eq_refl)|]; lia.
    + injection Hread as -> _. by apply Hacc.
Qed.

Lemma readCalendarUnit_pos (s rest : string) (u : Z) :
  readCalendarUnit s = Some (u, rest) → 0 < u.
Proof.
  unfold readCalendarUnit, readClockUnit, nanosPerSecond. intros Hu.
  repeat (match type of Hu with
          | match ?x with _ => _ end = _ => destruct x
          | (if ?b then _ else _) = _ => destruct b
          end; try discriminate);
    injection Hu as <- _; lia.
Qed.

(** The groups of a duration add up: the reader never returns less than it
    has accumulated. *)
Lemma readGroups_grows (fuel : nat) (s : string) (acc v : Z) :
  readGroups readCalendarUnit fuel s acc = Some v → acc ≤ v.
Proof.
  revert s acc. induction fuel as [|fuel IH]; intros s acc Hread; [done|].
  simpl in Hread.
  destruct (readNumber s None) as [[n|] rest] eqn:Hn; [|done].
  assert (0 ≤ n) as Hpos by (by apply (readNumber_nonneg _ _ _ _ Hn)).
  destruct (readCalendarUnit rest) as [[u rest']|] eqn:Hu; [|done].
  pose proof (readCalendarUnit_pos _ _ _ Hu).
  destruct rest'.
  - injection Hread as <-. nia.
  - apply IH in Hread. nia.
Qed.

(** An [Every] with a minus sign is never positive. *)
Lemma parseEvery_minus (rest : string) (every : Z) :
  parseEvery (String "-" rest) = Some every → every ≤ 0.
Proof.
  unfold parseEvery. simpl.
  destruct (readGroups readCalendarUnit (String.length rest) rest 0)
    as [v|] eqn:Hv; [|done].
  intros [= <-]. apply readGroups_grows in Hv. lia.
Qed.

(** C7. [EffectiveCron] meets its resolution contract. For every task: a
    non-empty [Cron] is returned verbatim, whatever [Every] is. Otherwise
    [Every] is mapped by magnitude band: a positive [Every] below 60s
    gives the every-N second field with N its seconds, from 60s and below
    3600s the every-N minute field with N its minutes, from 3600s on the
    every-N hour field with N its hours, the other fields as the contract
    fixes them; an [Every] that is zero, negative, empty or unreadable
    fails with [InvalidSchedule], and so does every [Every] written with a
    minus sign. On the inputs of the test: 1h, 1m, 1s, 3m and 2h give the
    expected seven fields and "-7d" fails. *)
Theorem TaskEffectiveCron_resolution (t : Task.t) :
  (Task.Cron t ≠ "" → TaskEffectiveCron t = Ok (Task.Cron t)) ∧
  (Task.Cron t = "" →
     (∀ every, parseEvery (Task.Every t) = Some every →
        (0 < every < 60 * nanosPerSecond →
         TaskEffectiveCron t
         = Ok ("*/" +:+ decimal (every `div` nanosPerSecond)
               +:+ " */1 */1 * * * *")) ∧
        (60 * nanosPerSecond ≤ every < 3600 * nanosPerSecond →
         TaskEffectiveCron t
         = Ok ("0 */" +:+ decimal (every `div` (60 * nanosPerSecond))
               +:+ " */1 * * * *")) ∧
        (3600 * nanosPerSecond ≤ every →
         TaskEffectiveCron t
         = Ok ("0 0 */" +:+ decimal (every `div` (3600 * nanosPerSecond))
               +:+ " * * * *")) ∧
        (every ≤ 0 → TaskEffectiveCron t = Err ErrInvalidSchedule)) ∧
     (parseEvery (Task.Every t) = None →
      TaskEffectiveCron t = Err ErrInvalidSchedule) ∧
     (Task.Every t = "" → TaskEffectiveCron t = Err ErrInvalidSchedule) ∧
     (∀ rest, Task.Every t = String "-" rest →
              TaskEffectiveCron t = Err ErrInvalidSchedule)) ∧
  (∀ id offset latest,
     TaskEffectiveCron (Task.mk id "1h" "" offset latest) = Ok "0 0 */1 * * * *" ∧
     TaskEffectiveCron (Task.mk id "1m" "" offset latest) = Ok "0 */1 */1 * * * *" ∧
     TaskEffectiveCron (Task.mk id "1s" "" offset latest) = Ok "*/1 */1 */1 * * * *" ∧
     TaskEffectiveCron (Task.mk id "3m" "" offset latest) = Ok "0 */3 */1 * * * *" ∧
     TaskEffectiveCron (Task.mk id "2h" "" offset latest) = Ok "0 0 */2 * * * *" ∧
     TaskEffectiveCron (Task.mk id "-7d" "" offset latest) = Err ErrInvalidSchedule).
Proof.
  assert (∀ every, parseEvery (Task.Every t) = Some every → every ≤ 0 →
                   Task.Cron t = "" →
                   TaskEffectiveCron t = Err ErrInvalidSchedule) as Hfails.
  { intros every Hevery Hneg Hcron. unfold TaskEffectiveCron.
    rewrite decide_True by done. rewrite Hevery.
    destruct (Z.leb_spec every 0); [done|lia]. }
  split; [|split].
  - intros Hcron. unfold TaskEffectiveCron. by rewrite decide_False.
  - intros Hcron. split; [|split; [|split]].
    + intros every Hevery. unfold nanosPerSecond.
      repeat split; intros Hband; try by apply (Hfails every).
      all: unfold TaskEffectiveCron, nanosPerSecond;
        rewrite decide_True by done; rewrite Hevery;
        destruct (Z.leb_spec every 0); [lia|];
        destruct (Z.ltb_spec every (60 * 1000000000)); try lia; try done;
        destruct (Z.ltb_spec every (3600 * 1000000000)); try lia; done.
    + intros Hnone. unfold TaskEffectiveCron.
      rewrite decide_True by done. by rewrite Hnone.
    + intros Hempty. unfold TaskEffectiveCron.
      rewrite decide_True by done. by rewrite Hempty.
    + intros rest Hminus.
      destruct (parseEvery (Task.Every t)) as [every|] eqn:Hevery.
      * apply (Hfails every); [done| |done].
        rewrite Hminus in Hevery. by apply parseEvery_minus in Hevery.
      * unfold TaskEffectiveCron. rewrite decide_True by done.
        by rewrite Hevery.
  - intros id offset latest. repeat split; reflexivity.
Qed.

(** * More of the service *)

Section ManualRunByID.
Context `{Platform}.

Lemma length_removeAt (i m : nat) (arr : list Run.t) :
  (S i ≤ m)%nat → (m ≤ length arr)%nat →
  length (removeAt i m arr) = length arr.
Proof.
  intros Hi Hm. unfold removeAt.
  rewrite !length_app, length_take, !length_drop, length_take. lia.
Qed.

(** Below the removed index nothing moves. *)
Lemma removeAt_lookup_lt (i m j : nat) (arr : list Run.t) :
  (j < i)%nat → (i ≤ length arr)%nat → removeAt i m arr !! j = arr !! j.
Proof.
  intros Hj Hi. unfold removeAt.
  rewrite lookup_app_l by (rewrite length_take; lia).
  by rewrite lookup_take_lt.
Qed.

(** From the removed index to the end of the slice, the next element moves
    down. *)
Lemma removeAt_lookup_shift (i m j : nat) (arr : list Run.t) :
  (i ≤ j)%nat → (S j < m)%nat → (m ≤ length arr)%nat →
  removeAt i m arr !! j = arr !! S j.
Proof.
  intros Hij Hjm Hm. unfold removeAt.
  rewrite lookup_app_r by (rewrite length_take; lia).
  rewrite length_take, Nat.min_l by lia.
  rewrite lookup_app_l by (rewrite length_drop, length_take; lia).
  rewrite lookup_drop, lookup_take_lt by lia. f_equal. lia.
Qed.

(** At the last index of the slice and after it, the array is as it was. *)
Lemma removeAt_lookup_ge (i m j : nat) (arr : list Run.t) :
  (S i ≤ m)%nat → (m ≤ length arr)%nat → (m - 1 ≤ j)%nat →
  removeAt i m arr !! j = arr !! j.
Proof.
  intros Hi Hm Hj. unfold removeAt.
  rewrite lookup_app_r by (rewrite length_take; lia).
  rewrite length_take, Nat.min_l by lia.
  rewrite lookup_app_r by (rewrite length_drop, length_take; lia).
  rewrite length_drop, length_take, Nat.min_l by lia.
  rewrite lookup_drop. f_equal. lia.
Qed.

Lemma set_manualRuns_same (d : TaskControlService) :
  set_manualRuns d (manualRuns d) = d.
Proof. by destruct d. Qed.

(** Indices without a match are passed over. *)
Lemma loop_pass (runID : influxdb.ID) (k todo i : nat) (arr : list Run.t)
    (m : nat) (run : option Run.t) :
  (∀ j r, (i ≤ j < i + k)%nat → arr !! j = Some r → Run.ID r ≠ runID) →
  startManualRunLoop runID (k + todo) i arr m run
  = startManualRunLoop runID todo (i + k) arr m run.
Proof.
  revert i. induction k as [|k IH]; intros i Hnone; simpl.
  - by rewrite Nat.add_0_r.
  - destruct (arr !! i) as [r|] eqn:Hr.
    + destruct (decide (Run.ID r = runID)) as [Hid|_].
      { by destruct (Hnone i r ltac:(lia) Hr). }
      rewrite IH; [f_equal; lia|].
      intros j r' Hj. apply Hnone. lia.
    + assert (arr !! (i + S k)%nat = None) as Hend.
      { apply lookup_ge_None_2. apply lookup_ge_None_1 in Hr. lia. }
      destruct todo; simpl; [done|]. by rewrite Hend.
Qed.

Lemma loop_no_match (runID : influxdb.ID) (todo i : nat) (arr : list Run.t)
    (m : nat) (run : option Run.t) :
  (∀ j r, (i ≤ j)%nat → arr !! j = Some r → Run.ID r ≠ runID) →
  startManualRunLoop runID todo i arr m run = RangeDone arr m run.
Proof.
  intros Hnone. rewrite <- (Nat.add_0_r todo).
  rewrite loop_pass; [done|]. intros j r [Hj _]. by apply Hnone.
Qed.

(** X1. [StartManualRun] for an ID that no queued run carries returns
    [ErrRunNotFound] and leaves the service as it was, whatever the task
    ID. *)
Theorem StartManualRun_not_found (t : TaskControlService)
    (taskID runID : influxdb.ID) :
  (∀ r, r ∈ manualRuns t → Run.ID r ≠ runID) →
  StartManualRun t taskID runID = (Err ErrRunNotFound, t).
Proof.
  intros Hnone. unfold StartManualRun.
  rewrite loop_no_match.
  - by rewrite firstn_all, set_manualRuns_same.
  - intros j r _ Hr. apply Hnone. by eapply list_elem_of_lookup_2.
Qed.

(** X2. When exactly one queued run carries the ID, [StartManualRun]
    returns it and takes it out of the queue, wherever it stands; the other
    runs stay queued in their order, and nothing else changes. *)
Theorem StartManualRun_takes_the_run (t : TaskControlService)
    (taskID runID : influxdb.ID) (before after : list Run.t) (run : Run.t) :
  manualRuns t = (before ++ run :: after)%list →
  Run.ID run = runID →
  (∀ r, r ∈ (before ++ after)%list → Run.ID r ≠ runID) →
  StartManualRun t taskID runID
  = (Ok run, set_manualRuns t (before ++ after)%list).
Proof.
  intros Hqueue Hid Hothers. unfold StartManualRun. rewrite Hqueue.
  set (arr := (before ++ run :: after)%list).
  assert (length arr = (length before + S (length after))%nat) as Hlen.
  { unfold arr. rewrite length_app. simpl. lia. }
  rewrite Hlen.
  rewrite (loop_pass runID (length before) (S (length after)) 0).
  2:{ intros j r [_ Hj] Hr. apply Hothers, elem_of_app. left.
      unfold arr in Hr. rewrite lookup_app_l in Hr by lia.
      by eapply list_elem_of_lookup_2. }
  simpl.
  assert (arr !! length before = Some run) as ->.
  { unfold arr. by rewrite list_lookup_middle. }
  destruct (decide (Run.ID run = runID)); [|done].
  destruct (decide (S (length before) ≤ length before + S (length after))%nat);
    [|lia].
  assert (removeAt (length before) (length before + S (length after)) arr
          = (before ++ after ++ drop (length before + length after) arr)%list)
    as Hremoved.
  { assert (drop (S (length before)) (before ++ run :: after) = after)
      as Hdrop.
    { rewrite (cons_middle run before after), (app_assoc before [run] after).
      apply drop_app_length'. rewrite length_app. simpl. lia. }
    unfold removeAt. rewrite <- Hlen, firstn_all. unfold arr at 1 2.
    rewrite take_app_length, Hdrop. do 3 f_equal. lia. }
  rewrite loop_no_match.
  - rewrite Hremoved, app_assoc.
    replace (length before + S (length after) - 1)%nat
      with (length (before ++ after)%list) by (rewrite length_app; lia).
    by rewrite take_app_length.
  - intros j r Hj Hr. rewrite Hremoved in Hr.
    rewrite lookup_app_r in Hr by lia.
    destruct (decide (j - length before < length after)%nat).
    + rewrite lookup_app_l in Hr by done.
      apply Hothers, elem_of_app. right. by eapply list_elem_of_lookup_2.
    + rewrite lookup_app_r, lookup_drop in Hr by lia.
      unfold arr in Hr. rewrite lookup_app_r in Hr by lia.
      rewrite lookup_cons_ne_0 in Hr by lia.
      apply Hothers, elem_of_app. right. by eapply list_elem_of_lookup_2.
Qed.


(** Once the run at the last index carries the ID and either a removal has
    been made or a match lies ahead, the loop ends in the panic. *)
Lemma loop_panics (runID : influxdb.ID) (n : nat) (last : Run.t)
    (todo i : nat) (arr : list Run.t) (m : nat) (run : option Run.t) :
  length arr = n → (i + todo = n)%nat → (0 < todo)%nat → (m ≤ n)%nat →
  arr !! (n - 1)%nat = Some last → Run.ID last = runID →
  ((m < n)%nat ∨
   ∃ j r, (i ≤ j < n - 1)%nat ∧ arr !! j = Some r ∧ Run.ID r = runID) →
  ∃ arr' m', startManualRunLoop runID todo i arr m run = RangePanic arr' m'.
Proof.
  revert i arr m run.
  induction todo as [|todo IH]; intros i arr m run Hlen Hi Htodo Hm Hlast Hid Hcase;
    [lia|]. simpl.
  destruct (arr !! i) as [r|] eqn:Hr.
  2:{ apply lookup_ge_None_1 in Hr. lia. }
  destruct (decide (Run.ID r = runID)) as [Hmatch|Hnomatch].
  - destruct (decide (S i ≤ m)%nat) as [Hfits|]; [|eauto].
    assert (i < n - 1)%nat as Hearly.
    { destruct Hcase as [?|(j & _ & ? & _)]; lia. }
    apply IH; try lia; try done.
    + rewrite length_removeAt; lia.
    + rewrite removeAt_lookup_ge; [done|lia..].
  - assert (i ≠ n - 1)%nat as Hearly.
    { intros ->. rewrite Hlast in Hr. congruence. }
    apply IH; try lia; try done.
    destruct Hcase as [?|(j & r' & Hj & Hr' & Hid')]; [by left|].
    right. exists j, r'. split; [|done].
    destruct (decide (j = i)) as [->|]; [congruence|lia].
Qed.

(** X3. When the last queued run and an earlier one both carry the ID,
    [StartManualRun] panics: after the first removal the loop still visits
    the last index of the slice as it was, finds the run there again, and
    slices [t.manualRuns] beyond its length. *)
Theorem StartManualRun_duplicate_panics (t : TaskControlService)
    (taskID runID : influxdb.ID) (before between : list Run.t)
    (first last : Run.t) :
  manualRuns t = (before ++ first :: between ++ [last])%list →
  Run.ID first = runID →
  Run.ID last = runID →
  ∃ d', StartManualRun t taskID runID = (Panic "slice bounds out of range", d').
Proof.
  intros Hqueue Hfirst Hlast. unfold StartManualRun. rewrite Hqueue.
  set (arr := (before ++ first :: between ++ [last])%list).
  assert (length arr = S (length before + S (length between))) as Hlen.
  { unfold arr. rewrite length_app. simpl. rewrite length_app. simpl. lia. }
  destruct (loop_panics runID (length arr) last (length arr) 0 arr
              (length arr) None) as (arr' & m' & ->); try done; try lia.
  - rewrite Hlen. simpl. rewrite Nat.sub_0_r. unfold arr.
    rewrite lookup_app_r by lia.
    replace (length before + S (length between) - length before)%nat
      with (S (length between)) by lia.
    simpl. rewrite lookup_app_r by lia. by rewrite Nat.sub_diag.
  - right. exists (length before), first. split; [lia|]. split; [|done].
    unfold arr. by rewrite list_lookup_middle.
  - eauto.
Qed.

End ManualRunByID.

Section GateAgain.
Context `{Platform}.

Lemma is_latest_unique (d : TaskControlService) (task : Task.t) (a b : Z) :
  is_latest d task a → is_latest d task b → a = b.
Proof.
  intros (Ha1 & Ha2 & Ha3) (Hb1 & Hb2 & Hb3).
  assert (a ≤ b).
  { destruct Ha3 as [->|(rid & r & Hr & ->)]; [done|by apply (Hb2 rid)]. }
  assert (b ≤ a).
  { destruct Hb3 as [->|(rid & r & Hr & ->)]; [done|by apply (Ha2 rid)]. }
  lia.
Qed.

(** [Next] of a whole second [latest] lies after every instant whose
    second is at most [latest]. *)
Lemma next_after_second (sch : Schedule) (latest : Z) (x : Time) :
  advances sch → Time_Unix x ≤ latest → x < Next sch (time_Unix latest 0).
Proof.
  intros Hadv Hx. unfold Time_Unix, time_Unix in *.
  destruct (Hadv (latest * nanosPerSecond + 0)) as [Hlt Hwhole].
  set (next := Next sch (latest * nanosPerSecond + 0)) in *.
  unfold nanosPerSecond in *.
  pose proof (Z.div_mod next 1000000000 ltac:(lia)).
  pose proof (Z.div_mod x 1000000000 ltac:(lia)).
  pose proof (Z.mod_pos_bound x 1000000000 ltac:(lia)).
  lia.
Qed.

Lemma whole_second (sch : Schedule) (t : Time) :
  advances sch → time_Unix (Time_Unix (Next sch t)) 0 = Next sch t.
Proof.
  intros Hadv. destruct (Hadv t) as [_ Hwhole].
  unfold time_Unix, Time_Unix, nanosPerSecond in *.
  pose proof (Z.div_mod (Next sch t) 1000000000 ltac:(lia)). lia.
Qed.

(** After the gate has created its run, that run's tick is the latest. *)
Lemma latestRun_gateState (d : TaskControlService) (task : Task.t)
    (sch : Schedule) :
  advances sch →
  latestRun (gateState d task sch) task = Time_Unix (nextTick d task sch).
Proof.
  intros Hadv.
  apply (is_latest_unique (gateState d task sch) task);
    [apply latestRun_is_latest|].
  destruct (latestRun_is_latest d task) as (Hwater & Hall & _).
  assert (latestRun d task ≤ Time_Unix (nextTick d task sch)) as Hnext.
  { destruct (Hadv (time_Unix (latestRun d task) 0)) as [Hlt _].
    unfold nextTick, Time_Unix, time_Unix, nanosPerSecond in *.
    apply Z.div_le_lower_bound; lia. }
  split; [lia|]. split.
  - intros rid r Hr.
    apply tracked_gateState_inv in Hr as [(_ & _ & ->)|Hr]; [done|].
    specialize (Hall rid r Hr). lia.
  - right. exists (idgen_ID (idgen d)), (gateRun d task sch).
    split; [apply tracked_gateState|done].
Qed.

(** X4. A [CreateNextRun] call that returns no run (an invalid ID, a task
    that is not set, a schedule that does not parse, a run that is not due)
    leaves the service exactly as it was. *)
Theorem CreateNextRun_without_run_changes_nothing (d d' : TaskControlService)
    (taskID : influxdb.ID) (now : Z) (res : outcome RunCreation.t) :
  CreateNextRun d taskID now = (res, d') →
  (∀ rc, res ≠ Ok rc) →
  d' = d.
Proof.
  unfold CreateNextRun. intros Hcall Hnorun.
  destruct (ID_Valid taskID); simpl in Hcall; [|by injection Hcall as _ <-].
  destruct (tasks d !! taskID) as [task|] eqn:Htask;
    [|by injection Hcall as _ <-].
  destruct (manualRuns d) as [|run rest].
  - unfold createNextRun in Hcall.
    destruct (cron_Parse (Task_EffectiveCron task)) as [sch|];
      [|by injection Hcall as _ <-].
    cbv zeta in Hcall.
    match type of Hcall with
    | context [if ?b then _ else _] => destruct b
    end; injection Hcall as <- <-; [done|].
    by edestruct Hnorun.
  - match type of Hcall with
    | context [nextDueRun ?s taskID] =>
      assert (tasks s !! taskID = Some task) as Hs by done;
      unfold nextDueRun in Hcall; rewrite Hs in Hcall
    end.
    destruct (cron_Parse (Task_EffectiveCron task));
      injection Hcall as <- <-; by edestruct Hnorun.
Qed.

(** X6. The [NextDue] that a successful [CreateNextRun] returns is what
    [NextDueRun] answers on the state the call leaves, for the manual and
    for the regular run alike, when the task's schedule parses and advances
    as [Next] promises. *)
Theorem NextDue_is_NextDueRun (d d' : TaskControlService)
    (taskID : influxdb.ID) (task : Task.t) (sch : Schedule) (now : Z)
    (rc : RunCreation.t) :
  tasks d !! taskID = Some task →
  cron_Parse (Task_EffectiveCron task) = Some sch →
  advances sch →
  CreateNextRun d taskID now = (Ok rc, d') →
  NextDueRun d' taskID = (Ok (RunCreation.NextDue rc), d').
Proof.
  intros Htask Hsch Hadv Hcall.
  destruct (ID_Valid taskID) eqn:Hvalid.
  2:{ unfold CreateNextRun in Hcall. by rewrite Hvalid in Hcall. }
  destruct (manualRuns d) as [|run rest] eqn:Hqueue.
  - rewrite (CreateNextRun_regular _ _ _ _ Hvalid Htask Hqueue) in Hcall.
    rewrite (createNextRun_eq _ _ _ _ Hsch) in Hcall.
    destruct (dueAt d task sch >? now); [done|].
    injection Hcall as <- <-. unfold NextDueRun. f_equal.
    rewrite (nextDueRun_eq _ _ task sch) by done. simpl. f_equal.
    unfold dueAt, nextTick.
    change (latestRun (countRun _ _) task)
      with (latestRun (gateState d task sch) task).
    rewrite latestRun_gateState by done.
    unfold nextTick. by rewrite whole_second.
  - rewrite (CreateNextRun_manual _ _ _ _ _ _ Hvalid Htask Hqueue) in Hcall.
    injection Hcall as <- <-. unfold NextDueRun. f_equal. simpl.
    match goal with
    | |- nextDueRun (countRun (recordCreated ?s _ _) _) _ = _ =>
      change (nextDueRun (countRun (recordCreated s taskID
                (QueuedRun.mk (Task.ID task) (Run.ID run) (tick run))) taskID)
                taskID)
        with (nextDueRun s taskID);
      rewrite (nextDueRun_eq s taskID task sch) by done
    end.
    done.
Qed.

(** X8. [CreateRun] bypasses the gate: whether or not the task is set and
    whatever is due, it puts a run for the given time in flight under a new
    ID, counts nothing and leaves tasks and queue alone. While that run is
    in flight the gate computes its next tick strictly after it. *)
Theorem CreateRun_bypasses_the_gate (t : TaskControlService)
    (taskID : influxdb.ID) (scheduledFor : Time) :
  ∃ run t',
    CreateRun t taskID scheduledFor = (Ok run, t') ∧
    Run.ID run = idgen_ID (idgen t) ∧
    Run.ScheduledFor run = scheduledFor ∧
    tracked t' taskID (Run.ID run) = Some run ∧
    tasks t' = tasks t ∧ manualRuns t' = manualRuns t ∧
    TotalRunsCreatedForTask t' taskID = TotalRunsCreatedForTask t taskID ∧
    CreatedFor t' taskID = CreatedFor t taskID ∧
    (∀ task sch, Task.ID task = taskID → advances sch →
                 scheduledFor < nextTick t' task sch).
Proof.
  eexists _, _. split; [reflexivity|]. simpl.
  split; [done|]. split; [done|].
  assert (tracked
            (set_runs (set_idgen t (S (idgen t)))
               (<[taskID := <[idgen_ID (idgen t) :=
                    Run.new (idgen_ID (idgen t)) scheduledFor]>
                    (inflight (set_idgen t (S (idgen t))) taskID)]>
                  (runs (set_idgen t (S (idgen t))))))
            taskID (idgen_ID (idgen t))
          = Some (Run.new (idgen_ID (idgen t)) scheduledFor)) as Htracked.
  { unfold tracked, inflight. simpl. rewrite lookup_insert_eq. simpl.
    by rewrite lookup_insert_eq. }
  split; [done|]. repeat (split; [done|]).
  intros task sch <- Hadv.
  eapply (nextTick_after_inflight _ task sch _ _ Hadv) in Htracked.
  exact Htracked.
Qed.

(** X18. With a watermark in place the gate does not come back to a
    finished tick: when a tracked run of a task whose [LatestCompleted] is
    non-empty and parses is finished, [FinishRun] returns it, and the tick
    the gate computes next for the task is strictly after the run's
    [ScheduledFor], whether or not the watermark had to move. *)
Theorem FinishRun_then_gate_moves_on (d : TaskControlService)
    (tid rid : influxdb.ID) (t : Task.t) (r : Run.t) (latest : Time)
    (sch : Schedule) :
  tasks d !! tid = Some t →
  tracked d tid rid = Some r →
  Task.LatestCompleted t ≠ "" →
  time_Parse (Task.LatestCompleted t) = Some latest →
  survives_format (Run.ScheduledFor r) →
  advances sch →
  ∃ t' d',
    FinishRun d tid rid = (Ok r, d') ∧
    tasks d' !! tid = Some t' ∧
    Time_Unix (Run.ScheduledFor r) ≤ watermark t' ∧
    Run.ScheduledFor r < nextTick d' t' sch.
Proof.
  intros Ht Hr Hne Hparse (back & Hback & Hsame) Hadv.
  assert (∀ d' t', Time_Unix (Run.ScheduledFor r) ≤ watermark t' →
                   Run.ScheduledFor r < nextTick d' t' sch) as Hgate.
  { intros d' t' Hwater. apply next_after_second; [done|].
    destruct (latestRun_is_latest d' t') as (? & _). lia. }
  unfold FinishRun. cbv zeta. rewrite Hr. simpl. rewrite Ht.
  destruct (decide (Task.LatestCompleted t = "")); [done|].
  rewrite Hparse. unfold Time_After.
  destruct (Z.ltb_spec latest (Run.ScheduledFor r)).
  - eexists _, _. split; [reflexivity|]. simpl. rewrite lookup_insert_eq.
    split; [done|].
    assert (Time_Unix (Run.ScheduledFor r)
            ≤ watermark (Task.setLatestCompleted t
                           (Time_Format (Run.ScheduledFor r)))) as Hwater.
    { unfold watermark. simpl. rewrite Hback. lia. }
    split; [done|]. by apply Hgate.
  - eexists _, _. split; [reflexivity|]. simpl. split; [done|].
    assert (Time_Unix (Run.ScheduledFor r) ≤ watermark t) as Hwater.
    { unfold watermark. rewrite Hparse. by apply Time_Unix_mono. }
    split; [done|]. by apply Hgate.
Qed.

Lemma foldl_as_foldr {A B} (f : A → B → A) (l : list B) (a : A) :
  foldl f a l = foldr (λ x acc, f acc x) a (reverse l).
Proof.
  revert a. induction l as [|x l IH]; intros a; simpl; [done|].
  by rewrite reverse_cons, foldr_app, IH.
Qed.

(** X19. The loop that computes [latest] gives the same value in whatever
    order Go ranges over the in-flight map: run from the watermark over any
    enumeration of the task's runs, first to last, it ends in the maximum
    of the watermark and the ticks. *)
Theorem latest_in_any_range_order (d : TaskControlService) (task : Task.t)
    (order : list (influxdb.ID * Run.t)) :
  order ≡ₚ map_to_list (inflight d (Task.ID task)) →
  let latest :=
    foldl (λ latest kr, if Time_Unix (Run.ScheduledFor kr.2) >? latest
                        then Time_Unix (Run.ScheduledFor kr.2) else latest)
          (watermark task) order in
  latest = latestRun d task ∧ is_latest d task latest.
Proof.
  intros Hperm latest.
  assert (latest = latestRun d task) as ->; [|split; [done|apply latestRun_is_latest]].
  unfold latest. rewrite foldl_as_foldr.
  apply (gate_loop_any_order d task (reverse order)).
  by rewrite reverse_Permutation.
Qed.

(** X20. [SetTask] is what [CreateNextRun] needs: once a task with a valid
    ID is set, [CreateNextRun] for that ID does not panic, whatever the
    state was before and whatever is queued; it returns a run or an
    error. *)
Theorem SetTask_then_CreateNextRun (d : TaskControlService) (task : Task.t)
    (now : Z) :
  ID_Valid (Task.ID task) = true →
  tasks (SetTask d task) !! Task.ID task = Some task ∧
  ∀ msg, (CreateNextRun (SetTask d task) (Task.ID task) now).1 ≠ Panic msg.
Proof.
  intros Hvalid.
  assert (tasks (SetTask d task) !! Task.ID task = Some task) as Htask.
  { unfold SetTask. simpl. apply lookup_insert_eq. }
  split; [done|]. intros msg.
  destruct (manualRuns (SetTask d task)) as [|run rest] eqn:Hqueue.
  - rewrite (CreateNextRun_regular _ _ _ _ Hvalid Htask Hqueue).
    unfold createNextRun.
    destruct (cron_Parse (Task_EffectiveCron task)); [|done]. cbv zeta.
    match goal with |- context [if ?b then _ else _] => by destruct b end.
  - by rewrite (CreateNextRun_manual _ _ _ _ _ _ Hvalid Htask Hqueue).
Qed.

End GateAgain.

Section Bookkeeping.
Context `{Platform}.

(** What a [CreateNextRun] call leaves: the state as it was, or a state
    that differs in the in-flight runs, the queue and the generator,
    followed by the two bookkeeping writes. *)
Lemma CreateNextRun_outcome (d : TaskControlService) (taskID : influxdb.ID)
    (now : Z) :
  ((CreateNextRun d taskID now).2 = d ∧
   ∀ rc, (CreateNextRun d taskID now).1 ≠ Ok rc) ∨
  ∃ rc d1,
    CreateNextRun d taskID now
    = (Ok rc, countRun (recordCreated d1 taskID (RunCreation.Created rc))
                       taskID) ∧
    tasks d1 = tasks d ∧ finishedRuns d1 = finishedRuns d ∧
    totalRunsCreated d1 = totalRunsCreated d ∧ created d1 = created d.
Proof.
  destruct (ID_Valid taskID) eqn:Hvalid.
  2:{ left. unfold CreateNextRun. by rewrite Hvalid. }
  destruct (tasks d !! taskID) as [task|] eqn:Htask.
  2:{ left. unfold CreateNextRun. by rewrite Hvalid, Htask. }
  destruct (manualRuns d) as [|run rest] eqn:Hqueue.
  - rewrite (CreateNextRun_regular _ _ _ _ Hvalid Htask Hqueue).
    destruct (cron_Parse (Task_EffectiveCron task)) as [sch|] eqn:Hsch.
    2:{ left. unfold createNextRun. by rewrite Hsch. }
    rewrite (createNextRun_eq _ _ _ _ Hsch).
    destruct (dueAt d task sch >? now); [by left|].
    right. cbv zeta.
    match goal with
    | |- ∃ _ _, (Ok ?rc, _) = _ ∧ _ => exists rc, (gateState d task sch)
    end.
    split; [reflexivity|done].
  - right. rewrite (CreateNextRun_manual _ _ _ _ _ _ Hvalid Htask Hqueue).
    cbv zeta.
    match goal with
    | |- ∃ _ _, (Ok ?rc, countRun (recordCreated ?d1 _ _) _) = _ ∧ _ =>
      exists rc, d1
    end.
    split; [reflexivity|done].
Qed.

Lemma CreateNextRun_tasks (d : TaskControlService) (taskID : influxdb.ID)
    (now : Z) :
  tasks (CreateNextRun d taskID now).2 = tasks d.
Proof.
  destruct (CreateNextRun_outcome d taskID now)
    as [[-> _]|(rc & d1 & -> & ? & _)]; done.
Qed.

Lemma StartManualRun_state (t : TaskControlService) (taskID runID : influxdb.ID) :
  ∃ queue, (StartManualRun t taskID runID).2 = set_manualRuns t queue.
Proof.
  unfold StartManualRun.
  destruct (startManualRunLoop _ _ _ _ _ _) as [arr m [run|]|arr m]; eauto.
Qed.

Lemma UpdateRunState_state (d : TaskControlService) (taskID runID : influxdb.ID)
    (when : Time) (state : RunStatus) :
  (UpdateRunState d taskID runID when state).2 = d ∨
  ∃ run run',
    tracked d taskID runID = Some run ∧ Run.ID run' = Run.ID run ∧
    Run.Log run' = Run.Log run ∧
    Run.ScheduledFor run' = Run.ScheduledFor run ∧
    (UpdateRunState d taskID runID when state).2
    = set_runs d (<[taskID := <[runID := run']> (inflight d taskID)]> (runs d)).
Proof.
  unfold UpdateRunState.
  destruct (tracked d taskID runID) as [run|]; [|by left].
  destruct state; try (by left); right;
    (eexists run, _; split; [done|];
     split; [|split; [|split; [|simpl; reflexivity]]]; done).
Qed.

Lemma AddRunLog_state (d : TaskControlService) (taskID runID : influxdb.ID)
    (when : Time) (log : string) :
  (AddRunLog d taskID runID when log).2 = d ∨
  ∃ run,
    tracked d taskID runID = Some run ∧
    (AddRunLog d taskID runID when log).2
    = set_runs d (<[taskID := <[runID :=
          Run.addLog run (Log.mk runID (Time_FormatNano when) log)]>
          (inflight d taskID)]> (runs d)).
Proof.
  unfold AddRunLog.
  destruct (tracked d taskID runID) as [run|]; [|by left].
  right. by exists run.
Qed.

(** X5. The tasks, and with them every watermark, change in [SetTask] and
    [FinishRun] only: no call of [SetManualRuns], [CreateNextRun],
    [CreateRun], [StartManualRun], [UpdateRunState] or [AddRunLog], whatever
    its outcome, touches them. *)
Theorem tasks_change_in_SetTask_and_FinishRun_only (d : TaskControlService)
    (o : op) :
  (∀ task, o ≠ OpSetTask task) →
  (∀ taskID runID, o ≠ OpFinishRun taskID runID) →
  tasks (perform d o) = tasks d.
Proof.
  intros Hset Hfinish.
  destruct o as [task|queue|taskID now|taskID at_|taskID runID|taskID runID
                |taskID runID when state|taskID runID when log]; simpl.
  - by destruct (Hset task).
  - done.
  - apply CreateNextRun_tasks.
  - done.
  - by destruct (StartManualRun_state d taskID runID) as [queue ->].
  - by destruct (Hfinish taskID runID).
  - by destruct (UpdateRunState_state d taskID runID when state)
      as [->|(run & run' & _ & _ & _ & _ & ->)].
  - by destruct (AddRunLog_state d taskID runID when log) as [->|(run & _ & ->)].
Qed.

Lemma int64_add_l (a b : Z) : int64 (int64 a + b) = int64 (a + b).
Proof.
  unfold int64. generalize (2 ^ 63) (2 ^ 64). intros h M. f_equal.
  replace ((a + h) `mod` M - h + b + h) with ((a + h) `mod` M + b) by ring.
  rewrite Zplus_mod_idemp_l. f_equal. ring.
Qed.

Lemma int64_idemp (a : Z) : int64 (int64 a) = int64 a.
Proof.
  transitivity (int64 (int64 a + 0)); [f_equal; lia|].
  rewrite int64_add_l. f_equal. lia.
Qed.

(** The counter of [tid] after one operation. *)
Lemma perform_total (d : TaskControlService) (tid : influxdb.ID) (o : op) :
  TotalRunsCreatedForTask (perform d o) tid
  = if returnsRun d tid o then add64 (TotalRunsCreatedForTask d tid) 1
    else TotalRunsCreatedForTask d tid.
Proof.
  unfold TotalRunsCreatedForTask.
  destruct o as [task|queue|taskID now|taskID at_|taskID runID|taskID runID
                |taskID runID when state|taskID runID when log]; simpl;
    try done.
  - destruct (CreateNextRun_outcome d taskID now)
      as [[-> Hnorun]|(rc & d1 & -> & _ & _ & Htotal & _)].
    + destruct (CreateNextRun d taskID now).1 as [rc| |]; try done.
      by destruct (Hnorun rc).
    + simpl. rewrite Htotal. case_bool_decide as Htid.
      * subst. by rewrite lookup_insert_eq.
      * by rewrite lookup_insert_ne.
  - by destruct (StartManualRun_state d taskID runID) as [queue ->].
  - f_equal. unfold FinishRun. cbv zeta.
    destruct (tracked d taskID runID) as [r|]; [|done]. simpl.
    destruct (tasks d !! taskID) as [t|]; [|done].
    destruct (decide (Task.LatestCompleted t = "")); [done|].
    destruct (time_Parse (Task.LatestCompleted t)); [|done].
    by destruct (Time_After (Run.ScheduledFor r) _).
  - by destruct (UpdateRunState_state d taskID runID when state)
      as [->|(run & run' & _ & _ & _ & _ & ->)].
  - by destruct (AddRunLog_state d taskID runID when log) as [->|(run & _ & ->)].
Qed.

Lemma perform_all_total (os : list op) (d : TaskControlService)
    (tid : influxdb.ID) :
  int64 (TotalRunsCreatedForTask d tid) = TotalRunsCreatedForTask d tid →
  TotalRunsCreatedForTask (perform_all os d) tid
  = int64 (TotalRunsCreatedForTask d tid + runsReturned os d tid).
Proof.
  revert d. induction os as [|o os IH]; intros d Hrange; simpl.
  - by rewrite Z.add_0_r.
  - pose proof (perform_total d tid o) as Hstep.
    rewrite IH.
    + rewrite Hstep. destruct (returnsRun d tid o).
      * unfold add64. rewrite int64_add_l. f_equal. lia.
      * f_equal.
    + rewrite Hstep. destruct (returnsRun d tid o); [|done].
      apply int64_idemp.
Qed.

(** X7. [TotalRunsCreatedForTask] counts the runs that [CreateNextRun] has
    returned for the task, manual and regular alike: after any sequence of
    operations on a service that had no count for the task it is the number
    of [CreateNextRun] calls for that task that returned a run, as an
    [int64]. Failed calls, [CreateRun] and calls for other tasks do not
    count. *)
Theorem TotalRunsCreatedForTask_counts (os : list op) (d : TaskControlService)
    (tid : influxdb.ID) :
  totalRunsCreated d !! tid = None →
  TotalRunsCreatedForTask (perform_all os d) tid
  = int64 (runsReturned os d tid).
Proof.
  intros Hnone.
  assert (TotalRunsCreatedForTask d tid = 0) as Hzero.
  { unfold TotalRunsCreatedForTask. by rewrite Hnone. }
  rewrite perform_all_total; rewrite Hzero; done.
Qed.

(** X21. A run that [CreateNextRun] returns is listed by [CreatedFor] for
    the task ID it carries, on the state the call leaves. *)
Theorem CreateNextRun_is_listed_by_CreatedFor (d d' : TaskControlService)
    (taskID : influxdb.ID) (now : Z) (rc : RunCreation.t) :
  CreateNextRun d taskID now = (Ok rc, d') →
  RunCreation.Created rc
  ∈ CreatedFor d' (QueuedRun.TaskID (RunCreation.Created rc)).
Proof.
  intros Hcall.
  destruct (CreateNextRun_outcome d taskID now)
    as [[_ Hnorun]|(rc' & d1 & Hok & _)].
  { rewrite Hcall in Hnorun. by destruct (Hnorun rc). }
  rewrite Hcall in Hok. injection Hok as <- ->.
  unfold CreatedFor. apply list_elem_of_filter. split; [done|].
  apply list_elem_of_fmap.
  exists (ID_String taskID +:+ ID_String (QueuedRun.RunID (RunCreation.Created rc)),
          RunCreation.Created rc).
  split; [done|]. apply elem_of_map_to_list. simpl. apply lookup_insert_eq.
Qed.

End Bookkeeping.

Section RunsInFlight.
Context `{Platform}.

Lemma inflight_FinishRun (d : TaskControlService) (tid rid k : influxdb.ID) :
  inflight (FinishRun d tid rid).2 k
  = if decide (tid = k) then delete rid (inflight d k) else inflight d k.
Proof.
  unfold inflight. rewrite FinishRun_runs, lookup_alter.
  destruct (decide (tid = k)) as [<-|]; [|done].
  destruct (runs d !! tid); simpl; [done|]. by rewrite delete_empty.
Qed.

(** X9. [FinishRun] takes exactly the finished run out of what
    [CurrentlyRunning] lists: for a tracked run, whatever [FinishRun]
    returns, the runs listed for the task before the call are the run and
    those listed after it, and the lists of the other tasks are as they
    were. *)
Theorem FinishRun_shrinks_CurrentlyRunning (d : TaskControlService)
    (tid rid : influxdb.ID) (r : Run.t) :
  tracked d tid rid = Some r →
  let d' := (FinishRun d tid rid).2 in
  ∃ before after,
    (CurrentlyRunning d tid).1 = Ok before ∧
    (CurrentlyRunning d' tid).1 = Ok after ∧
    before ≡ₚ r :: after ∧
    length before = S (length after) ∧
    (∀ other, other ≠ tid →
              (CurrentlyRunning d' other).1 = (CurrentlyRunning d other).1).
Proof.
  intros Hr d'. eexists _, _. split; [reflexivity|]. split; [reflexivity|].
  assert ((map_to_list (inflight d tid)).*2
          ≡ₚ r :: (map_to_list (inflight d' tid)).*2) as Hperm.
  { unfold d'. rewrite inflight_FinishRun.
    destruct (decide (tid = tid)); [|done].
    rewrite <- (map_to_list_delete (inflight d tid) rid r Hr). done. }
  split; [done|]. split; [by rewrite Hperm|].
  intros other Hother. unfold CurrentlyRunning, d'. simpl.
  rewrite inflight_FinishRun. by destruct (decide (tid = other)).
Qed.

(** X10. A run that the gate creates under an ID not yet in flight for the
    task is added to what [CurrentlyRunning] lists for the task: the list
    after the call is the new run and the list before. *)
Theorem CreateNextRun_grows_CurrentlyRunning (d d' : TaskControlService)
    (taskID : influxdb.ID) (task : Task.t) (now : Z) (rc : RunCreation.t) :
  tasks d !! taskID = Some task →
  manualRuns d = [] →
  tracked d (Task.ID task) (idgen_ID (idgen d)) = None →
  CreateNextRun d taskID now = (Ok rc, d') →
  ∃ run before after,
    Run.ID run = QueuedRun.RunID (RunCreation.Created rc) ∧
    Time_Unix (Run.ScheduledFor run) = QueuedRun.Now (RunCreation.Created rc) ∧
    (CurrentlyRunning d (Task.ID task)).1 = Ok before ∧
    (CurrentlyRunning d' (Task.ID task)).1 = Ok after ∧
    after ≡ₚ run :: before.
Proof.
  intros Htask Hqueue Hfresh Hcall.
  destruct (ID_Valid taskID) eqn:Hvalid.
  2:{ unfold CreateNextRun in Hcall. by rewrite Hvalid in Hcall. }
  rewrite (CreateNextRun_regular _ _ _ _ Hvalid Htask Hqueue) in Hcall.
  destruct (cron_Parse (Task_EffectiveCron task)) as [sch|] eqn:Hsch.
  2:{ unfold createNextRun in Hcall. by rewrite Hsch in Hcall. }
  rewrite (createNextRun_eq _ _ _ _ Hsch) in Hcall.
  destruct (dueAt d task sch >? now); [done|].
  injection Hcall as <- <-.
  exists (gateRun d task sch). eexists _, _.
  split; [done|]. split; [done|]. split; [reflexivity|].
  split; [reflexivity|].
  change (inflight (countRun _ _) (Task.ID task))
    with (inflight (gateState d task sch) (Task.ID task)).
  unfold inflight at 1, gateState. simpl. rewrite lookup_insert_eq. simpl.
  rewrite map_to_list_insert by done. done.
Qed.

(** X11. [FinishRun] for a tracked run of a task that is set, whose
    [LatestCompleted] is empty or parses, returns the run as it was
    tracked, takes it out of the in-flight set and records it as finished:
    [FinishedRun] returns it and [FinishedRuns] lists it. The queue and the
    counters are as they were. *)
Theorem FinishRun_moves_run_to_finished (d : TaskControlService)
    (tid rid : influxdb.ID) (t : Task.t) (r : Run.t) :
  tasks d !! tid = Some t →
  tracked d tid rid = Some r →
  Task.LatestCompleted t = "" ∨ is_Some (time_Parse (Task.LatestCompleted t)) →
  ∃ d',
    FinishRun d tid rid = (Ok r, d') ∧
    tracked d' tid rid = None ∧
    FinishedRun d' rid = Some r ∧
    r ∈ FinishedRuns d' ∧
    manualRuns d' = manualRuns d ∧
    totalRunsCreated d' = totalRunsCreated d.
Proof.
  intros Ht Hr Hlc.
  assert (∀ d', FinishedRun d' rid = Some r → r ∈ FinishedRuns d') as Hlisted.
  { intros d' Hfin. unfold FinishedRuns. rewrite merge_sort_Permutation.
    apply list_elem_of_fmap. exists (rid, r). split; [done|].
    by apply elem_of_map_to_list. }
  pose proof (FinishRun_removes d tid rid) as Hgone.
  unfold FinishRun in *. cbv zeta in *. rewrite Hr in *. simpl in *.
  rewrite Ht in *.
  destruct (decide (Task.LatestCompleted t = "")) as [Hempty|Hne].
  - eexists. split; [reflexivity|]. split; [done|].
    assert (FinishedRun
              (set_created
                 (set_finishedRuns
                    (set_runs d (alter (delete rid) tid (runs d)))
                    (<[rid:=r]> (finishedRuns d)))
                 (delete (ID_String tid +:+ ID_String rid) (created d)))
              rid = Some r) as Hfin
      by (unfold FinishedRun; simpl; apply lookup_insert_eq).
    split; [done|]. split; [by apply Hlisted|done].
  - destruct Hlc as [?|[latest Hparse]]; [done|]. rewrite Hparse in *.
    destruct (Time_After (Run.ScheduledFor r) latest);
      (eexists; split; [reflexivity|]; split; [done|];
       split; [unfold FinishedRun; simpl; apply lookup_insert_eq|];
       split; [apply Hlisted; unfold FinishedRun; simpl; apply lookup_insert_eq
              |done]).
Qed.

(** X12. When [FinishRun] fails for a tracked run the run is lost: if the
    task is not set the call panics, and if the task's [LatestCompleted] is
    non-empty and does not parse the call returns the parse error; either
    way the run has left the in-flight set and is not recorded as
    finished, and the tasks are as they were. *)
Theorem FinishRun_failure_drops_the_run (d : TaskControlService)
    (tid rid : influxdb.ID) (r : Run.t) :
  tracked d tid rid = Some r →
  tasks d !! tid = None ∨
  (∃ t, tasks d !! tid = Some t ∧ Task.LatestCompleted t ≠ "" ∧
        time_Parse (Task.LatestCompleted t) = None) →
  let res := (FinishRun d tid rid).1 in
  let d' := (FinishRun d tid rid).2 in
  (tasks d !! tid = None → ∃ msg, res = Panic msg) ∧
  (∀ t, tasks d !! tid = Some t →
        res = Err (errTimeParse (Task.LatestCompleted t))) ∧
  tracked d' tid rid = None ∧
  finishedRuns d' = finishedRuns d ∧
  tasks d' = tasks d.
Proof.
  intros Hr Hcase res d'.
  pose proof (FinishRun_removes d tid rid) as Hgone.
  unfold res, d', FinishRun in *. cbv zeta in *. rewrite Hr in *. simpl in *.
  destruct Hcase as [Hnone|(t & Ht & Hne & Hparse)].
  - rewrite Hnone in *. simpl. split; [eauto|]. by split.
  - rewrite Ht in *. destruct (decide (Task.LatestCompleted t = "")); [done|].
    rewrite Hparse in *. simpl. split; [done|].
    split; [by intros ? [= <-]|done].
Qed.

End RunsInFlight.

Section RunRecords.
Context `{Platform}.

Lemma tracked_update_other (d : TaskControlService)
    (taskID runID k j : influxdb.ID) (run : Run.t) :
  (k, j) ≠ (taskID, runID) →
  is_Some (tracked d taskID runID) →
  tracked (set_runs d (<[taskID := <[runID := run]> (inflight d taskID)]>
                         (runs d))) k j
  = tracked d k j.
Proof.
  intros Hother [old Hold]. unfold tracked, inflight in *. simpl.
  rewrite lookup_insert. destruct (decide (taskID = k)) as [<-|]; [|done].
  simpl. rewrite lookup_insert_ne by congruence. done.
Qed.

(** X13. [AddRunLog] appends: after any number of calls for a tracked run,
    the run's log is what it was followed by one entry per call, in call
    order, each with the run ID, the formatted time and the message; the
    run's ID, status, times and [ScheduledFor] are as they were. *)
Theorem AddRunLog_appends_in_call_order (lines : list (Time * string))
    (d : TaskControlService) (taskID runID : influxdb.ID) (run : Run.t) :
  tracked d taskID runID = Some run →
  ∃ run',
    tracked (addLogs taskID runID lines d) taskID runID = Some run' ∧
    Run.Log run' = (Run.Log run ++ logEntries runID lines)%list ∧
    Run.ID run' = Run.ID run ∧ Run.Status run' = Run.Status run ∧
    Run.ScheduledFor run' = Run.ScheduledFor run ∧
    Run.StartedAt run' = Run.StartedAt run ∧
    Run.FinishedAt run' = Run.FinishedAt run.
Proof.
  revert d run. induction lines as [|[when log] lines IH]; intros d run Hrun.
  - exists run. split; [done|]. split; [by rewrite app_nil_r|done].
  - unfold addLogs, perform_all. simpl.
    assert (tracked (AddRunLog d taskID runID when log).2 taskID runID
            = Some (Run.addLog run (Log.mk runID (Time_FormatNano when) log)))
      as Hnext.
    { unfold AddRunLog. rewrite Hrun. apply tracked_update. }
    destruct (IH _ _ Hnext) as (run' & Hrun' & Hlog & Hrest).
    exists run'. split; [done|]. split; [|done].
    rewrite Hlog. simpl. by rewrite <- app_assoc.
Qed.

#[local] Instance notAfter_total : Total notAfter.
Proof. intros a b. unfold notAfter. lia. Qed.

(** X15. [FinishedRuns] returns the finished runs, each as often as it is
    recorded, ordered by [ScheduledFor]: no run stands before one that is
    scheduled earlier. *)
Theorem FinishedRuns_sorted (d : TaskControlService) :
  Sorted notAfter (FinishedRuns d) ∧
  FinishedRuns d ≡ₚ (map_to_list (finishedRuns d)).*2 ∧
  (∀ r, r ∈ FinishedRuns d ↔ ∃ rid, FinishedRun d rid = Some r) ∧
  length (FinishedRuns d) = size (finishedRuns d).
Proof.
  unfold FinishedRuns. split; [apply Sorted_merge_sort, _|].
  split; [apply merge_sort_Permutation|]. split.
  - intros r. rewrite merge_sort_Permutation, list_elem_of_fmap. split.
    + intros ([rid r'] & -> & Hin). exists rid. by apply elem_of_map_to_list.
    + intros (rid & Hr). exists (rid, r). split; [done|].
      by apply elem_of_map_to_list.
  - by rewrite merge_sort_Permutation, length_fmap, length_map_to_list.
Qed.

Lemma poll_cons (taskID : influxdb.ID) (now : Z) (nows : list Z)
    (d : TaskControlService) :
  poll taskID (now :: nows) d
  = (match (CreateNextRun d taskID now).1 with
     | Ok rc => rc :: (poll taskID nows (CreateNextRun d taskID now).2).1
     | _ => (poll taskID nows (CreateNextRun d taskID now).2).1
     end,
     (poll taskID nows (CreateNextRun d taskID now).2).2).
Proof.
  simpl. destruct (CreateNextRun d taskID now) as [res d1]. simpl.
  by destruct (poll taskID nows d1).
Qed.

(** The runs that [poll] returns while the queue lasts. *)
Lemma poll_serves_queue (queue : list Run.t) (nows : list Z)
    (d : TaskControlService) (taskID : influxdb.ID) (task : Task.t) :
  ID_Valid taskID = true →
  tasks d !! taskID = Some task →
  manualRuns d = queue →
  length nows = length queue →
  manualRuns (poll taskID nows d).2 = [] ∧
  (RunCreation.Created <$> (poll taskID nows d).1)
  = (λ run, QueuedRun.mk (Task.ID task) (Run.ID run)
                         (Time_Unix (Run.ScheduledFor run))) <$> queue ∧
  (RunCreation.HasQueue <$> (poll taskID nows d).1)
  = (λ i, bool_decide (S i < length queue)%nat) <$> seq 0 (length queue).
Proof.
  intros Hvalid. revert nows d.
  induction queue as [|run rest IH]; intros nows d Htask Hqueue Hlen.
  - destruct nows; [|done]. simpl. by rewrite Hqueue.
  - destruct nows as [|now nows]; [done|]. rewrite poll_cons.
    rewrite (CreateNextRun_manual _ _ _ _ _ _ Hvalid Htask Hqueue).
    cbv zeta. simpl fst. simpl snd.
    match goal with
    | |- context [poll taskID nows ?s] =>
      destruct (IH nows s) as (Hempty & Hcreated & Hflags);
        [done|done|by injection Hlen|]
    end.
    split; [done|]. split; [by rewrite fmap_cons, Hcreated|].
    rewrite fmap_cons, Hflags. simpl. f_equal.
    + destruct rest; [reflexivity|].
      symmetry. apply bool_decide_eq_true_2. simpl. lia.
    + rewrite <- (fmap_S_seq 0), <- list_fmap_compose.
      apply list_fmap_ext. intros _ i _. simpl.
      apply bool_decide_ext. lia.
Qed.

(** X16. The manual queue is served first in, first out: with [n] runs
    queued, [n] calls of [CreateNextRun] for a task that is set, at any
    times, return the queued runs in their order, each under the task's ID
    with its own [ScheduledFor] as [Now], with [HasQueue] true for all but
    the last, and leave the queue empty. *)
Theorem manual_queue_is_served_in_order (nows : list Z)
    (d : TaskControlService) (taskID : influxdb.ID) (task : Task.t) :
  ID_Valid taskID = true →
  tasks d !! taskID = Some task →
  length nows = length (manualRuns d) →
  manualRuns (poll taskID nows d).2 = [] ∧
  (RunCreation.Created <$> (poll taskID nows d).1)
  = (λ run, QueuedRun.mk (Task.ID task) (Run.ID run)
                         (Time_Unix (Run.ScheduledFor run))) <$> manualRuns d ∧
  (RunCreation.HasQueue <$> (poll taskID nows d).1)
  = (λ i, bool_decide (S i < length (manualRuns d))%nat)
      <$> seq 0 (length (manualRuns d)).
Proof. intros. by apply poll_serves_queue. Qed.

End RunRecords.

Section FiledByID.
Context `{Platform}.

(** Where a run that is in flight after an operation comes from: it has
    just been filed under its own ID, or a run with its ID was in flight
    under the same run ID before. *)
Lemma perform_tracked (d : TaskControlService) (o : op)
    (k j : influxdb.ID) (r : Run.t) :
  tracked (perform d o) k j = Some r →
  Run.ID r = j ∨
  ∃ k' r0, tracked d k' j = Some r0 ∧ Run.ID r = Run.ID r0.
Proof.
  destruct o as [task|queue|taskID now|taskID at_|taskID runID|taskID runID
                |taskID runID when state|taskID runID when log]; simpl.
  - intros Hr. right. by exists k, r.
  - intros Hr. right. by exists k, r.
  - destruct (ID_Valid taskID) eqn:Hvalid.
    2:{ unfold CreateNextRun. rewrite Hvalid. intros Hr. right. by exists k, r. }
    destruct (tasks d !! taskID) as [task|] eqn:Htask.
    2:{ unfold CreateNextRun. rewrite Hvalid, Htask. intros Hr.
        right. by exists k, r. }
    destruct (manualRuns d) as [|run rest] eqn:Hqueue.
    + rewrite (CreateNextRun_regular _ _ _ _ Hvalid Htask Hqueue).
      destruct (cron_Parse (Task_EffectiveCron task)) as [sch|] eqn:Hsch.
      2:{ unfold createNextRun. rewrite Hsch. intros Hr. right. by exists k, r. }
      rewrite (createNextRun_eq _ _ _ _ Hsch).
      destruct (dueAt d task sch >? now).
      { intros Hr. right. by exists k, r. }
      cbv zeta. simpl snd.
      change (tracked (countRun _ _) k j)
        with (tracked (gateState d task sch) k j).
      intros [(_ & -> & ->)|Hr]%tracked_gateState_inv; [by left|].
      right. by exists k, r.
    + rewrite (CreateNextRun_manual _ _ _ _ _ _ Hvalid Htask Hqueue).
      cbv zeta. simpl snd. unfold tracked, inflight. simpl.
      assert (<[Run.ID run := run]> (default ∅ (runs d !! taskID)) !! j
              = Some r →
              Run.ID r = j ∨
              ∃ k' r0, default ∅ (runs d !! k') !! j = Some r0 ∧
                       Run.ID r = Run.ID r0) as Hnew.
      { rewrite lookup_insert.
        destruct (decide (Run.ID run = j)) as [<-|]; [by intros [= <-]; left|].
        intros Hr. right. by exists taskID, r. }
      rewrite lookup_insert.
      destruct (decide (Task.ID task = k)) as [<-|]; simpl.
      { exact Hnew. }
      rewrite lookup_alter.
      destruct (decide (taskID = k)) as [<-|].
      * destruct (runs d !! taskID) as [m|] eqn:Hm; simpl.
        -- exact Hnew.
        -- by rewrite lookup_empty.
      * intros Hr. right. by exists k, r.
  - unfold tracked, inflight. simpl. rewrite lookup_insert.
    destruct (decide (taskID = k)) as [<-|]; simpl.
    + rewrite lookup_insert.
      destruct (decide (idgen_ID (idgen d) = j)) as [<-|].
      * intros [= <-]. by left.
      * intros Hr. right. by exists taskID, r.
    + intros Hr. right. by exists k, r.
  - destruct (StartManualRun_state d taskID runID) as [queue ->].
    intros Hr. right. by exists k, r.
  - intros Hr%FinishRun_tracked. right. by exists k, r.
  - destruct (UpdateRunState_state d taskID runID when state)
      as [->|(run & run' & Hrun & Hid & _ & _ & ->)].
    { intros Hr. right. by exists k, r. }
    destruct (decide ((k, j) = (taskID, runID))) as [[= -> ->]|Hother].
    + rewrite tracked_update. intros [= <-]. right. by exists taskID, run.
    + rewrite tracked_update_other by (by rewrite ?Hrun).
      intros Hr. right. by exists k, r.
  - destruct (AddRunLog_state d taskID runID when log)
      as [->|(run & Hrun & ->)].
    { intros Hr. right. by exists k, r. }
    destruct (decide ((k, j) = (taskID, runID))) as [[= -> ->]|Hother].
    + rewrite tracked_update. intros [= <-]. right. by exists taskID, run.
    + rewrite tracked_update_other by (by rewrite ?Hrun).
      intros Hr. right. by exists k, r.
Qed.

(** Where a finished run comes from. *)
Lemma perform_finished (d : TaskControlService) (o : op) (j : influxdb.ID)
    (r : Run.t) :
  FinishedRun (perform d o) j = Some r →
  FinishedRun d j = Some r ∨ ∃ k, tracked d k j = Some r.
Proof.
  unfold FinishedRun.
  destruct o as [task|queue|taskID now|taskID at_|taskID runID|taskID runID
                |taskID runID when state|taskID runID when log]; simpl;
    try (by left).
  - destruct (CreateNextRun_outcome d taskID now)
      as [[-> _]|(rc & d1 & -> & _ & Hfin & _)]; [by left|].
    simpl. rewrite Hfin. by left.
  - destruct (StartManualRun_state d taskID runID) as [queue ->]. by left.
  - unfold FinishRun. cbv zeta.
    destruct (tracked d taskID runID) as [r0|] eqn:Hr0; [|by left]. simpl.
    destruct (tasks d !! taskID) as [t|]; [|by left].
    assert (<[runID := r0]> (finishedRuns d) !! j = Some r →
            finishedRuns d !! j = Some r ∨ ∃ k, tracked d k j = Some r)
      as Hnew.
    { rewrite lookup_insert. destruct (decide (runID = j)) as [<-|]; [|by left].
      intros [= <-]. right. by exists taskID. }
    destruct (decide (Task.LatestCompleted t = "")); [done|].
    destruct (time_Parse (Task.LatestCompleted t)); [|by left].
    by destruct (Time_After (Run.ScheduledFor r0) _).
  - destruct (UpdateRunState_state d taskID runID when state)
      as [->|(run & run' & _ & _ & _ & _ & ->)]; by left.
  - destruct (AddRunLog_state d taskID runID when log)
      as [->|(run & _ & ->)]; by left.
Qed.

(** X17. Runs stay filed under their own IDs: if every in-flight and every
    finished run is stored under its own ID, the same holds after any
    sequence of operations, manual runs with arbitrary fields included. So
    [FinishRun] and [FinishedRun] called with the ID of a listed run
    address that run. *)
Theorem runs_stay_filed_by_ID (os : list op) (d : TaskControlService) :
  filed_by_ID d → filed_by_ID (perform_all os d).
Proof.
  revert d. induction os as [|o os IH]; intros d Hfiled; [done|].
  simpl. apply IH. destruct Hfiled as [Hruns Hfin]. split.
  - intros k j r Hr.
    apply perform_tracked in Hr as [?|(k' & r0 & Hr0 & ->)]; [done|].
    by apply (Hruns k').
  - intros j r Hr.
    apply perform_finished in Hr as [Hr|(k & Hr)]; [by apply Hfin|].
    by apply (Hruns k).
Qed.

End FiledByID.


Section SharedRuns.
Context `{Platform}.

(** Reading an in-flight entry of the view is following the pointer. *)
Lemma view_tracked (d : Pointers.Service) (k j : influxdb.ID) :
  tracked (Pointers.view d) k j = Pointers.tracked d k j.
Proof.
  unfold tracked, inflight, Pointers.tracked, Pointers.pointer. simpl.
  rewrite lookup_fmap. destruct (Pointers.runs d !! k) as [m|]; simpl.
  - by rewrite lookup_omap.
  - by rewrite lookup_empty.
Qed.

Lemma UpdateRunState_by_pointer (d : Pointers.Service)
    (taskID runID : influxdb.ID) (p : Pointers.ptr) (run : Run.t)
    (when : Time) (state : RunStatus) :
  Pointers.pointer d taskID runID = Some p →
  Pointers.deref d p = Some run →
  Pointers.UpdateRunState d taskID runID when state
  = match state with
    | RunUnknown _ => (Panic "invalid status", d)
    | _ => (Ok tt,
            Pointers.set_heap d (<[p := stamped run when state]>
                                   (Pointers.heap d)))
    end.
Proof.
  intros Hp Hrun. unfold Pointers.UpdateRunState. rewrite Hp.
  destruct state; simpl; rewrite ?Hrun; reflexivity.
Qed.

Lemma UpdateRunState_by_value (d : TaskControlService)
    (taskID runID : influxdb.ID) (run : Run.t) (when : Time)
    (state : RunStatus) :
  tracked d taskID runID = Some run →
  UpdateRunState d taskID runID when state
  = match state with
    | RunUnknown _ => (Panic "invalid status", d)
    | _ => (Ok tt,
            set_runs d (<[taskID := <[runID := stamped run when state]>
                                      (inflight d taskID)]> (runs d)))
    end.
Proof.
  intros Hrun. unfold UpdateRunState. rewrite Hrun.
  destruct state; reflexivity.
Qed.

Lemma AddRunLog_by_pointer (d : Pointers.Service)
    (taskID runID : influxdb.ID) (p : Pointers.ptr) (run : Run.t)
    (when : Time) (log : string) :
  Pointers.pointer d taskID runID = Some p →
  Pointers.deref d p = Some run →
  Pointers.AddRunLog d taskID runID when log
  = (Ok tt,
     Pointers.set_heap d
       (<[p := Run.addLog run (Log.mk runID (Time_FormatNano when) log)]>
          (Pointers.heap d))).
Proof.
  intros Hp Hrun. unfold Pointers.AddRunLog. by rewrite Hp, Hrun.
Qed.

(** Writing the object at [p]: the keys that hold [p] read the new
    object, the others read what they read before. *)
Lemma tracked_set_heap (d : Pointers.Service) (p : Pointers.ptr)
    (run : Run.t) (k j : influxdb.ID) :
  Pointers.tracked (Pointers.set_heap d (<[p := run]> (Pointers.heap d))) k j
  = if decide (Pointers.pointer d k j = Some p) then Some run
    else Pointers.tracked d k j.
Proof.
  unfold Pointers.tracked, Pointers.pointer, Pointers.deref. simpl.
  destruct (Pointers.runs d !! k ≫= (.!! j)) as [q|] eqn:Hq; simpl.
  - destruct (decide (Some q = Some p)) as [[= ->]|Hother].
    + by rewrite lookup_insert_eq.
    + rewrite lookup_insert_ne; [done|congruence].
  - done.
Qed.

(** X14. [UpdateRunState] and [AddRunLog] write one run object and nothing
    else. For an in-flight entry that holds a run object: the call
    returns what it returns on the service with the runs kept by value;
    no map, queue or counter of the service changes, so every key holds
    the pointer it held; every other run object is as it was; and the
    object itself is written, so that every in-flight entry that holds it,
    under whatever task, reads the run that the addressed entry reads, and
    every entry that holds another object reads what it read before. *)
Theorem run_updates_write_one_object (d : Pointers.Service)
    (taskID runID : influxdb.ID) (p : Pointers.ptr) (run : Run.t)
    (when : Time) (state : RunStatus) (log : string) :
  Pointers.pointer d taskID runID = Some p →
  Pointers.deref d p = Some run →
  let d1 := (Pointers.UpdateRunState d taskID runID when state).2 in
  let d2 := (Pointers.AddRunLog d taskID runID when log).2 in
  let v1 := UpdateRunState (Pointers.view d) taskID runID when state in
  let v2 := AddRunLog (Pointers.view d) taskID runID when log in
  (Pointers.UpdateRunState d taskID runID when state).1 = v1.1 ∧
  (Pointers.AddRunLog d taskID runID when log).1 = v2.1 ∧
  (∀ d', d' = d1 ∨ d' = d2 →
     Pointers.runs d' = Pointers.runs d ∧
     Pointers.manualRuns d' = Pointers.manualRuns d ∧
     Pointers.finishedRuns d' = Pointers.finishedRuns d ∧
     Pointers.tasks d' = Pointers.tasks d ∧
     Pointers.created d' = Pointers.created d ∧
     Pointers.totalRunsCreated d' = Pointers.totalRunsCreated d ∧
     Pointers.idgen d' = Pointers.idgen d ∧
     (∀ q, q ≠ p → Pointers.deref d' q = Pointers.deref d q)) ∧
  Pointers.deref d1 p = tracked v1.2 taskID runID ∧
  Pointers.deref d2 p = tracked v2.2 taskID runID ∧
  (∀ k j, Pointers.pointer d k j = Some p →
     Pointers.tracked d1 k j = tracked v1.2 taskID runID ∧
     Pointers.tracked d2 k j = tracked v2.2 taskID runID) ∧
  (∀ k j, Pointers.pointer d k j ≠ Some p →
     Pointers.tracked d1 k j = Pointers.tracked d k j ∧
     Pointers.tracked d2 k j = Pointers.tracked d k j).
Proof.
  intros Hp Hrun d1 d2 v1 v2.
  assert (tracked (Pointers.view d) taskID runID = Some run) as Hview.
  { rewrite view_tracked. unfold Pointers.tracked. by rewrite Hp. }
  assert (Pointers.tracked d taskID runID = Some run) as Hold.
  { unfold Pointers.tracked. by rewrite Hp. }
  unfold d1, d2, v1, v2.
  rewrite (UpdateRunState_by_pointer _ _ _ _ _ _ _ Hp Hrun).
  rewrite (AddRunLog_by_pointer _ _ _ _ _ _ _ Hp Hrun).
  rewrite (UpdateRunState_by_value _ _ _ _ _ _ Hview).
  unfold AddRunLog. rewrite Hview. cbv zeta.
  assert (∀ run',
    (∀ q, q ≠ p →
       Pointers.deref (Pointers.set_heap d (<[p := run']> (Pointers.heap d))) q
       = Pointers.deref d q) ∧
    Pointers.deref (Pointers.set_heap d (<[p := run']> (Pointers.heap d))) p
    = Some run') as Hheap.
  { intros run'. unfold Pointers.deref. simpl. split.
    - intros q Hq. by rewrite lookup_insert_ne.
    - by rewrite lookup_insert_eq. }
  split; [by destruct state|]. split; [done|]. split.
  { intros d' [->| ->]; [destruct state|]; simpl; repeat split; try done;
      apply Hheap. }
  split.
  { destruct state; simpl; rewrite ?tracked_update; try apply Hheap;
      by rewrite Hview. }
  split.
  { simpl. rewrite tracked_update. apply Hheap. }
  split.
  - intros k j Hk. split.
    + destruct state; simpl; rewrite ?tracked_update, ?tracked_set_heap,
        ?decide_True by done; try done.
      rewrite Hview. unfold Pointers.tracked. by rewrite Hk.
    + simpl. by rewrite tracked_update, tracked_set_heap, decide_True.
  - intros k j Hk. split.
    + destruct state; simpl; rewrite ?tracked_set_heap, ?decide_False by done;
        done.
    + simpl. by rewrite tracked_set_heap, decide_False.
Qed.

Lemma omap_deref_unshared (d : Pointers.Service) (p : Pointers.ptr)
    (run : Run.t) (m : gmap influxdb.ID Pointers.ptr) :
  (∀ j, m !! j ≠ Some p) →
  omap (M := gmap influxdb.ID)
       (Pointers.deref (Pointers.set_heap d (<[p := run]> (Pointers.heap d))))
       m
  = omap (M := gmap influxdb.ID) (Pointers.deref d) m.
Proof.
  intros Hm. apply map_eq. intros j. rewrite !lookup_omap.
  destruct (m !! j) as [q|] eqn:Hq; [|done]. simpl.
  unfold Pointers.deref. simpl. rewrite lookup_insert_ne; [done|].
  intros <-. by apply (Hm j).
Qed.

Lemma omap_deref_queue (d : Pointers.Service) (p : Pointers.ptr)
    (run : Run.t) (queue : list Pointers.ptr) :
  p ∉ queue →
  omap (M := list)
       (Pointers.deref (Pointers.set_heap d (<[p := run]> (Pointers.heap d))))
       queue
  = omap (M := list) (Pointers.deref d) queue.
Proof.
  induction queue as [|q queue IH]; [done|].
  intros [Hq Hqueue]%not_elem_of_cons.
  change (match Pointers.deref
                  (Pointers.set_heap d (<[p := run]> (Pointers.heap d))) q with
          | Some r => r :: omap (M := list)
                        (Pointers.deref
                           (Pointers.set_heap d (<[p := run]> (Pointers.heap d))))
                        queue
          | None => omap (M := list)
                      (Pointers.deref
                         (Pointers.set_heap d (<[p := run]> (Pointers.heap d))))
                      queue
          end
          = match Pointers.deref d q with
            | Some r => r :: omap (M := list) (Pointers.deref d) queue
            | None => omap (M := list) (Pointers.deref d) queue
            end).
  rewrite (IH Hqueue).
  assert (Pointers.deref
            (Pointers.set_heap d (<[p := run]> (Pointers.heap d))) q
          = Pointers.deref d q) as ->; [|done].
  unfold Pointers.deref. simpl. by rewrite lookup_insert_ne.
Qed.

(** Following the pointers after the object at [p] is written, when [p]
    is held by one in-flight entry and nowhere else. *)
Lemma view_set_heap (d : Pointers.Service) (taskID runID : influxdb.ID)
    (p : Pointers.ptr) (run : Run.t) :
  Pointers.pointer d taskID runID = Some p →
  (∀ k j, Pointers.pointer d k j = Some p → k = taskID ∧ j = runID) →
  p ∉ Pointers.manualRuns d →
  (∀ j, Pointers.finishedRuns d !! j ≠ Some p) →
  Pointers.view (Pointers.set_heap d (<[p := run]> (Pointers.heap d)))
  = set_runs (Pointers.view d)
      (<[taskID := <[runID := run]> (inflight (Pointers.view d) taskID)]>
         (runs (Pointers.view d))).
Proof.
  intros Hp Honly Hqueue Hfinished.
  unfold Pointers.view, set_runs, inflight. simpl. f_equal.
  - apply map_eq. intros k. rewrite lookup_fmap.
    unfold Pointers.pointer in Hp.
    destruct (decide (k = taskID)) as [->|Hk].
    + rewrite lookup_insert_eq, lookup_fmap.
      destruct (Pointers.runs d !! taskID) as [m|] eqn:Hm; [|done].
      simpl in *. f_equal. apply map_eq. intros j. rewrite lookup_omap.
      destruct (decide (j = runID)) as [->|Hj].
      * rewrite lookup_insert_eq, Hp. simpl. unfold Pointers.deref. simpl.
        by rewrite lookup_insert_eq.
      * rewrite lookup_insert_ne by done. rewrite lookup_omap.
        destruct (m !! j) as [q|] eqn:Hq; [|done]. simpl.
        unfold Pointers.deref. simpl. rewrite lookup_insert_ne; [done|].
        intros <-. destruct (Honly taskID j) as [_ ?]; [|done].
        unfold Pointers.pointer. by rewrite Hm.
    + rewrite lookup_insert_ne by done. rewrite lookup_fmap.
      destruct (Pointers.runs d !! k) as [m|] eqn:Hm; [|done].
      simpl. f_equal. apply omap_deref_unshared. intros j Hj.
      destruct (Honly k j) as [? _]; [|done].
      unfold Pointers.pointer. by rewrite Hm.
  - by apply omap_deref_queue.
  - by apply omap_deref_unshared.
Qed.

(** X22. Where no run object is shared, keeping the runs by value is
    exact: if the object behind the addressed in-flight entry is held by
    that entry only (by no other in-flight entry, not by the queue, not by
    a finished run), then [UpdateRunState] and [AddRunLog] return what
    they return on the service with the runs kept by value, and following
    the pointers of the state they leave gives the state that the
    by-value functions leave. *)
Theorem run_updates_on_unshared_run (d : Pointers.Service)
    (taskID runID : influxdb.ID) (p : Pointers.ptr) (run : Run.t)
    (when : Time) (state : RunStatus) (log : string) :
  Pointers.pointer d taskID runID = Some p →
  Pointers.deref d p = Some run →
  (∀ k j, Pointers.pointer d k j = Some p → k = taskID ∧ j = runID) →
  p ∉ Pointers.manualRuns d →
  (∀ j, Pointers.finishedRuns d !! j ≠ Some p) →
  (Pointers.UpdateRunState d taskID runID when state).1
  = (UpdateRunState (Pointers.view d) taskID runID when state).1 ∧
  Pointers.view (Pointers.UpdateRunState d taskID runID when state).2
  = (UpdateRunState (Pointers.view d) taskID runID when state).2 ∧
  (Pointers.AddRunLog d taskID runID when log).1
  = (AddRunLog (Pointers.view d) taskID runID when log).1 ∧
  Pointers.view (Pointers.AddRunLog d taskID runID when log).2
  = (AddRunLog (Pointers.view d) taskID runID when log).2.
Proof.
  intros Hp Hrun Honly Hqueue Hfinished.
  assert (tracked (Pointers.view d) taskID runID = Some run) as Hview.
  { rewrite view_tracked. unfold Pointers.tracked. by rewrite Hp. }
  rewrite (UpdateRunState_by_pointer _ _ _ _ _ _ _ Hp Hrun).
  rewrite (AddRunLog_by_pointer _ _ _ _ _ _ _ Hp Hrun).
  rewrite (UpdateRunState_by_value _ _ _ _ _ _ Hview).
  unfold AddRunLog. rewrite Hview. cbv zeta.
  split; [by destruct state|]. split.
  { destruct state; simpl; try done; by apply view_set_heap. }
  split; [done|]. simpl. by apply view_set_heap.
Qed.
End SharedRuns.

(** * The properties on the example services *)

#[local] Existing Instance Reference.platform.

Lemma every_advances (n : Z) :
  0 < n → advances (Reference.every (n * nanosPerSecond)).
Proof.
  intros Hn t. unfold nanosPerSecond. simpl. split.
  - pose proof (Z.div_mod t (n * 1000000000) ltac:(lia)).
    pose proof (Z.mod_pos_bound t (n * 1000000000) ltac:(lia)). lia.
  - rewrite Z.mul_assoc. apply Z.mod_mul. lia.
Qed.

Lemma every_ten_seconds (lc : string) :
  cron_Parse (Task_EffectiveCron
                (Task.setLatestCompleted Examples.everyTenSeconds lc))
  = Some (Reference.every (10 * nanosPerSecond)).
Proof. reflexivity. Qed.

Lemma dated_every_ten_seconds (lc : string) :
  cron_Parse (Task_EffectiveCron (Task.setLatestCompleted Examples.dated lc))
  = Some (Reference.every (10 * nanosPerSecond)).
Proof. reflexivity. Qed.

Lemma every_minute (lc : string) :
  cron_Parse (Task_EffectiveCron
                (Task.setLatestCompleted Examples.everyMinute lc))
  = Some (Reference.every (1 * 60 * nanosPerSecond)).
Proof. reflexivity. Qed.

Lemma fresh_tasks (tid : influxdb.ID) (task : Task.t) :
  tasks Examples.fresh !! tid = Some task →
  task = Examples.everyTenSeconds ∨ task = Examples.everyMinute ∨
  task = Examples.dated.
Proof.
  unfold Examples.fresh, SetTask. simpl. rewrite !lookup_insert.
  repeat case_decide; rewrite ?lookup_empty; naive_solver.
Qed.

Lemma fresh_schedules_advance : schedules_advance Examples.fresh.
Proof.
  intros tid task sch lc Htask Hsch.
  destruct (fresh_tasks tid task Htask) as [->|[->| ->]].
  - rewrite every_ten_seconds in Hsch. injection Hsch as <-.
    by apply every_advances.
  - rewrite every_minute in Hsch. injection Hsch as <-.
    replace (1 * 60 * nanosPerSecond) with (60 * nanosPerSecond) by done.
    by apply every_advances.
  - rewrite dated_every_ten_seconds in Hsch. injection Hsch as <-.
    by apply every_advances.
Qed.

Lemma fresh_nothing_tracked (tid rid : influxdb.ID) :
  tracked Examples.fresh tid rid = None.
Proof. unfold tracked, inflight. simpl. by rewrite lookup_empty. Qed.

Lemma twoInFlight_tracked (tid rid : influxdb.ID) (r : Run.t) :
  tracked Examples.twoInFlight tid rid = Some r →
  Run.ScheduledFor r = time_Unix 10 0 ∨ Run.ScheduledFor r = time_Unix 20 0.
Proof.
  assert (runs Examples.twoInFlight
          = <[3%N := <[2%N := Run.new 2%N (time_Unix 20 0)]>
                       (<[1%N := Run.new 1%N (time_Unix 10 0)]> ∅)]> ∅)
    as Hruns by (by vm_compute).
  unfold tracked, inflight. rewrite Hruns, lookup_insert.
  case_decide; simpl; rewrite ?lookup_empty; [|done].
  rewrite !lookup_insert. repeat case_decide; rewrite ?lookup_empty; naive_solver.
Qed.

(** C1. The gate misses its contract on a task with an offset. The task
    [delayed] runs every 10s with an offset of 1s; set on a new service,
    its first tick is at 10s and by [dueAt = schedule.Next(latest) + Offset]
    it is due at 11s. [createNextRun] adds [toff.Nanoseconds()] to the Unix
    seconds of the tick, so the due time it compares with [now] and
    reports is 1000000010: from [now = 11] up to 1000000009
    [CreateNextRun] returns [RunNotDueYet(1000000010)] and creates no run,
    and [NextDueRun] gives the same time; the run for the tick at 10s is
    created at [now = 1000000010]. *)
Theorem CreateNextRun_counts_offset_in_nanoseconds :
  let d := SetTask NewTaskControlService Examples.delayed in
  let sch := Reference.every (10 * nanosPerSecond) in
  ID_Valid 4%N = true ∧
  tasks d !! 4%N = Some Examples.delayed ∧
  manualRuns d = [] ∧
  cron_Parse (Task_EffectiveCron Examples.delayed) = Some sch ∧
  time_ParseDuration (Task.Offset Examples.delayed) = Some nanosPerSecond ∧
  latestRun d Examples.delayed = 0 ∧
  nextTick d Examples.delayed sch = time_Unix 10 0 ∧
  dueAt_contract d Examples.delayed sch = 11 ∧
  dueAt d Examples.delayed sch = 1000000010 ∧
  NextDueRun d 4%N = (Ok 1000000010, d) ∧
  (∀ now, 11 ≤ now < 1000000010 →
          CreateNextRun d 4%N now = (Err (ErrRunNotDueYet 1000000010), d)) ∧
  (∃ d' run,
     CreateNextRun d 4%N 1000000010
     = (Ok (RunCreation.mk (QueuedRun.mk 4%N 1%N 10) 1000000020 false), d') ∧
     tracked d' 4%N 1%N = Some run ∧
     Run.ScheduledFor run = time_Unix 10 0).
Proof.
  cbv zeta.
  set (d := SetTask NewTaskControlService Examples.delayed).
  set (sch := Reference.every (10 * nanosPerSecond)).
  assert (ID_Valid 4%N = true) as Hvalid by reflexivity.
  assert (tasks d !! 4%N = Some Examples.delayed) as Htask by reflexivity.
  assert (manualRuns d = []) as Hqueue by reflexivity.
  assert (cron_Parse (Task_EffectiveCron Examples.delayed) = Some sch)
    as Hsch by reflexivity.
  assert (dueAt d Examples.delayed sch = 1000000010) as Hdue by reflexivity.
  repeat split; try reflexivity.
  - intros now Hnow.
    rewrite (CreateNextRun_regular _ _ _ _ Hvalid Htask Hqueue).
    rewrite (createNextRun_eq _ _ _ _ Hsch), Hdue.
    destruct (Z.gtb_spec 1000000010 now) as [_|Hlate]; [reflexivity|lia].
  - eexists _, _. split; [reflexivity|]. split; reflexivity.
Qed.

(** The gate on the first task of [fresh], which has no offset: at 5s the
    run for the tick at 10s is not due, at 10s it is created. *)
Lemma CreateNextRun_due_time_gating_witness :
  ID_Valid 1%N = true ∧
  tasks Examples.fresh !! 1%N = Some Examples.everyTenSeconds ∧
  manualRuns Examples.fresh = [] ∧
  ((CreateNextRun Examples.fresh 1%N 5).1 = Err (ErrRunNotDueYet 10)
   ↔ 10 = 10 ∧ 10 > 5) ∧
  ((∃ rc d' run,
      CreateNextRun Examples.fresh 1%N 10 = (Ok rc, d') ∧
      tracked d' 1%N (QueuedRun.RunID (RunCreation.Created rc)) = Some run ∧
      Run.ScheduledFor run = time_Unix 10 0 ∧
      QueuedRun.Now (RunCreation.Created rc) = 10)
   ↔ 10 ≤ 10).
Proof.
  assert (ID_Valid 1%N = true) as Hvalid by reflexivity.
  assert (tasks Examples.fresh !! 1%N = Some Examples.everyTenSeconds)
    as Htask by reflexivity.
  assert (manualRuns Examples.fresh = []) as Hqueue by reflexivity.
  split; [done|]. split; [done|]. split; [done|]. split.
  - exact (proj1 (proj2 (CreateNextRun_due_time_gating
                           Examples.fresh 1%N Examples.everyTenSeconds
                           (Reference.every (10 * nanosPerSecond)) 5
                           Hvalid Htask Hqueue (every_ten_seconds ""))) 10).
  - exact (proj1 (proj2 (proj2 (CreateNextRun_due_time_gating
                           Examples.fresh 1%N Examples.everyTenSeconds
                           (Reference.every (10 * nanosPerSecond)) 10
                           Hvalid Htask Hqueue (every_ten_seconds ""))))).
Defined.

(** C10 on the first task of [fresh]. *)
Lemma NextDueRun_is_the_gate_witness :
  ((CreateNextRun Examples.fresh 1%N 5).1 = Err (ErrRunNotDueYet 10)
   ↔ (NextDueRun Examples.fresh 1%N).1 = Ok 10 ∧ 10 > 5).
Proof.
  exact (proj1 (NextDueRun_is_the_gate Examples.fresh 1%N
                  Examples.everyTenSeconds 5 eq_refl eq_refl eq_refl) 10).
Defined.

(** C5 on [queued]: the backfill is served to the first task at time 0,
    long before any tick is due. *)
Lemma CreateNextRun_serves_manual_first_witness :
  ∃ rc d',
    CreateNextRun Examples.queued 1%N 0 = (Ok rc, d') ∧
    RunCreation.Created rc = QueuedRun.mk 1%N 7%N 3600 ∧
    manualRuns d' = [] ∧
    tracked d' 1%N 7%N = Some Examples.backfill ∧
    (RunCreation.HasQueue rc = true ↔ manualRuns d' ≠ []) ∧
    (∀ now', CreateNextRun Examples.queued 1%N now' = (Ok rc, d')).
Proof.
  exact (CreateNextRun_serves_manual_first Examples.queued 1%N
           Examples.everyTenSeconds Examples.backfill [] 0
           eq_refl eq_refl eq_refl).
Defined.

(** C8 fails as stated: a manual run requested for the first task shows up
    in [ManualRuns] of the second task, and [CreateNextRun] serves it to the
    second task. *)
Lemma manual_queue_not_per_task :
  Run.TaskID Examples.backfill = 1%N ∧
  (ManualRuns Examples.fresh 2%N).1 = Ok [] ∧
  (ManualRuns (SetManualRuns Examples.fresh [Examples.backfill]) 2%N).1
  = Ok [Examples.backfill] ∧
  (ManualRuns (SetManualRuns Examples.fresh [Examples.backfill]) 2%N).1
  ≠ (ManualRuns Examples.fresh 2%N).1 ∧
  (CreateNextRun (SetManualRuns Examples.fresh [Examples.backfill]) 2%N 0).1
  = Ok (RunCreation.mk (QueuedRun.mk 2%N 7%N 3600) 3660 false).
Proof. repeat split; try reflexivity. discriminate. Qed.

(** C8, as the code has it, on [fresh]: the backfill requested for the
    first task, queued before another run, is served to the second task. *)
Lemma manual_queue_is_shared_witness :
  (∀ other, ManualRuns Examples.queued other
            = (Ok [Examples.backfill], Examples.queued)) ∧
  ∃ rc d',
    CreateNextRun Examples.queued 2%N 0 = (Ok rc, d') ∧
    QueuedRun.RunID (RunCreation.Created rc) = 7%N ∧
    QueuedRun.TaskID (RunCreation.Created rc) = 2%N ∧
    tracked d' 2%N 7%N = Some Examples.backfill ∧
    (∀ other, ManualRuns d' other = (Ok [], d')).
Proof.
  exact (manual_queue_is_shared Examples.fresh 2%N Examples.everyMinute
           Examples.backfill [] 0 eq_refl eq_refl).
Defined.

(** C6 fails as stated: the run of [started] was scheduled and has left
    [Scheduled] (it is started); [UpdateRunState] to [Scheduled] is accepted
    and makes it scheduled again. *)
Lemma UpdateRunState_reenters_scheduled :
  Run.Status <$> tracked Examples.scheduled 1%N 1%N = Some "scheduled" ∧
  Run.Status <$> tracked Examples.started 1%N 1%N = Some "started" ∧
  (UpdateRunState Examples.started 1%N 1%N (time_Unix 12 0) RunScheduled).1
  = Ok tt ∧
  Run.Status <$>
    tracked (UpdateRunState Examples.started 1%N 1%N (time_Unix 12 0)
                            RunScheduled).2 1%N 1%N
  = Some "scheduled".
Proof. repeat split; reflexivity. Qed.

(** C6, as the code has it, on the run of [created]. *)
Lemma UpdateRunState_stamps_witness :
  ∃ d' run',
    UpdateRunState Examples.created 1%N 1%N (time_Unix 11 0) RunStarted
    = (Ok tt, d') ∧
    tracked d' 1%N 1%N = Some run' ∧
    Run.Status run' = "started" ∧
    Run.ScheduledFor run' = time_Unix 10 0 ∧
    Run.StartedAt run' = time_Unix 11 0 ∧ Run.FinishedAt run' = zeroTime.
Proof.
  exact (UpdateRunState_stamps Examples.created 1%N 1%N
           (Run.new 1%N (time_Unix 10 0)) (time_Unix 11 0) RunStarted
           eq_refl (λ n, ltac:(discriminate))).
Defined.

(** C9 fails as stated: on a service without tasks or runs the three calls
    panic; none returns [NotFound]. *)
Lemma missing_reference_is_not_NotFound :
  (CreateNextRun NewTaskControlService 1%N 0).1
  = Panic "meta not set for task with ID 0000000000000001" ∧
  (AddRunLog NewTaskControlService 1%N 1%N 0 "log").1
  = Panic "cannot add a log to a non existent run" ∧
  (FinishRun NewTaskControlService 1%N 1%N).1
  = Panic "invalid memory address or nil pointer dereference" ∧
  (CreateNextRun NewTaskControlService 1%N 0).1 ≠ Err ErrRunNotFound ∧
  (AddRunLog NewTaskControlService 1%N 1%N 0 "log").1 ≠ Err ErrRunNotFound ∧
  (FinishRun NewTaskControlService 1%N 1%N).1 ≠ Err ErrRunNotFound.
Proof. repeat split; try reflexivity; discriminate. Qed.

(** C9, as the code has it, on the new service. *)
Lemma missing_reference_panics_witness :
  CreateNextRun NewTaskControlService 1%N 0
  = (Panic "meta not set for task with ID 0000000000000001",
     NewTaskControlService) ∧
  AddRunLog NewTaskControlService 1%N 1%N 0 "log"
  = (Panic "cannot add a log to a non existent run", NewTaskControlService).
Proof.
  exact (missing_reference_panics NewTaskControlService 1%N 1%N 1%N 0 0 "log"
           eq_refl eq_refl eq_refl).
Defined.

(** C3 on [twoInFlight]: the run for 20s finishes first and moves the
    watermark of the dated task to 20; finishing the older run for 10s
    afterwards leaves it at 20. *)
Lemma FinishRun_watermark_monotone_witness :
  ∃ task',
    tasks (FinishRun (run_calls (finishes [(3%N, 2%N)]) Examples.twoInFlight)
                     3%N 1%N).2 !! 3%N = Some task' ∧
    20 ≤ watermark task'.
Proof.
  refine (FinishRun_watermark_monotone [(3%N, 2%N)] 3%N 1%N
            Examples.twoInFlight 3%N
            (Task.setLatestCompleted Examples.dated "1970-01-01T00:00:20Z")
            _ eq_refl).
  intros k j r Hr.
  destruct (twoInFlight_tracked k j r Hr) as [-> | ->];
    eexists; split; reflexivity.
Defined.

(** C2 on [fresh]: two runs are created for the first task, the first one
    finishes, and a third is created. *)
Lemma no_duplicate_ticks_witness :
  let d' := run_calls [CallCreateNextRun 1%N 10; CallCreateNextRun 1%N 30;
                       CallFinishRun 1%N 1%N; CallCreateNextRun 1%N 30]
                      Examples.fresh in
  (∀ tid, distinct_ticks d' tid) ∧
  (∀ tid task sch rid r,
     tasks d' !! tid = Some task →
     cron_Parse (Task_EffectiveCron task) = Some sch →
     tracked d' (Task.ID task) rid = Some r →
     Run.ScheduledFor r < nextTick d' task sch).
Proof.
  refine (no_duplicate_ticks _ Examples.fresh eq_refl fresh_schedules_advance _).
  intros tid rid1 rid2 r1 r2 Hr1. by rewrite fresh_nothing_tracked in Hr1.
Defined.

(** C4 at its failing input: the first run of a task whose
    [LatestCompleted] is empty finishes, it leaves the in-flight set, and
    the watermark is still empty, not the run's [ScheduledFor]. So the gate
    computes the same tick again. *)
Theorem FinishRun_first_run_keeps_empty_watermark :
  Task.LatestCompleted <$> tasks Examples.created !! 1%N = Some "" ∧
  tracked Examples.created 1%N 1%N = Some (Run.new 1%N (time_Unix 10 0)) ∧
  (FinishRun Examples.created 1%N 1%N).1 = Ok (Run.new 1%N (time_Unix 10 0)) ∧
  tracked (FinishRun Examples.created 1%N 1%N).2 1%N 1%N = None ∧
  Task.LatestCompleted <$> tasks (FinishRun Examples.created 1%N 1%N).2 !! 1%N
  = Some "" ∧
  Time_Format (time_Unix 10 0) = "1970-01-01T00:00:10Z" ∧
  QueuedRun.Now <$>
    (match (CreateNextRun (FinishRun Examples.created 1%N 1%N).2 1%N 10).1 with
     | Ok rc => Some (RunCreation.Created rc)
     | _ => None
     end)
  = Some 10.
Proof. repeat split; reflexivity. Qed.

(** C7 on four more tasks: every 45s, every 5m and every 12h fall in the
    three bands, and "-3h" fails. *)
Lemma TaskEffectiveCron_resolution_witness :
  TaskEffectiveCron (Task.mk 1%N "45s" "" "" "") = Ok "*/45 */1 */1 * * * *" ∧
  TaskEffectiveCron (Task.mk 1%N "5m" "" "" "") = Ok "0 */5 */1 * * * *" ∧
  TaskEffectiveCron (Task.mk 1%N "12h" "" "" "") = Ok "0 0 */12 * * * *" ∧
  TaskEffectiveCron (Task.mk 1%N "-3h" "" "" "") = Err ErrInvalidSchedule.
Proof.
  split; [|split; [|split]].
  - destruct (TaskEffectiveCron_resolution (Task.mk 1%N "45s" "" "" ""))
      as (_ & Hevery & _).
    destruct (Hevery eq_refl) as (Hbands & _).
    destruct (Hbands (45 * nanosPerSecond) eq_refl) as (Hseconds & _).
    apply Hseconds. unfold nanosPerSecond. lia.
  - destruct (TaskEffectiveCron_resolution (Task.mk 1%N "5m" "" "" ""))
      as (_ & Hevery & _).
    destruct (Hevery eq_refl) as (Hbands & _).
    destruct (Hbands (300 * nanosPerSecond) eq_refl) as (_ & Hminutes & _).
    apply Hminutes. unfold nanosPerSecond. lia.
  - destruct (TaskEffectiveCron_resolution (Task.mk 1%N "12h" "" "" ""))
      as (_ & Hevery & _).
    destruct (Hevery eq_refl) as (Hbands & _).
    destruct (Hbands (43200 * nanosPerSecond) eq_refl) as (_ & _ & Hhours & _).
    apply Hhours. unfold nanosPerSecond. lia.
  - destruct (TaskEffectiveCron_resolution (Task.mk 1%N "-3h" "" "" ""))
      as (_ & Hevery & _).
    destruct (Hevery eq_refl) as (_ & _ & _ & Hminus).
    by apply (Hminus "3h").
Defined.

(** X1 on [queued]: no queued run has the ID 9. *)
Lemma StartManualRun_not_found_witness :
  StartManualRun Examples.queued 1%N 9%N = (Err ErrRunNotFound, Examples.queued).
Proof.
  apply StartManualRun_not_found.
  intros r Hr. apply list_elem_of_singleton in Hr as ->. discriminate.
Defined.

(** X2 on [threeQueued]: the retry stands in the middle of the queue. *)
Lemma StartManualRun_takes_the_run_witness :
  StartManualRun Examples.threeQueued 1%N 8%N
  = (Ok Examples.retry,
     set_manualRuns Examples.threeQueued [Examples.backfill; Examples.late]).
Proof.
  apply (StartManualRun_takes_the_run Examples.threeQueued 1%N 8%N
           [Examples.backfill] [Examples.late] Examples.retry);
    [reflexivity|reflexivity|].
  intros r Hr. apply elem_of_cons in Hr as [->|Hr]; [discriminate|].
  apply list_elem_of_singleton in Hr as ->. discriminate.
Defined.

(** X3 on [twiceQueued]: the ID 7 is queued first and last. *)
Lemma StartManualRun_duplicate_panics_witness :
  ∃ d', StartManualRun Examples.twiceQueued 1%N 7%N
        = (Panic "slice bounds out of range", d').
Proof.
  exact (StartManualRun_duplicate_panics Examples.twiceQueued 1%N 7%N
           [] [Examples.retry] Examples.backfill Examples.again
           eq_refl eq_refl eq_refl).
Defined.

(** X4 on [fresh]: at 5s nothing is due for the first task. *)
Lemma CreateNextRun_without_run_changes_nothing_witness :
  (CreateNextRun Examples.fresh 1%N 5).1 = Err (ErrRunNotDueYet 10) ∧
  (CreateNextRun Examples.fresh 1%N 5).2 = Examples.fresh.
Proof.
  split; [reflexivity|].
  apply (CreateNextRun_without_run_changes_nothing Examples.fresh
           (CreateNextRun Examples.fresh 1%N 5).2 1%N 5
           (Err (ErrRunNotDueYet 10))); [reflexivity|discriminate].
Defined.

(** X5 on [fresh]: a poll that creates a run leaves the tasks alone. *)
Lemma tasks_change_in_SetTask_and_FinishRun_only_witness :
  tasks (perform Examples.fresh (OpCreateNextRun 1%N 10)) = tasks Examples.fresh.
Proof.
  apply tasks_change_in_SetTask_and_FinishRun_only; discriminate.
Defined.

(** X6 on [fresh]: the run for the tick at 10s announces 20s, and that is
    what [NextDueRun] answers afterwards. *)
Lemma NextDue_is_NextDueRun_witness :
  NextDueRun Examples.created 1%N = (Ok 20, Examples.created).
Proof.
  exact (NextDue_is_NextDueRun Examples.fresh Examples.created 1%N
           Examples.everyTenSeconds (Reference.every (10 * nanosPerSecond)) 10
           (RunCreation.mk (QueuedRun.mk 1%N 1%N 10) 20 false)
           eq_refl (every_ten_seconds "") (every_advances 10 eq_refl) eq_refl).
Defined.

(** X7 on [fresh]: of the polls of [busy], two return a run for the first
    task. *)
Lemma TotalRunsCreatedForTask_counts_witness :
  TotalRunsCreatedForTask (perform_all Examples.busy Examples.fresh) 1%N = 2.
Proof.
  exact (TotalRunsCreatedForTask_counts Examples.busy Examples.fresh 1%N eq_refl).
Defined.

(** X8 on [fresh]: an administrative run for 15s, created for the first
    task before anything is due, moves the next tick to 20s. *)
Lemma CreateRun_bypasses_the_gate_witness :
  ∃ run t',
    CreateRun Examples.fresh 1%N (time_Unix 15 0) = (Ok run, t') ∧
    tracked t' 1%N (Run.ID run) = Some run ∧
    time_Unix 15 0
    < nextTick t' Examples.everyTenSeconds (Reference.every (10 * nanosPerSecond)).
Proof.
  destruct (CreateRun_bypasses_the_gate Examples.fresh 1%N (time_Unix 15 0))
    as (run & t' & Hcall & _ & _ & Htracked & _ & _ & _ & _ & Hgate).
  exists run, t'. split; [done|]. split; [done|].
  apply Hgate; [reflexivity|]. by apply every_advances.
Defined.

(** X9 on [twoInFlight]: finishing the run for 20s leaves the run for 10s
    listed. *)
Lemma FinishRun_shrinks_CurrentlyRunning_witness :
  ∃ before after,
    (CurrentlyRunning Examples.twoInFlight 3%N).1 = Ok before ∧
    (CurrentlyRunning (FinishRun Examples.twoInFlight 3%N 2%N).2 3%N).1
    = Ok after ∧
    before ≡ₚ Run.new 2%N (time_Unix 20 0) :: after ∧
    length before = S (length after) ∧
    (∀ other, other ≠ 3%N →
       (CurrentlyRunning (FinishRun Examples.twoInFlight 3%N 2%N).2 other).1
       = (CurrentlyRunning Examples.twoInFlight other).1).
Proof.
  exact (FinishRun_shrinks_CurrentlyRunning Examples.twoInFlight 3%N 2%N
           (Run.new 2%N (time_Unix 20 0)) eq_refl).
Defined.

(** X10 on [fresh]: the first run of the first task. *)
Lemma CreateNextRun_grows_CurrentlyRunning_witness :
  ∃ run before after,
    Run.ID run = 1%N ∧ Time_Unix (Run.ScheduledFor run) = 10 ∧
    (CurrentlyRunning Examples.fresh 1%N).1 = Ok before ∧
    (CurrentlyRunning Examples.created 1%N).1 = Ok after ∧
    after ≡ₚ run :: before.
Proof.
  exact (CreateNextRun_grows_CurrentlyRunning Examples.fresh Examples.created
           1%N Examples.everyTenSeconds 10
           (RunCreation.mk (QueuedRun.mk 1%N 1%N 10) 20 false)
           eq_refl eq_refl eq_refl eq_refl).
Defined.

(** X11 on [twoInFlight]: the run for 20s is finished. *)
Lemma FinishRun_moves_run_to_finished_witness :
  ∃ d',
    FinishRun Examples.twoInFlight 3%N 2%N
    = (Ok (Run.new 2%N (time_Unix 20 0)), d') ∧
    tracked d' 3%N 2%N = None ∧
    FinishedRun d' 2%N = Some (Run.new 2%N (time_Unix 20 0)) ∧
    Run.new 2%N (time_Unix 20 0) ∈ FinishedRuns d' ∧
    manualRuns d' = manualRuns Examples.twoInFlight ∧
    totalRunsCreated d' = totalRunsCreated Examples.twoInFlight.
Proof.
  refine (FinishRun_moves_run_to_finished Examples.twoInFlight 3%N 2%N
            Examples.dated (Run.new 2%N (time_Unix 20 0)) eq_refl eq_refl _).
  right. by eexists.
Defined.

(** X12 on [garbledInFlight]: the watermark "yesterday" does not parse. *)
Lemma FinishRun_failure_drops_the_run_witness :
  (FinishRun Examples.garbledInFlight 5%N 1%N).1
  = Err (errTimeParse "yesterday") ∧
  tracked (FinishRun Examples.garbledInFlight 5%N 1%N).2 5%N 1%N = None ∧
  finishedRuns (FinishRun Examples.garbledInFlight 5%N 1%N).2
  = finishedRuns Examples.garbledInFlight.
Proof.
  destruct (FinishRun_failure_drops_the_run Examples.garbledInFlight 5%N 1%N
              (Run.new 1%N (time_Unix 10 0)) eq_refl)
    as (_ & Herr & Hgone & Hfinished & _).
  { right. exists Examples.garbled. by repeat split. }
  split; [exact (Herr Examples.garbled eq_refl)|by split].
Defined.

(** X13 on [created]: two log lines for the first run. *)
Lemma AddRunLog_appends_in_call_order_witness :
  ∃ run',
    tracked (addLogs 1%N 1%N
               [(time_Unix 11 0, "started"); (time_Unix 12 500000000, "done")]
               Examples.created) 1%N 1%N = Some run' ∧
    Run.Log run'
    = [Log.mk 1%N "1970-01-01T00:00:11Z" "started";
       Log.mk 1%N "1970-01-01T00:00:12.5Z" "done"] ∧
    Run.ID run' = 1%N ∧ Run.Status run' = "" ∧
    Run.ScheduledFor run' = time_Unix 10 0 ∧
    Run.StartedAt run' = zeroTime ∧ Run.FinishedAt run' = zeroTime.
Proof.
  exact (AddRunLog_appends_in_call_order
           [(time_Unix 11 0, "started"); (time_Unix 12 500000000, "done")]
           Examples.created 1%N 1%N (Run.new 1%N (time_Unix 10 0)) eq_refl).
Defined.

(** X16 on [threeQueued]: three polls at time 0 serve the three manual
    runs. *)
Lemma manual_queue_is_served_in_order_witness :
  manualRuns (poll 1%N [0; 0; 0] Examples.threeQueued).2 = [] ∧
  (RunCreation.Created <$> (poll 1%N [0; 0; 0] Examples.threeQueued).1)
  = [QueuedRun.mk 1%N 7%N 3600; QueuedRun.mk 1%N 8%N 60;
     QueuedRun.mk 1%N 9%N 7200] ∧
  (RunCreation.HasQueue <$> (poll 1%N [0; 0; 0] Examples.threeQueued).1)
  = [true; true; false].
Proof.
  exact (manual_queue_is_served_in_order [0; 0; 0] Examples.threeQueued 1%N
           Examples.everyTenSeconds eq_refl eq_refl eq_refl).
Defined.

(** X17 from the new service, through [busy] after the tasks are set. *)
Lemma runs_stay_filed_by_ID_witness :
  filed_by_ID (perform_all Examples.busy Examples.fresh).
Proof.
  apply runs_stay_filed_by_ID. split.
  - intros tid rid r Hr. by rewrite fresh_nothing_tracked in Hr.
  - intros rid r Hr. unfold FinishedRun in Hr. simpl in Hr.
    by rewrite lookup_empty in Hr.
Defined.

(** X18 on [twoInFlight]: the run for 20s is finished, the watermark moves
    there, and the next tick lies after 20s. *)
Lemma FinishRun_then_gate_moves_on_witness :
  ∃ t' d',
    FinishRun Examples.twoInFlight 3%N 2%N
    = (Ok (Run.new 2%N (time_Unix 20 0)), d') ∧
    tasks d' !! 3%N = Some t' ∧
    20 ≤ watermark t' ∧
    time_Unix 20 0 < nextTick d' t' (Reference.every (10 * nanosPerSecond)).
Proof.
  refine (FinishRun_then_gate_moves_on Examples.twoInFlight 3%N 2%N
            Examples.dated (Run.new 2%N (time_Unix 20 0)) 0
            (Reference.every (10 * nanosPerSecond))
            eq_refl eq_refl _ eq_refl _ (every_advances 10 eq_refl)).
  - discriminate.
  - eexists. split; reflexivity.
Defined.

(** X19 on [twoInFlight], ranging over the runs in the opposite order. *)
Lemma latest_in_any_range_order_witness :
  foldl (λ latest kr, if Time_Unix (Run.ScheduledFor kr.2) >? latest
                      then Time_Unix (Run.ScheduledFor kr.2) else latest)
        (watermark Examples.dated)
        (reverse (map_to_list (inflight Examples.twoInFlight 3%N)))
  = 20.
Proof.
  exact (proj1 (latest_in_any_range_order Examples.twoInFlight Examples.dated
                  (reverse (map_to_list (inflight Examples.twoInFlight 3%N)))
                  (reverse_Permutation _))).
Defined.

(** X20 on the new service: the task is found, and the poll at 10s does
    not end in a nil dereference. *)
Lemma SetTask_then_CreateNextRun_witness :
  tasks (SetTask NewTaskControlService Examples.everyTenSeconds) !! 1%N
  = Some Examples.everyTenSeconds ∧
  (CreateNextRun (SetTask NewTaskControlService Examples.everyTenSeconds)
                 1%N 10).1
  ≠ Panic "invalid memory address or nil pointer dereference".
Proof.
  assert (ID_Valid (Task.ID Examples.everyTenSeconds) = true) as Hvalid
    by reflexivity.
  destruct (SetTask_then_CreateNextRun NewTaskControlService
              Examples.everyTenSeconds 10 Hvalid) as [Hset Hcall].
  split; [exact Hset|apply Hcall].
Defined.

(** X21 on [fresh]: the first run of the first task. *)
Lemma CreateNextRun_is_listed_by_CreatedFor_witness :
  QueuedRun.mk 1%N 1%N 10 ∈ CreatedFor Examples.created 1%N.
Proof.
  exact (CreateNextRun_is_listed_by_CreatedFor Examples.fresh Examples.created
           1%N 10 (RunCreation.mk (QueuedRun.mk 1%N 1%N 10) 20 false) eq_refl).
Defined.

(** X14 on [shared]: the backfill is started for the first task. The
    second task, which holds the same object, reads it started; the
    first task's run for 10s, another object, is as it was. *)
Lemma run_updates_write_one_object_witness :
  Pointers.tracked Examples.shared 2%N 7%N = Some Examples.backfill ∧
  Pointers.tracked
    (Pointers.UpdateRunState Examples.shared 1%N 7%N (time_Unix 3601 0)
                             RunStarted).2 2%N 7%N
  = Some (Run.mk 7%N 1%N "started" (time_Unix 3600 0) (time_Unix 3601 0)
                 zeroTime zeroTime []) ∧
  Pointers.tracked
    (Pointers.UpdateRunState Examples.shared 1%N 7%N (time_Unix 3601 0)
                             RunStarted).2 1%N 1%N
  = Pointers.tracked Examples.shared 1%N 1%N ∧
  Pointers.tracked
    (Pointers.AddRunLog Examples.shared 1%N 7%N (time_Unix 3602 0)
                        "picked up").2 2%N 7%N
  = Some (Run.addLog Examples.backfill
            (Log.mk 7%N "1970-01-01T01:00:02Z" "picked up")).
Proof.
  assert (Pointers.pointer Examples.shared 1%N 7%N = Some 100%N) as Hp
    by reflexivity.
  assert (Pointers.deref Examples.shared 100%N = Some Examples.backfill)
    as Hrun by reflexivity.
  pose proof (run_updates_write_one_object Examples.shared 1%N 7%N 100%N
                Examples.backfill (time_Unix 3601 0) RunStarted
                "picked up" Hp Hrun) as Hwrite.
  cbv zeta in Hwrite.
  destruct Hwrite as (_ & _ & _ & _ & _ & Halias & Hother).
  split; [reflexivity|]. split; [|split].
  - destruct (Halias 2%N 7%N) as [Hstate _]; [reflexivity|].
    rewrite Hstate. reflexivity.
  - destruct (Hother 1%N 1%N) as [Hstate _]; [discriminate|]. exact Hstate.
  - pose proof (run_updates_write_one_object Examples.shared 1%N 7%N 100%N
                  Examples.backfill (time_Unix 3602 0) RunStarted
                  "picked up" Hp Hrun) as Hlog.
    cbv zeta in Hlog.
    destruct Hlog as (_ & _ & _ & _ & _ & Hlog & _).
    destruct (Hlog 2%N 7%N) as [_ Hstate]; [reflexivity|].
    rewrite Hstate. reflexivity.
Defined.

(** X22 on [shared]: the first task's run for 10s is held by one entry. *)
Lemma run_updates_on_unshared_run_witness :
  Pointers.view
    (Pointers.UpdateRunState Examples.shared 1%N 1%N (time_Unix 11 0)
                             RunStarted).2
  = (UpdateRunState (Pointers.view Examples.shared) 1%N 1%N (time_Unix 11 0)
                    RunStarted).2 ∧
  Pointers.view
    (Pointers.AddRunLog Examples.shared 1%N 1%N (time_Unix 12 0) "done").2
  = (AddRunLog (Pointers.view Examples.shared) 1%N 1%N (time_Unix 12 0)
               "done").2.
Proof.
  assert (Pointers.pointer Examples.shared 1%N 1%N = Some 101%N) as Hp
    by reflexivity.
  assert (Pointers.deref Examples.shared 101%N
          = Some (Run.new 1%N (time_Unix 10 0))) as Hrun by reflexivity.
  assert (∀ k j, Pointers.pointer Examples.shared k j = Some 101%N →
                 k = 1%N ∧ j = 1%N) as Honly.
  { intros k j. unfold Pointers.pointer, Examples.shared.
    cbn [Pointers.runs]. unfold influxdb.ID, Pointers.ptr in *.
    rewrite lookup_insert.
    destruct (decide (1%N = k)) as [<-|_].
    - cbn [mbind option_bind]. rewrite lookup_insert.
      destruct (decide (7%N = j)) as [<-|_]; [discriminate|].
      rewrite lookup_singleton. by destruct (decide (1%N = j)) as [<-|_].
    - rewrite lookup_singleton. destruct (decide (2%N = k)) as [<-|_]; [|done].
      cbn [mbind option_bind]. rewrite lookup_singleton.
      by destruct (decide (7%N = j)). }
  destruct (run_updates_on_unshared_run Examples.shared 1%N 1%N 101%N
              (Run.new 1%N (time_Unix 10 0)) (time_Unix 11 0) RunStarted
              "unused" Hp Hrun Honly) as (_ & Hstate & _).
  { apply not_elem_of_nil. }
  { intros j. cbn [Examples.shared Pointers.finishedRuns].
    unfold Examples.shared. cbn [Pointers.finishedRuns].
    by rewrite lookup_empty. }
  destruct (run_updates_on_unshared_run Examples.shared 1%N 1%N 101%N
              (Run.new 1%N (time_Unix 10 0)) (time_Unix 12 0) RunStarted
              "done" Hp Hrun Honly) as (_ & _ & _ & Hlog).
  { apply not_elem_of_nil. }
  { intros j. unfold Examples.shared. cbn [Pointers.finishedRuns].
    by rewrite lookup_empty. }
  split; [exact Hstate|exact Hlog].
Defined.
